(** * MowBot: the job-lifecycle and session engine of [telegram_bot.py]

    A shallow embedding of the handlers of [src/telegram_bot.py] that touch
    the [grounds_data] table, the per-user [context.user_data] dictionary and
    the [photos/] directory, followed by the properties of the job
    life cycle, the assignment work flow and the photo ledger.

    Conventions of the embedding.
    - A Python [str] is a Rocq [string]; only ASCII text is considered.
    - The table [grounds_data] is a finite map from the primary key [id]
      to a row; every column but the key is nullable, hence an [option].
    - [context.user_data] is a finite map from string keys to values.
    - The wall clock ([datetime.now()]) is an argument of each handler.
    - A handler returns the screen it renders together with the new state;
      SQLite errors are not modelled (every statement succeeds). *)

From stdpp Require Import base gmap sets list strings sorting pretty.
From Stdlib Require Import ZArith Lia Ascii.

(** ** Python string primitives *)

Module PyStr.

(** [sub in s] on strings: [sub] occurs in [s] as a contiguous block. *)
Fixpoint contains (sub s : string) : bool :=
  String.prefix sub s ||
  match s with
  | EmptyString => false
  | String _ s' => contains sub s'
  end.

(** [str.isspace] on the ASCII range. *)
Definition is_space (c : ascii) : bool :=
  let n := nat_of_ascii c in
  ((9 <=? n)%nat && (n <=? 13)%nat) || ((28 <=? n)%nat && (n <=? 32)%nat).

Fixpoint lstrip (s : string) : string :=
  match s with
  | EmptyString => EmptyString
  | String c s' => if is_space c then lstrip s' else s
  end.

Fixpoint rstrip (s : string) : string :=
  match s with
  | EmptyString => EmptyString
  | String c s' =>
      match rstrip s' with
      | EmptyString => if is_space c then EmptyString else String c EmptyString
      | r => String c r
      end
  end.

(** [s.strip()] *)
Definition strip (s : string) : string := lstrip (rstrip s).

(** [s.split(sep)] for a one-character separator: never the empty list. *)
Fixpoint split (sep : ascii) (s : string) : list string :=
  match s with
  | EmptyString => [EmptyString]
  | String c s' =>
      if Ascii.eqb c sep then EmptyString :: split sep s'
      else match split sep s' with
           | x :: xs => String c x :: xs
           | [] => [String c EmptyString]
           end
  end.

(** [sep.join(l)] *)
Fixpoint join (sep : string) (l : list string) : string :=
  match l with
  | [] => EmptyString
  | [x] => x
  | x :: xs => x +:+ sep +:+ join sep xs
  end.

(** Truth value of an optional string: [None] and [""] are false. *)
Definition truthy (o : option string) : bool :=
  match o with
  | Some (String _ _) => true
  | _ => false
  end.

End PyStr.

(** ** [datetime]: naive local time stamps and their ISO 8601 text *)

Module DateTime.

Local Open Scope N_scope.

Record datetime := mk_datetime {
  year : N; month : N; day : N;
  hour : N; minute : N; second : N; microsecond : N
}.

Definition is_leap (y : N) : bool :=
  (y mod 4 =? 0) && negb (y mod 100 =? 0) || (y mod 400 =? 0).

Definition days_in_month (y m : N) : N :=
  match m with
  | 2 => if is_leap y then 29 else 28
  | 4 | 6 | 9 | 11 => 30
  | _ => 31
  end.

(** The values a Python [datetime] can hold. *)
Definition valid (d : datetime) : bool :=
  (1 <=? year d) && (year d <=? 9999) &&
  (1 <=? month d) && (month d <=? 12) &&
  (1 <=? day d) && (day d <=? days_in_month (year d) (month d)) &&
  (hour d <? 24) && (minute d <? 60) && (second d <? 60) &&
  (microsecond d <? 1000000).

Definition digit (n : N) : ascii := ascii_of_N (48 + n mod 10).

(** [k] decimal digits of [n], most significant first (the [%0kd] format). *)
Fixpoint pad (k : nat) (n : N) : string :=
  match k with
  | O => EmptyString
  | S k' => pad k' (n / 10) +:+ String (digit n) EmptyString
  end.

(** [d.date().isoformat()]: [YYYY-MM-DD]. *)
Definition date_isoformat (d : datetime) : string :=
  pad 4 (year d) +:+ "-" +:+ pad 2 (month d) +:+ "-" +:+ pad 2 (day d).

(** [d.isoformat()]: [YYYY-MM-DDTHH:MM:SS], followed by [.ffffff] when the
    microsecond field is not zero. *)
Definition isoformat (d : datetime) : string :=
  date_isoformat d +:+ "T" +:+ pad 2 (hour d) +:+ ":" +:+ pad 2 (minute d)
    +:+ ":" +:+ pad 2 (second d)
    +:+ (if microsecond d =? 0 then "" else "." +:+ pad 6 (microsecond d)).

Definition digit_val (c : ascii) : option N :=
  let n := N_of_ascii c in
  if (48 <=? n) && (n <=? 57) then Some (n - 48) else None.

(** Read exactly [k] decimal digits from the front of [s], continuing the
    number [acc]. *)
Fixpoint digits (k : nat) (acc : N) (s : string) : option (N * string) :=
  match k with
  | O => Some (acc, s)
  | S k' =>
      match s with
      | EmptyString => None
      | String c s' => v ← digit_val c; digits k' (10 * acc + v) s'
      end
  end.

Definition expect (c : ascii) (s : string) : option string :=
  match s with
  | String c' s' => if Ascii.eqb c c' then Some s' else None
  | EmptyString => None
  end.

(** [datetime.fromisoformat(s)], restricted to the texts [isoformat] writes
    (the only ones the bot stores); [None] stands for [ValueError].  Python
    accepts more ISO 8601 spellings (another separator, a date alone,
    shorter times, offsets), none of which the bot produces: what is proved
    about a stored time stamp is proved for a text [isoformat] wrote or for
    an unset column, where this function and Python's agree. *)
Definition fromisoformat (s : string) : option datetime :=
  '(y, s) ← digits 4 0 s; s ← expect "-" s;
  '(mo, s) ← digits 2 0 s; s ← expect "-" s;
  '(d, s) ← digits 2 0 s; s ← expect "T" s;
  '(h, s) ← digits 2 0 s; s ← expect ":" s;
  '(mi, s) ← digits 2 0 s; s ← expect ":" s;
  '(sec, s) ← digits 2 0 s;
  '(us, s) ← match s with
             | EmptyString => Some (0, s)
             | _ => s ← expect "." s; digits 6 0 s
             end;
  let r := mk_datetime y mo d h mi sec us in
  match s with
  | EmptyString => if valid r then Some r else None
  | _ => None
  end.

Definition fields (d : datetime) : list N :=
  [year d; month d; day d; hour d; minute d; second d; microsecond d].

(** Lexicographic comparison, as Python compares naive datetimes. *)
Fixpoint lex_leb (a b : list N) : bool :=
  match a, b with
  | x :: a', y :: b' => (x <? y) || ((x =? y) && lex_leb a' b')
  | [], _ => true
  | _ :: _, [] => false
  end.

Definition leb (a b : datetime) : bool := lex_leb (fields a) (fields b).

End DateTime.

Import DateTime.

(** ** The [grounds_data] table *)

(** One row of [grounds_data], without its key [id].  [start_time] and
    [finish_time] hold the text of [datetime.isoformat()]. *)
Record Job := mk_job {
  site_name : option string;
  quote : option string;
  address : option string;
  order_no : option string;
  order_period : option string;
  area : option string;
  summer_schedule : option string;
  winter_schedule : option string;
  contact : option string;
  gate_code : option string;
  map_link : option string;
  assigned_to : option Z;
  status : option string;
  photos : option string;
  start_time : option string;
  finish_time : option string;
  notes : option string;
  scheduled_date : option string;
  priority : option string
}.

(** [SET column = v] for the columns the bot writes. *)
Definition set_assigned_to (v : option Z) (j : Job) : Job :=
  mk_job (site_name j) (quote j) (address j) (order_no j) (order_period j)
    (area j) (summer_schedule j) (winter_schedule j) (contact j) (gate_code j)
    (map_link j) v (status j) (photos j) (start_time j) (finish_time j)
    (notes j) (scheduled_date j) (priority j).

Definition set_status (v : option string) (j : Job) : Job :=
  mk_job (site_name j) (quote j) (address j) (order_no j) (order_period j)
    (area j) (summer_schedule j) (winter_schedule j) (contact j) (gate_code j)
    (map_link j) (assigned_to j) v (photos j) (start_time j) (finish_time j)
    (notes j) (scheduled_date j) (priority j).

Definition set_photos (v : option string) (j : Job) : Job :=
  mk_job (site_name j) (quote j) (address j) (order_no j) (order_period j)
    (area j) (summer_schedule j) (winter_schedule j) (contact j) (gate_code j)
    (map_link j) (assigned_to j) (status j) v (start_time j) (finish_time j)
    (notes j) (scheduled_date j) (priority j).

Definition set_start_time (v : option string) (j : Job) : Job :=
  mk_job (site_name j) (quote j) (address j) (order_no j) (order_period j)
    (area j) (summer_schedule j) (winter_schedule j) (contact j) (gate_code j)
    (map_link j) (assigned_to j) (status j) (photos j) v (finish_time j)
    (notes j) (scheduled_date j) (priority j).

Definition set_finish_time (v : option string) (j : Job) : Job :=
  mk_job (site_name j) (quote j) (address j) (order_no j) (order_period j)
    (area j) (summer_schedule j) (winter_schedule j) (contact j) (gate_code j)
    (map_link j) (assigned_to j) (status j) (photos j) (start_time j) v
    (notes j) (scheduled_date j) (priority j).

(** A freshly provisioned row: [status] takes its default ['pending'],
    [priority] its default ['normal'], everything else is [NULL]. *)
Definition new_job (name : string) : Job :=
  mk_job (Some name) None None None None None None None None None None
    None (Some "pending") None None None None None (Some "normal").

(** ** [context.user_data] *)

Inductive value :=
| VInt (n : Z)
| VBool (b : bool)
| VStr (s : string)
| VSet (s : gset Z)
| VList (l : list string).

(** Python's truth value of a stored value. *)
Definition value_truthy (v : value) : bool :=
  match v with
  | VInt n => negb (bool_decide (n = 0%Z))
  | VBool b => b
  | VStr s => negb (bool_decide (s = ""))
  | VSet s => negb (bool_decide (s = ∅))
  | VList l => negb (bool_decide (l = []))
  end.

(** The state the handlers work on: the table, the dictionary of the user
    the update comes from, and the names of the files in [photos/]. *)
Record World := mk_world {
  db : gmap Z Job;
  user_data : gmap string value;
  files : gset string
}.

Definition with_db (d : gmap Z Job) (w : World) : World :=
  mk_world d (user_data w) (files w).
Definition with_user_data (u : gmap string value) (w : World) : World :=
  mk_world (db w) u (files w).
Definition with_files (f : gset string) (w : World) : World :=
  mk_world (db w) (user_data w) f.

(** What a handler shows to the user. *)
Record job_button := mk_button {
  jb_id : Z; jb_selected : bool; jb_site_name : option string; jb_area : option string
}.

Inductive screen :=
| JobNotFound               (* "Job not found" *)
| AlreadyStarted            (* "Already Started", JOB_IN_PROGRESS *)
| JobStarted                (* "Job Started", then the job list *)
| AlreadyCompleted          (* "Already Completed", JOB_COMPLETED *)
| NotStarted                (* "Not Started", JOB_NOT_STARTED *)
| JobCompleted              (* "Job Completed", then the job list *)
| NoPhotoExpected           (* "No photo expected at this time." *)
| PhotoVerificationFailed   (* "Photo verification failed." *)
| PhotoLimitReached         (* "Photo Limit Reached" *)
| PhotoUploaded (today_count : nat)   (* "Photo uploaded ... (n/25 ...)" *)
| PhotoStored               (* bulk mode: stored without a confirmation *)
| BulkUploadPrompt          (* "Bulk Photo Upload Mode" *)
| JobMenu (job_id : Z)
| NotePrompt (job_id : Z)   (* "Please send the note for ..." *)
| EmployeeDashboard
| NoJobsAvailable           (* "No Jobs Available" *)
| AssignPage (rows : list job_button) (previous next assign_selected : bool)
| ToggleError               (* "Error toggling job selection." *)
| NoJobsSelected            (* "No Jobs Selected" *)
| EmployeeChoice            (* "Select Employee" *)
| DirectorDashboard         (* "Jobs Assigned", then the director dashboard *)
| NoPhotos (photo_date : string)              (* "No photos available ..." *)
| PhotoGrid (photo_date : string) (paths : list string)
| JobCard (photo_date : string) (paths : list string)
| Fault.                    (* an exception left the handler *)

(** ** Photo ledger helpers *)

(** [filter_photos_by_date(photos_str, target_date)] *)
Definition filter_photos_by_date (photos_str : option string) (target_date : string)
  : list string :=
  if negb (PyStr.truthy photos_str) || negb (PyStr.truthy (PyStr.strip <$> photos_str))
  then []
  else
    let photo_paths := PyStr.split "|" (PyStr.strip (default "" photos_str)) in
    filter (λ path, PyStr.contains target_date path = true) photo_paths.

(** [count_photos_for_date(photos_str, target_date)] *)
Definition count_photos_for_date (photos_str : option string) (target_date : string) : nat :=
  length (filter_photos_by_date photos_str target_date).

(** The name [handle_photo] gives to an upload:
    [os.path.join("photos", f"job_{job_id}_{today}_{file_id}.jpg")]. *)
Definition photo_path (job_id : Z) (today file_id : string) : string :=
  "photos/" +:+ "job_" +:+ pretty job_id +:+ "_" +:+ today +:+ "_" +:+ file_id +:+ ".jpg".

(** The photo of an incoming message: Telegram's file id and whether PIL can
    decode the bytes. *)
Record photo_msg := mk_photo { file_id : string; decodable : bool }.

Definition photo_limit : nat := 25.

(** The new value of the [photos] column in [handle_photo]:
    [current.strip() + "|" + photo_path if current and current.strip() else photo_path]. *)
Definition append_photo_path (current path : string) : string :=
  if PyStr.truthy (Some current) && PyStr.truthy (Some (PyStr.strip current))
  then PyStr.strip current +:+ "|" +:+ path
  else path.

(** [handle_photo]: the message handler for photos. *)
Definition handle_photo (now : datetime) (ph : photo_msg) (w : World) : screen * World :=
  match user_data w !! "awaiting_photo_for" with
  | None => (NoPhotoExpected, w)
  | Some (VInt job_id) =>
      let today := date_isoformat now in
      let path := photo_path job_id today (file_id ph) in
      if negb (decodable ph) then (PhotoVerificationFailed, w)
      else
        (* img.save(photo_path, format='JPEG') *)
        let w := with_files ({[path]} ∪ files w) w in
        let current := default "" (db w !! job_id ≫= photos) in
        let new_photos := append_photo_path current path in
        let today_count := length (filter_photos_by_date (Some new_photos) today) in
        if (photo_limit <? today_count)%nat then (PhotoLimitReached, w)
        else
          let w := with_db (alter (set_photos (Some new_photos)) job_id (db w)) w in
          if value_truthy (default (VBool false) (user_data w !! "bulk_upload_mode"))
          then (PhotoStored, w)
          else (PhotoUploaded today_count, w)
  | Some _ => (Fault, w)
  end.

(** [emp_upload_photo]: enter bulk upload mode for a job. *)
Definition emp_upload_photo (now : datetime) (job_id : Z) (w : World) : screen * World :=
  match db w !! job_id with
  | None => (Fault, w)       (* cursor.fetchone() is None *)
  | Some j =>
      let photos_str := default "" (photos j) in
      let today := date_isoformat now in
      let today_count := count_photos_for_date (Some photos_str) today in
      if (photo_limit <=? today_count)%nat then (PhotoLimitReached, w)
      else
        (BulkUploadPrompt,
         with_user_data
           (<["return_to_job_menu" := VBool true]>
              (<["bulk_upload_mode" := VBool true]>
                 (<["awaiting_photo_for" := VInt job_id]> (user_data w)))) w)
  end.

(** [finish_photo_upload]: leave bulk upload mode. *)
Definition finish_photo_upload (job_id : Z) (w : World) : screen * World :=
  let w := with_user_data
             (delete "bulk_upload_mode" (delete "awaiting_photo_for" (user_data w))) w in
  match db w !! job_id with
  | None => (Fault, w)
  | Some _ => (JobMenu job_id, w)
  end.



(** ** Job life cycle *)

(** [SET status = 'in_progress', start_time = ?] *)
Definition started (now : datetime) (j : Job) : Job :=
  set_start_time (Some (isoformat now)) (set_status (Some "in_progress") j).

(** [SET status = 'completed', finish_time = ?] *)
Definition finished (now : datetime) (j : Job) : Job :=
  set_finish_time (Some (isoformat now)) (set_status (Some "completed") j).

(** [emp_start_job] *)
Definition emp_start_job (now : datetime) (job_id : Z) (d : gmap Z Job)
  : screen * gmap Z Job :=
  match d !! job_id with
  | None => (JobNotFound, d)
  | Some j =>
      if bool_decide (status j = Some "in_progress") then (AlreadyStarted, d)
      else (JobStarted, alter (started now) job_id d)
  end.

(** [emp_finish_job] *)
Definition emp_finish_job (now : datetime) (job_id : Z) (d : gmap Z Job)
  : screen * gmap Z Job :=
  match d !! job_id with
  | None => (JobNotFound, d)
  | Some j =>
      if bool_decide (status j = Some "completed") then (AlreadyCompleted, d)
      else if bool_decide (status j ≠ Some "in_progress") then (NotStarted, d)
      else (JobCompleted, alter (finished now) job_id d)
  end.

(** The [WHERE] clause of the daily reset;
    [today] is SQLite's [date('now','localtime')]. *)
Definition reset_applies (today : string) (j : Job) : bool :=
  (bool_decide (status j = Some "completed") || bool_decide (status j = Some "in_progress"))
  && (bool_decide (scheduled_date j = None) || bool_decide (scheduled_date j = Some today)).

(** The [SET] clause of the daily reset. *)
Definition reset_row (j : Job) : Job :=
  set_finish_time None (set_start_time None (set_assigned_to None (set_status (Some "pending") j))).

(** [reset_jobs_daily] *)
Definition reset_jobs_daily (now : datetime) (d : gmap Z Job) : gmap Z Job :=
  (λ j, if reset_applies (date_isoformat now) j then reset_row j else j) <$> d.

(** ** Assignment work flow *)

(** [context.user_data.get("selected_jobs", set())]; [None] when the key
    holds something that is not a set. *)
Definition get_selected_jobs (u : gmap string value) : option (gset Z) :=
  match u !! "selected_jobs" with
  | None => Some ∅
  | Some (VSet s) => Some s
  | Some _ => None
  end.

(** [context.user_data.get("current_page", 1)] *)
Definition get_current_page (u : gmap string value) : option Z :=
  match u !! "current_page" with
  | None => Some 1%Z
  | Some (VInt p) => Some p
  | Some _ => None
  end.

(** [ORDER BY id] compares rows by their key. *)
Definition by_id (a b : Z * Job) : Prop := (a.1 ≤ b.1)%Z.

#[global] Instance by_id_dec : RelDecision by_id.
Proof. intros a b. unfold by_id. apply _. Defined.

(** [SELECT ... WHERE assigned_to IS NULL ORDER BY id] *)
Definition unassigned_jobs (d : gmap Z Job) : list (Z * Job) :=
  merge_sort by_id (filter (λ r, assigned_to r.2 = None) (map_to_list d)).

(** [... LIMIT ? OFFSET ?]; SQLite reads a negative offset as zero. *)
Definition limit_offset {A} (limit offset : Z) (rows : list A) : list A :=
  take (Z.to_nat limit) (drop (Z.to_nat offset) rows).

Definition jobs_per_page : Z := 10.

(** The rows [build_director_assign_jobs_page] fetches for [page]. *)
Definition page_jobs (page : Z) (d : gmap Z Job) : list (Z * Job) :=
  limit_offset jobs_per_page ((page - 1) * jobs_per_page) (unassigned_jobs d).

(** [build_director_assign_jobs_page] *)
Definition build_director_assign_jobs_page (page : Z) (w : World) : screen :=
  let jobs := page_jobs page (db w) in
  if bool_decide (jobs = []) then NoJobsAvailable
  else
    match get_selected_jobs (user_data w) with
    | None => Fault
    | Some selected_jobs =>
        AssignPage
          (map (λ r, mk_button r.1 (bool_decide (r.1 ∈ selected_jobs))
                       (site_name r.2) (area r.2)) jobs)
          (bool_decide (1 < page)%Z)
          (bool_decide (Z.of_nat (length jobs) = jobs_per_page))
          (negb (bool_decide (selected_jobs = ∅)))
    end.

(** The job ids of the toggle buttons of a screen, top to bottom. *)
Definition shown_on (s : screen) : list Z :=
  match s with
  | AssignPage rows _ _ _ => jb_id <$> rows
  | _ => []
  end.


(** [director_assign_jobs_list]: enter the work flow. *)
Definition director_assign_jobs_list (w : World) : screen * World :=
  let w := with_user_data
             (<["current_page" := VInt 1]> (<["selected_jobs" := VSet ∅]> (user_data w))) w in
  (build_director_assign_jobs_page 1 w, w).


(** The membership flip of [handle_toggle_job]. *)
Definition toggle (job_id : Z) (selected_jobs : gset Z) : gset Z :=
  if bool_decide (job_id ∈ selected_jobs) then selected_jobs ∖ {[job_id]}
  else selected_jobs ∪ {[job_id]}.

(** [handle_toggle_job]; its [except] clause turns every fault into an alert. *)
Definition handle_toggle_job (job_id : Z) (w : World) : screen * World :=
  match get_selected_jobs (user_data w) with
  | None => (ToggleError, w)
  | Some selected_jobs =>
      let w' := with_user_data
                  (<["selected_jobs" := VSet (toggle job_id selected_jobs)]> (user_data w)) w in
      match get_current_page (user_data w') with
      | None => (ToggleError, w')
      | Some current_page =>
          match build_director_assign_jobs_page current_page w' with
          | Fault => (ToggleError, w')
          | s => (s, w')
          end
      end
  end.

(** [director_assign_jobs]: the "Assign Selected" button. *)
Definition director_assign_jobs (w : World) : screen * World :=
  match user_data w !! "selected_jobs" with
  | None => (NoJobsSelected, w)
  | Some v => if value_truthy v then (EmployeeChoice, w) else (NoJobsSelected, w)
  end.

(** SQLite stores an integer in 64 bits.  Binding a Python [int] outside
    that range as a statement parameter makes [cursor.execute] raise
    [OverflowError], which is no [sqlite3.Error]. *)
Definition sqlite_int (n : Z) : bool := (- 2 ^ 63 <=? n)%Z && (n <? 2 ^ 63)%Z.

(** [UPDATE grounds_data SET assigned_to = ? WHERE id = ?] *)
Definition update_assigned_to (employee_id job_id : Z) (d : gmap Z Job) : gmap Z Job :=
  alter (set_assigned_to (Some employee_id)) job_id d.

(** [for job_id in selected_jobs: cursor.execute("UPDATE ...", (employee_id,
    job_id))], the ids taken in the order the set yields them.  The loop
    stops at the first statement whose parameters cannot be bound; the rows
    written until then stay written on the shared connection.  The flag
    tells whether the loop came to its end. *)
Fixpoint assign_loop (employee_id : Z) (order : list Z) (d : gmap Z Job)
  : bool * gmap Z Job :=
  match order with
  | [] => (true, d)
  | job_id :: order' =>
      if sqlite_int employee_id && sqlite_int job_id
      then assign_loop employee_id order' (update_assigned_to employee_id job_id d)
      else (false, d)
  end.

(** [assign_jobs_to_employee].  [iter] is the order in which Python yields
    the elements of a set, which depends on its hash table.  The
    [OverflowError] of the loop is not caught by [except sqlite3.Error]:
    the handler ends there, without the dashboard and with the selection
    still stored. *)
Definition assign_jobs_to_employee (iter : gset Z → list Z) (employee_id : Z) (w : World)
  : screen * World :=
  match get_selected_jobs (user_data w) with
  | None => (Fault, w)
  | Some selected_jobs =>
      if bool_decide (selected_jobs = ∅) then (NoJobsSelected, w)
      else
        let r := assign_loop employee_id (iter selected_jobs) (db w) in
        if r.1
        then (DirectorDashboard,
              with_user_data (delete "selected_jobs" (user_data w)) (with_db r.2 w))
        else (Fault, with_db r.2 w)
  end.

(** ** Viewing photos *)

(** The date whose photos are shown, as [view_job_photos_grid],
    [view_job_photos] and [director_send_job] compute it. *)
Definition photo_date_of (finish_time : option string) (now : datetime) : string :=
  if PyStr.truthy finish_time then
    match finish_time ≫= fromisoformat with
    | Some finish_datetime => date_isoformat finish_datetime
    | None => date_isoformat now      (* except Exception *)
    end
  else date_isoformat now.

(** [view_job_photos_grid] *)
Definition view_job_photos_grid (now : datetime) (job_id : Z) (w : World) : screen * World :=
  match db w !! job_id with
  | None => (JobNotFound, w)
  | Some j =>
      let photo_date := photo_date_of (finish_time j) now in
      let photo_paths := filter_photos_by_date (photos j) photo_date in
      if bool_decide (photo_paths = []) then (NoPhotos photo_date, w)
      else
        (PhotoGrid photo_date photo_paths,
         with_user_data
           (<["photo_date" := VStr photo_date]>
              (<["current_page" := VInt 0]>
                 (<["job_id" := VInt job_id]>
                    (<["job_photos" := VList photo_paths]> (user_data w))))) w)
  end.

(** [director_send_job]: the job card of the director, with the photos of
    the effective date. *)
Definition director_send_job (now : datetime) (job_id : Z) (w : World) : screen * World :=
  match db w !! job_id with
  | None => (JobNotFound, w)
  | Some j =>
      let photo_date := photo_date_of (finish_time j) now in
      (JobCard photo_date (filter_photos_by_date (photos j) photo_date), w)
  end.


(** ** Notions of the specification *)

(** [finishTime ≥ startTime], on the stored texts. *)
Definition timestamps_ordered (j : Job) : Prop :=
  match start_time j ≫= fromisoformat, finish_time j ≫= fromisoformat with
  | Some s, Some f => DateTime.leb s f = true
  | _, _ => False
  end.

(** The invariant of a job: no time stamp while pending, only the start
    while in progress, both and in order once completed. *)
Definition job_invariant (j : Job) : Prop :=
  (status j = Some "pending" → start_time j = None ∧ finish_time j = None) ∧
  (status j = Some "in_progress" → start_time j ≠ None ∧ finish_time j = None) ∧
  (status j = Some "completed" →
     start_time j ≠ None ∧ finish_time j ≠ None ∧ timestamps_ordered j).

#[global] Instance timestamps_ordered_dec j : Decision (timestamps_ordered j).
Proof. unfold timestamps_ordered. repeat case_match; apply _. Defined.

#[global] Instance job_invariant_dec j : Decision (job_invariant j).
Proof. unfold job_invariant. apply _. Defined.

(** The awaiting-input flags of a session. *)
Definition awaiting_photo (u : gmap string value) : Prop := is_Some (u !! "awaiting_photo_for").
Definition awaiting_note (u : gmap string value) : Prop := is_Some (u !! "awaiting_note_for").
Definition at_most_one_awaiting (u : gmap string value) : Prop :=
  ¬ (awaiting_photo u ∧ awaiting_note u).

#[global] Instance at_most_one_awaiting_dec u : Decision (at_most_one_awaiting u).
Proof. unfold at_most_one_awaiting, awaiting_photo, awaiting_note. apply _. Defined.

(** A photo reference: the job, the upload date and Telegram's file id, which
    [handle_photo] puts into the file name. *)
Record photo_ref := mk_ref { pr_job : Z; pr_date : string; pr_file_id : string }.

Definition ref_path (r : photo_ref) : string :=
  photo_path (pr_job r) (pr_date r) (pr_file_id r).

(** The [photos] column after the references were appended in this order. *)
Definition photos_column (refs : list photo_ref) : option string :=
  fold_left (λ cur r, Some (append_photo_path (default "" cur) (ref_path r))) refs None.

(** The selection set of a session, empty when none is stored. *)
Definition selection (u : gmap string value) : gset Z :=
  default ∅ (get_selected_jobs u).

(** ** Sample data *)

Module Sample.

Definition t0800 : datetime := mk_datetime 2024 3 1 8 0 0 0.
Definition t0930 : datetime := mk_datetime 2024 3 1 9 30 0 0.
Definition t1000 : datetime := mk_datetime 2024 3 1 10 0 0 0.
Definition next_day : datetime := mk_datetime 2024 3 2 7 15 0 0.

(** Job 42 while pending, in progress since 08:00, and completed at 09:30. *)
Definition pending_job : Job := set_assigned_to (Some 7%Z) (new_job "Depot").
Definition started_job : Job :=
  set_start_time (Some (isoformat t0800)) (set_status (Some "in_progress") pending_job).
Definition completed_job : Job :=
  set_finish_time (Some (isoformat t0930)) (set_status (Some "completed") started_job).

Definition db_pending : gmap Z Job := {[ 42%Z := pending_job ]}.
Definition db_started : gmap Z Job := {[ 42%Z := started_job ]}.
Definition db_completed : gmap Z Job := {[ 42%Z := completed_job ]}.

(** A table with an unassigned job 5 next to job 42. *)
Definition db_two : gmap Z Job := <[ 5%Z := new_job "Orchard" ]> db_completed.

Definition world (d : gmap Z Job) (u : gmap string value) : World := mk_world d u ∅.

(** Twenty-five photos of job 42, all uploaded on 2024-03-01. *)
Definition refs25 : list photo_ref :=
  (λ k : nat, mk_ref 42 "2024-03-01" ("AgAC" +:+ pretty k)) <$> seq 1 25.

Definition full_job : Job := set_photos (photos_column refs25) started_job.

(** The session of the employee in upload mode on job 42, with the quota of
    the day used up. *)
Definition world_full : World :=
  world {[ 42%Z := full_job ]} {[ "awaiting_photo_for" := VInt 42 ]}.

(** A photo of 2024-03-02 whose Telegram file id happens to spell the date
    of the day before. *)
Definition stray_ref : photo_ref := mk_ref 7 "2024-03-02" "AB2024-03-01CD".

End Sample.

(** * Further handlers *)

(** ** Site directory *)

(** The table of [update_site_info]: per site name, the contact and the gate
    code that replace the stored ones (absent where the entry has no such
    key). *)
Definition SITE_INFO_UPDATES : list (string * (option string * option string)) :=
  [ ("Avonmouth wind farm", (Some "Operational control - 03452008173", None));
    ("Orchard medical centre", (Some "Ollie - 07542826816", Some "2489Z"));
    ("Vauxhall Weston super mare", (Some "Simon - 07403320588", None));
    ("Hannah more primary school", (Some "Bob - 07766065032", None));
    ("Bristol card solutions", (Some "Dan - 07545053817", None));
    ("Greenfield Gospel", (None, Some "1510"));
    ("Magpie cottage", (None, Some "1275"));
    ("Vauxhall Bristol", (Some "Mike - 07865936855", None));
    ("Ipeco composites", (Some "Graeme - 07880006105", None));
    ("Patchway Camera studios", (None, Some "08710"));
    ("Rowling gate 1", (None, Some "C1720"));
    ("Wessex water", (None, Some "5969"));
    ("Mercedes Bristol", (None, Some "0832"));
    ("Cabot Barton man", (None, Some "7489"));
    ("Trinity lodge", (None, Some "3841"));
    ("BioTechne", (Some "James - 07970743364", None)) ].

(** [site_name in SITE_INFO_UPDATES] and [SITE_INFO_UPDATES[site_name]]. *)
Definition site_info_lookup (site_name : option string)
  : option (option string * option string) :=
  site_name ≫= λ n, (list_to_map SITE_INFO_UPDATES : gmap string _) !! n.

(** [update_site_info(site_name, contact, gate_code)] *)
Definition update_site_info (site_name contact gate_code : option string)
  : option string * option string :=
  match site_info_lookup site_name with
  | Some info =>
      (match info.1 with Some c => Some c | None => contact end,
       match info.2 with Some g => Some g | None => gate_code end)
  | None => (contact, gate_code)
  end.

(** ** What the further handlers show *)

(** A button of a job menu. *)
Inductive action :=
| ActStart (job_id : Z)          (* start_job_<id> *)
| ActFinish (job_id : Z)         (* finish_job_<id> *)
| ActAddNote (job_id : Z)        (* add_note_<id> *)
| ActUpload (job_id : Z)         (* upload_photo_<id> *)
| ActSiteInfo (job_id : Z)       (* site_info_<id> *)
| ActMapLink (job_id : Z)        (* map_link_<id> *)
| ActViewPhotos (job_id : Z) (photo_count : nat)   (* view_photos_grid_<id> *)
| ActWeather (job_id : Z)        (* refresh_weather_<id> *)
| ActBack.                       (* emp_view_jobs *)

Inductive reply :=
| RNotFound                       (* "Job not found" *)
| RFault                          (* an exception left the handler *)
| RNoJobs                         (* "No Jobs" / "No Completed Jobs" *)
| RJobList (rows : list (Z * Job))          (* one button per row *)
| RMenu (photo_count : nat) (site_info : option (option string * option string))
        (keyboard : list action)
| RSiteInfo (contact gate_code : option string)
| RNoMapLink                      (* "No Map Link" *)
| RMapLink (map_link : string)
| RNoPhotos                       (* "No Photos" *)
| RPhoto (path : string) (index total : Z) (previous next : bool)
| RPhotoError                     (* "Photo Error" *)
| RInvalidNavigation              (* alert "Invalid photo/page navigation" *)
| RSilent                         (* the handler returns without a screen *)
| RGrid (media : list string) (page total_pages : Z) (previous next : bool)
        (back_to_director : bool).

(** ** Job lists *)

(** [SELECT ... WHERE assigned_to = ? AND status != 'completed' ORDER BY id];
    a [NULL] status fails the comparison. *)
Definition open_jobs_of (user_id : Z) (d : gmap Z Job) : list (Z * Job) :=
  merge_sort by_id
    (filter (λ r, assigned_to r.2 = Some user_id ∧
                  is_Some (status r.2) ∧ status r.2 ≠ Some "completed")
       (map_to_list d)).

(** [emp_view_jobs] *)
Definition emp_view_jobs (user_id : Z) (w : World) : reply :=
  let jobs := open_jobs_of user_id (db w) in
  if bool_decide (jobs = []) then RNoJobs else RJobList jobs.

(** How SQLite orders [TEXT] values: [NULL] first, then byte by byte. *)
Definition text_le (a b : option string) : Prop :=
  match a, b with
  | None, _ => True
  | Some _, None => False
  | Some x, Some y => String.le x y
  end.

#[global] Instance text_le_dec : RelDecision text_le.
Proof. intros [x|] [y|]; simpl; apply _. Defined.

(** [ORDER BY finish_time DESC] *)
Definition by_finish_desc (a b : Z * Job) : Prop :=
  text_le (finish_time b.2) (finish_time a.2).

#[global] Instance by_finish_desc_dec : RelDecision by_finish_desc.
Proof. intros a b. unfold by_finish_desc. apply _. Defined.

(** [SELECT ... WHERE assigned_to = ? AND status = 'completed'
     ORDER BY finish_time DESC LIMIT 20] *)
Definition completed_jobs_of (employee_id : Z) (d : gmap Z Job) : list (Z * Job) :=
  take 20
    (merge_sort by_finish_desc
       (filter (λ r, assigned_to r.2 = Some employee_id ∧ status r.2 = Some "completed")
          (map_to_list d))).

(** The photo count [director_view_completed_jobs] puts next to a job: the
    photos of the completion date, zero when there is no readable finish
    time. *)
Definition completed_photo_count (j : Job) : nat :=
  if PyStr.truthy (finish_time j) then
    match finish_time j ≫= fromisoformat with
    | Some finish_datetime =>
        count_photos_for_date (photos j) (date_isoformat finish_datetime)
    | None => 0
    end
  else 0.

(** [director_view_completed_jobs]; the employee id comes from the token
    and is bound as a parameter of the [SELECT]. *)
Definition director_view_completed_jobs (employee_id : Z) (w : World) : reply :=
  if negb (sqlite_int employee_id) then RFault      (* OverflowError *)
  else
    let jobs := completed_jobs_of employee_id (db w) in
    if bool_decide (jobs = []) then RNoJobs else RJobList jobs.

(** ** Job menu *)

(** [c.lower()] on the ASCII range. *)
Definition lower_ascii (c : ascii) : ascii :=
  let n := nat_of_ascii c in
  if ((65 <=? n) && (n <=? 90))%nat then ascii_of_nat (n + 32) else c.

Fixpoint lower (s : string) : string :=
  match s with
  | EmptyString => EmptyString
  | String c s' => String (lower_ascii c) (lower s')
  end.

Definition outdoor_terms : list string :=
  ["garden"; "outdoor"; "yard"; "field"; "grounds"; "exterior"].

(** [area and any(outdoor_term in area.lower() for outdoor_term in [...])] *)
Definition is_outdoor (area : option string) : bool :=
  PyStr.truthy area &&
  existsb (λ outdoor_term, PyStr.contains outdoor_term (lower (default "" area)))
    outdoor_terms.

(** Whether the duration of a job card can be computed:
    [datetime.fromisoformat(finish_time) - datetime.fromisoformat(start_time)]
    is evaluated when both are set and raises on a text that is no time
    stamp. *)
Definition duration_raises (start_time finish_time : option string) : bool :=
  PyStr.truthy start_time && PyStr.truthy finish_time &&
  negb (bool_decide (is_Some (start_time ≫= fromisoformat) ∧
                     is_Some (finish_time ≫= fromisoformat))).

(** [emp_job_menu]: the keyboard of the menu, the photo count of the job
    card and the site information section, if any.  The wording of the card
    and the weather section, which comes from a web service, are left out;
    neither decides which buttons are offered. *)
Definition emp_job_menu (now : datetime) (job_id : Z) (w : World) : reply :=
  match db w !! job_id with
  | None => RNotFound
  | Some j =>
      let today := date_isoformat now in
      let photo_count := length (filter_photos_by_date (photos j) today) in
      if duration_raises (start_time j) (finish_time j) then RFault
      else
        let '(contact, gate_code, site_info) :=
          if PyStr.truthy (contact j) || PyStr.truthy (gate_code j)
          then let r := update_site_info (site_name j) (contact j) (gate_code j) in
               (r.1, r.2, Some r)
          else (contact j, gate_code j, None) in
        RMenu photo_count site_info
          ((if bool_decide (status j = Some "pending") then [ActStart job_id]
            else if bool_decide (status j = Some "in_progress")
                 then [ActFinish job_id; ActAddNote job_id; ActUpload job_id]
                 else [])
           ++ (if PyStr.truthy contact || PyStr.truthy gate_code
               then [ActSiteInfo job_id] else [])
           ++ (if PyStr.truthy (map_link j) then [ActMapLink job_id] else [])
           ++ (if (0 <? photo_count)%nat then [ActViewPhotos job_id photo_count] else [])
           ++ (if is_outdoor (area j) then [ActWeather job_id] else [])
           ++ [ActBack])
  end.

(** [emp_site_info] *)
Definition emp_site_info (job_id : Z) (w : World) : reply :=
  match db w !! job_id with
  | None => RNotFound
  | Some j =>
      let r := update_site_info (site_name j) (contact j) (gate_code j) in
      RSiteInfo r.1 r.2
  end.

(** [emp_map_link] *)
Definition emp_map_link (job_id : Z) (w : World) : reply :=
  match db w !! job_id with
  | None => RNotFound
  | Some j =>
      match map_link j with
      | Some (String c l) => RMapLink (String c l)
      | _ => RNoMapLink
      end
  end.

(** ** Photo viewer, one photo at a time *)

(** [context.user_data.get("job_photos", [])] *)
Definition get_job_photos (u : gmap string value) : option (list string) :=
  match u !! "job_photos" with
  | None => Some []
  | Some (VList l) => Some l
  | Some _ => None
  end.

(** [show_single_photo]: the photo is opened by its stored name; a missing
    file, like a missing ["job_id"] in the session, ends in "Photo Error". *)
Definition show_single_photo (photo_path : string) (index total : Z) (w : World) : reply :=
  if bool_decide (photo_path ∈ files w) then
    match user_data w !! "job_id" with
    | Some _ =>
        RPhoto photo_path index total
          (bool_decide (0 < index)%Z) (bool_decide (index < total - 1)%Z)
    | None => RPhotoError
    end
  else RPhotoError.

(** [view_job_photos] *)
Definition view_job_photos (now : datetime) (job_id : Z) (w : World) : reply * World :=
  if negb (sqlite_int job_id) then (RFault, w)      (* OverflowError at the SELECT *)
  else
  match db w !! job_id with
  | None => (RNoPhotos, w)
  | Some j =>
      if negb (PyStr.truthy (photos j)) then (RNoPhotos, w)
      else
        let photo_date := photo_date_of (finish_time j) now in
        let photo_paths := filter_photos_by_date (photos j) photo_date in
        match photo_paths with
        | [] => (RNoPhotos, w)
        | first :: _ =>
            let w' :=
              with_user_data
                (<["photo_date" := VStr photo_date]>
                   (<["job_id" := VInt job_id]>
                      (<["job_photos" := VList photo_paths]>
                         (<["current_photo_index" := VInt 0]> (user_data w))))) w in
            (show_single_photo first 0 (Z.of_nat (length photo_paths)) w', w')
        end
  end.

(** [handle_photo_navigation] *)
Definition handle_photo_navigation (new_index : Z) (w : World) : reply * World :=
  match get_job_photos (user_data w) with
  | None => (RFault, w)
  | Some photo_paths =>
      if bool_decide (photo_paths = []) || (new_index <? 0)%Z
         || (Z.of_nat (length photo_paths) <=? new_index)%Z
      then (RInvalidNavigation, w)
      else
        let w' := with_user_data
                    (<["current_photo_index" := VInt new_index]> (user_data w)) w in
        match user_data w' !! "job_id" with
        | Some (VInt job_id) =>
            match db w' !! job_id, photo_paths !! Z.to_nat new_index with
            | Some _, Some photo_path =>
                (show_single_photo photo_path new_index
                   (Z.of_nat (length photo_paths)) w', w')
            | _, _ => (RFault, w')
            end
        | _ => (RFault, w')
        end
  end.

(** ** Photo viewer, ten photos at a time *)

(** Python's reading of a slice bound. *)
Definition py_bound (len i : Z) : Z :=
  if (i <? 0)%Z then Z.max 0 (len + i) else Z.min i len.

(** [l[start:stop]] *)
Definition py_slice {A} (l : list A) (start stop : Z) : list A :=
  let len := Z.of_nat (length l) in
  let s := py_bound len start in
  let e := py_bound len stop in
  take (Z.to_nat (e - s)) (drop (Z.to_nat s) l).

Definition photos_per_page : Z := 10.

(** [len(photo_paths) // photos_per_page + (1 if len(photo_paths) % photos_per_page else 0)] *)
Definition total_pages (n : Z) : Z :=
  (n `div` photos_per_page + (if bool_decide (n `mod` photos_per_page = 0) then 0 else 1))%Z.

(** [context.user_data.get("current_page", 0)] *)
Definition get_grid_page (u : gmap string value) : option Z :=
  match u !! "current_page" with
  | None => Some 0%Z
  | Some (VInt p) => Some p
  | Some _ => None
  end.

(** [photo_paths[start_idx:end_idx]] of [send_photo_grid]. *)
Definition current_photos (photo_paths : list string) (current_page : Z) : list string :=
  let start_idx := (current_page * photos_per_page)%Z in
  let end_idx := Z.min (start_idx + photos_per_page) (Z.of_nat (length photo_paths)) in
  py_slice photo_paths start_idx end_idx.

(** [send_photo_grid]: the photos of the current page that exist on disk;
    [director] tells whether the user is in [director_users]. *)
Definition send_photo_grid (director : bool) (w : World) : reply :=
  match get_job_photos (user_data w), get_grid_page (user_data w) with
  | Some photo_paths, Some current_page =>
      if bool_decide (photo_paths = []) then RSilent
      else
        let len := Z.of_nat (length photo_paths) in
        let media_group :=
          filter (λ photo_path, PyStr.strip photo_path ∈ files w)
            (current_photos photo_paths current_page) in
        if bool_decide (media_group = []) then RPhotoError
        else
          RGrid media_group current_page (total_pages len)
            (bool_decide (0 < current_page)%Z)
            (bool_decide (current_page < total_pages len - 1)%Z)
            director
  | _, _ => RFault
  end.

(** [handle_photo_grid_navigation] *)
Definition handle_photo_grid_navigation (director : bool) (new_page : Z) (w : World)
  : reply * World :=
  match get_job_photos (user_data w) with
  | None => (RFault, w)
  | Some photo_paths =>
      if bool_decide (photo_paths = []) || (new_page <? 0)%Z
         || (Z.of_nat (length photo_paths) `div` 10 + 1 <=? new_page)%Z
      then (RInvalidNavigation, w)
      else
        let w' := with_user_data (<["current_page" := VInt new_page]> (user_data w)) w in
        (send_photo_grid director w', w')
  end.

(** ** Callback tokens *)

(** [int(s)] on the texts the buttons carry: an optional sign and decimal
    digits; [None] stands for [ValueError]. *)
Fixpoint parse_digits (acc : N) (s : string) : option N :=
  match s with
  | EmptyString => Some acc
  | String c s' => v ← digit_val c; parse_digits (10 * acc + v) s'
  end.

Definition py_int (s : string) : option Z :=
  match s with
  | EmptyString => None
  | String "-" EmptyString | String "+" EmptyString => None
  | String "-" s' => (λ n, (- Z.of_N n)%Z) <$> parse_digits 0 s'
  | String "+" s' => Z.of_N <$> parse_digits 0 s'
  | _ => Z.of_N <$> parse_digits 0 s
  end.

(** [int(data.split("_")[-1])], as every handler with an argument reads it. *)
Definition callback_arg (data : string) : option Z :=
  last (PyStr.split "_" data) ≫= py_int.

(** The handlers [callback_handler] can hand an update to. *)
Inductive handler :=
| H_start | H_dev_dashboard | H_dev_employee_dashboard | H_dev_director_dashboard
| H_director_view_andys_jobs | H_director_view_alexs_jobs
| H_director_calendar_view | H_director_dashboard
| H_emp_view_jobs | H_emp_employee_dashboard
| H_director_add_notes | H_director_assign_jobs
| H_refresh_weather
| H_director_assign_jobs_list
| H_job_prepare_add_note | H_job_view_job_with_notes
| H_view_job_photos_grid | H_handle_photo_grid_navigation | H_finish_photo_upload
| H_job_add_note | H_job_prepare_add_photo_note | H_job_add_note_to_job
| H_job_start_job_with_notes | H_job_add_work_note | H_job_job_working_view
| H_director_select_day_for_assignment | H_director_assign_day_selected
| H_handle_toggle_job | H_assign_jobs_to_employee | H_director_view_completed_jobs
| H_emp_job_menu | H_emp_upload_photo | H_emp_site_info
| H_emp_start_job | H_emp_finish_job | H_emp_map_link
| H_director_send_job | H_director_edit_note | H_director_cancel_note
| H_view_job_photos | H_handle_photo_navigation
| H_page
| H_noop
| H_unknown.                      (* "Unknown Action" *)

(** The dictionary [handlers] of [callback_handler]. *)
Definition exact_handlers : list (string * handler) :=
  [ ("start", H_start);
    ("dev_dashboard", H_dev_dashboard);
    ("dev_employee_dashboard", H_dev_employee_dashboard);
    ("dev_director_dashboard", H_dev_director_dashboard);
    ("view_andys_jobs", H_director_view_andys_jobs);
    ("view_alexs_jobs", H_director_view_alexs_jobs);
    ("calendar_view", H_director_calendar_view);
    ("director_dashboard", H_director_dashboard);
    ("emp_view_jobs", H_emp_view_jobs);
    ("emp_employee_dashboard", H_emp_employee_dashboard);
    ("add_notes", H_director_add_notes);
    ("dir_assign_jobs", H_director_assign_jobs);
    ("assign_selected_jobs", H_director_assign_jobs) ].

(** The [if]/[elif] chain of [callback_handler], in its order, with the
    [refresh_weather_] test that precedes it. *)
Definition prefix_handlers : list (string * handler) :=
  [ ("refresh_weather_", H_refresh_weather);
    ("dir_assign_jobs_list", H_director_assign_jobs_list);
    ("add_note_", H_job_prepare_add_note);
    ("view_notes_", H_job_view_job_with_notes);
    ("view_photos_grid_", H_view_job_photos_grid);
    ("photo_grid_", H_handle_photo_grid_navigation);
    ("finish_upload_", H_finish_photo_upload);
    ("view_photos_grid_", H_view_job_photos_grid);
    ("add_note_", H_job_add_note);
    ("view_notes_", H_job_view_job_with_notes);
    ("add_note_", H_job_prepare_add_note);
    ("add_photo_note_", H_job_prepare_add_photo_note);
    ("add_note_", H_job_add_note_to_job);
    ("start_job_with_notes_", H_job_start_job_with_notes);
    ("add_work_note_", H_job_add_work_note);
    ("job_working_", H_job_job_working_view);
    ("select_day_", H_director_select_day_for_assignment);
    ("assign_day_", H_director_assign_day_selected);
    ("toggle_job_", H_handle_toggle_job);
    ("assign_to_", H_assign_jobs_to_employee);
    ("view_completed_jobs_", H_director_view_completed_jobs);
    ("job_menu_", H_emp_job_menu);
    ("upload_photo_", H_emp_upload_photo);
    ("site_info_", H_emp_site_info);
    ("start_job_", H_emp_start_job);
    ("finish_job_", H_emp_finish_job);
    ("map_link_", H_emp_map_link);
    ("send_job_", H_director_send_job);
    ("edit_note_", H_director_edit_note);
    ("cancel_note_", H_director_cancel_note);
    ("view_job_", H_director_send_job);
    ("view_photos_", H_view_job_photos);
    ("photo_nav_", H_handle_photo_navigation);
    ("page_", H_page) ].

(** The first entry of a chain whose test holds. *)
Fixpoint first_match (test : string → bool) (chain : list (string * handler))
  : option handler :=
  match chain with
  | [] => None
  | (key, h) :: chain' => if test key then Some h else first_match test chain'
  end.

(** The handler [callback_handler] picks for a token. *)
Definition callback_handler (data : string) : handler :=
  match first_match (λ key, String.eqb data key) exact_handlers with
  | Some h => h
  | None =>
      match first_match (λ key, String.prefix key data) prefix_handlers with
      | Some h => h
      | None => if String.eqb data "noop" then H_noop else H_unknown
      end
  end.

(** The token of a button with an argument: [f"{family}{n}"]. *)
Definition token (family : string) (n : Z) : string := family +:+ pretty n.

(** A chain without the branches that can never be taken: those whose test
    is the test of an earlier branch. *)
Fixpoint effective (seen : list string) (chain : list (string * handler))
  : list (string * handler) :=
  match chain with
  | [] => []
  | (key, h) :: chain' =>
      if existsb (String.eqb key) seen then effective seen chain'
      else (key, h) :: effective (key :: seen) chain'
  end.

(** The families of tokens the buttons of this file carry, each an f-string
    [f"{family}{n}"] with an integer [n], and the handler the button is
    meant for. *)
Definition button_families : list (string * handler) :=
  [ ("job_menu_", H_emp_job_menu);
    ("start_job_", H_emp_start_job);
    ("finish_job_", H_emp_finish_job);
    ("add_note_", H_job_prepare_add_note);
    ("upload_photo_", H_emp_upload_photo);
    ("finish_upload_", H_finish_photo_upload);
    ("site_info_", H_emp_site_info);
    ("map_link_", H_emp_map_link);
    ("refresh_weather_", H_refresh_weather);
    ("view_photos_grid_", H_view_job_photos_grid);
    ("photo_grid_", H_handle_photo_grid_navigation);
    ("photo_nav_", H_handle_photo_navigation);
    ("view_job_", H_director_send_job);
    ("cancel_note_", H_director_cancel_note);
    ("view_completed_jobs_", H_director_view_completed_jobs);
    ("toggle_job_", H_handle_toggle_job);
    ("page_", H_page);
    ("assign_to_", H_assign_jobs_to_employee) ].

(** A row with the columns blanked that the life-cycle handlers write:
    what is left are the columns they never write. *)
Definition unwritten (j : Job) : Job :=
  set_finish_time None (set_start_time None (set_status None j)).

(** Sample data: a session of the photo viewer over the twenty-five photos
    of job 42, all on disk. *)
Definition world_viewer : World :=
  mk_world {[ 42%Z := Sample.full_job ]}
    {[ "job_photos" := VList (ref_path <$> Sample.refs25); "job_id" := VInt 42 ]}
    (list_to_set (ref_path <$> Sample.refs25)).

(** A time stamp column as the bot leaves it: [NULL], or the text of
    [datetime.now().isoformat()]. *)
Definition bot_time (o : option string) : Prop :=
  o = None ∨ ∃ t, valid t = true ∧ o = Some (isoformat t).

(** Sample data: job 9 at a site of the directory, as the sheet import
    leaves it, without contact and gate code. *)
Definition wessex_job : Job := new_job "Wessex water".

Definition world_wessex : World := mk_world {[ 9%Z := wessex_job ]} ∅ ∅.

(** The session of an open photo viewer: the paths it walks through and the
    job they belong to. *)
Definition viewer_open (l : list string) (id : Z) (w : World) : Prop :=
  get_job_photos (user_data w) = Some l ∧
  user_data w !! "job_id" = Some (VInt id) ∧
  is_Some (db w !! id).

(** Sample data: the viewer over the first twenty photos of job 42. *)
Definition world_viewer20 : World :=
  mk_world {[ 42%Z := Sample.full_job ]}
    {[ "job_photos" := VList (take 20 (ref_path <$> Sample.refs25));
       "job_id" := VInt 42 ]}
    (list_to_set (ref_path <$> Sample.refs25)).






(** * Properties *)

(** ** The embedding on small inputs *)

Example isoformat_whole_second :
  isoformat (mk_datetime 2024 3 1 9 5 0 0) = "2024-03-01T09:05:00".
Proof. reflexivity. Qed.

Example isoformat_microseconds :
  isoformat (mk_datetime 2024 3 1 9 5 0 1250) = "2024-03-01T09:05:00.001250".
Proof. reflexivity. Qed.

Example fromisoformat_reads :
  fromisoformat "2024-03-01T09:05:00.001250" = Some (mk_datetime 2024 3 1 9 5 0 1250).
Proof. reflexivity. Qed.

Example fromisoformat_rejects_february_30 : fromisoformat "2024-02-30T09:05:00" = None.
Proof. reflexivity. Qed.

Example split_keeps_empty_pieces : PyStr.split "|" "a||b" = ["a"; ""; "b"].
Proof. reflexivity. Qed.

Example strip_both_ends : PyStr.strip "  a b  " = "a b".
Proof. reflexivity. Qed.

Example photo_path_of_upload :
  photo_path 42 "2024-03-01" "AgAC1" = "photos/job_42_2024-03-01_AgAC1.jpg".
Proof. reflexivity. Qed.

Example filter_photos_by_date_two_days :
  filter_photos_by_date
    (Some " photos/job_1_2024-03-01_a.jpg|photos/job_1_2024-03-02_b.jpg") "2024-03-02"
  = ["photos/job_1_2024-03-02_b.jpg"].
Proof. reflexivity. Qed.

Example filter_photos_by_date_blank : filter_photos_by_date (Some "   ") "2024-03-02" = [].
Proof. reflexivity. Qed.

Example start_then_finish :
  let d1 := (emp_start_job Sample.t0800 42 Sample.db_pending).2 in
  let d2 := (emp_finish_job Sample.t0930 42 d1).2 in
  d1 = Sample.db_started ∧ d2 = Sample.db_completed.
Proof. split; reflexivity. Qed.

Example finish_before_start :
  emp_finish_job Sample.t0930 42 Sample.db_pending = (NotStarted, Sample.db_pending).
Proof. reflexivity. Qed.

Example invariant_along_a_run :
  bool_decide (job_invariant Sample.pending_job) = true ∧
  bool_decide (job_invariant Sample.started_job) = true ∧
  bool_decide (job_invariant Sample.completed_job) = true ∧
  bool_decide (job_invariant (started Sample.t1000 Sample.completed_job)) = false.
Proof. by vm_compute. Qed.

Example first_page_of_two_jobs :
  build_director_assign_jobs_page 1
    (Sample.world Sample.db_two {[ "selected_jobs" := VSet {[ 5%Z ]} ]})
  = AssignPage [mk_button 5 true (Some "Orchard") None] false false true.
Proof. reflexivity. Qed.

(** ** Strings *)

Section string_facts.
Implicit Types s t u : string.

Lemma str_app_nil_l s : "" +:+ s = s.
Proof. reflexivity. Qed.

Lemma str_app_cons c s t : String c s +:+ t = String c (s +:+ t).
Proof. reflexivity. Qed.

Lemma str_app_nil_r s : s +:+ "" = s.
Proof. induction s as [|c s IH]; [done|]. by rewrite str_app_cons, IH. Qed.

Lemma str_app_assoc s t u : (s +:+ t) +:+ u = s +:+ t +:+ u.
Proof. induction s as [|c s IH]; [done|]. by rewrite !str_app_cons, IH. Qed.

Lemma str_length_app s t : String.length (s +:+ t) = String.length s + String.length t.
Proof. induction s as [|c s IH]; [done|]. rewrite str_app_cons. simpl. by rewrite IH. Qed.

(** *** [in]: occurrence of a block *)

Lemma prefix_nil s : String.prefix "" s = true.
Proof. by destruct s. Qed.

Lemma prefix_cons x p c s :
  String.prefix (String x p) (String c s) = bool_decide (x = c) && String.prefix p s.
Proof.
  simpl. destruct (ascii_dec x c) as [->|Hne].
  - by rewrite bool_decide_eq_true_2.
  - by rewrite bool_decide_eq_false_2.
Qed.

Lemma prefix_refl s : String.prefix s s = true.
Proof.
  induction s as [|c s IH]; [done|].
  by rewrite prefix_cons, bool_decide_eq_true_2, IH.
Qed.

Lemma contains_cons p c s :
  PyStr.contains p (String c s) = String.prefix p (String c s) || PyStr.contains p s.
Proof. done. Qed.

Lemma contains_nil_r p : PyStr.contains p "" = String.prefix p "".
Proof. simpl. apply orb_false_r. Qed.

Lemma contains_refl s : PyStr.contains s s = true.
Proof. destruct s; [done|]. by rewrite contains_cons, prefix_refl. Qed.

Lemma char_in_cons c x s :
  PyStr.contains (String c "") (String x s) =
  bool_decide (c = x) || PyStr.contains (String c "") s.
Proof. by rewrite contains_cons, prefix_cons, prefix_nil, andb_true_r. Qed.

Lemma char_in_app c s t :
  PyStr.contains (String c "") (s +:+ t) =
  PyStr.contains (String c "") s || PyStr.contains (String c "") t.
Proof.
  induction s as [|x s IH]; [done|].
  by rewrite str_app_cons, !char_in_cons, IH, orb_assoc.
Qed.

Lemma prefix_length p s : String.prefix p s = true → String.length p ≤ String.length s.
Proof.
  revert s. induction p as [|x p IH]; intros [|c s]; simpl; try (done || lia).
  destruct (ascii_dec x c); [|done]. intros H%IH. lia.
Qed.

Lemma contains_length p s :
  PyStr.contains p s = true → String.length p ≤ String.length s.
Proof.
  induction s as [|c s IH].
  - rewrite contains_nil_r. apply prefix_length.
  - rewrite contains_cons, orb_true_iff. intros [H%prefix_length|H%IH]; simpl in *; lia.
Qed.

Lemma prefix_same_length p s :
  String.length p = String.length s → String.prefix p s = true → p = s.
Proof.
  revert s. induction p as [|x p IH]; intros [|c s]; simpl; try done.
  intros [=Hlen]. destruct (ascii_dec x c) as [->|]; [|done].
  intros H. f_equal. by apply IH.
Qed.

Lemma contains_same_length p s :
  String.length p = String.length s → PyStr.contains p s = true ↔ p = s.
Proof.
  intros Hlen. split; [|intros ->; apply contains_refl].
  destruct s as [|c s].
  - rewrite contains_nil_r. by apply prefix_same_length.
  - rewrite contains_cons, orb_true_iff. intros [H|H%contains_length].
    + by apply prefix_same_length.
    + simpl in *. lia.
Qed.

Lemma prefix_app_l p s t : String.prefix p s = true → String.prefix p (s +:+ t) = true.
Proof.
  revert s. induction p as [|x p IH]; intros s; [by rewrite !prefix_nil|].
  destruct s as [|c s]; [done|]. rewrite str_app_cons, !prefix_cons.
  rewrite !andb_true_iff. intros [? ?]. split; [done|]. by apply IH.
Qed.

Lemma contains_app_l p s t : PyStr.contains p s = true → PyStr.contains p (s +:+ t) = true.
Proof.
  induction s as [|c s IH].
  - rewrite contains_nil_r. destruct p; [|done]. intros _.
    destruct t; [done|]. by rewrite str_app_nil_l, contains_cons, prefix_nil.
  - rewrite str_app_cons, !contains_cons, !orb_true_iff.
    intros [H|H]; [left|right; by apply IH].
    rewrite <- str_app_cons. by apply prefix_app_l.
Qed.

Lemma contains_app_r p s t : PyStr.contains p t = true → PyStr.contains p (s +:+ t) = true.
Proof.
  intros H. induction s as [|c s IH]; [done|].
  by rewrite str_app_cons, contains_cons, IH, orb_true_r.
Qed.

(** A block occurring in [s] from its second character on occurs in the rest. *)
Lemma contains_tail x p c s :
  PyStr.contains (String x p) (String c s) = true → PyStr.contains p s = true.
Proof.
  revert c. induction s as [|c' s IH]; intros c.
  - rewrite contains_cons, contains_nil_r, orb_false_r, prefix_cons, andb_true_iff.
    intros [_ H]. by rewrite contains_nil_r.
  - rewrite contains_cons, orb_true_iff, prefix_cons, andb_true_iff.
    intros [[_ H]|H].
    + by rewrite contains_cons, H.
    + apply IH in H. by rewrite contains_cons, H, orb_true_r.
Qed.

Lemma contains_drop_head x p s :
  PyStr.contains (String x p) s = true → PyStr.contains p s = true.
Proof.
  destruct s as [|c s]; [done|]. intros H%contains_tail.
  by rewrite contains_cons, H, orb_true_r.
Qed.

Lemma contains_head_char x p s :
  PyStr.contains (String x p) s = true → PyStr.contains (String x "") s = true.
Proof.
  induction s as [|c s IH]; [done|].
  rewrite contains_cons, char_in_cons, prefix_cons, !orb_true_iff, andb_true_iff.
  intros [[? _]|H]; [by left|right; by apply IH].
Qed.

(** A character that does not occur in the block separates its occurrences. *)
Lemma prefix_sep p s c t :
  PyStr.contains (String c "") p = false →
  String.prefix p (s +:+ String c t) = String.prefix p s.
Proof.
  revert s. induction p as [|x p IH]; intros s Hc; [by rewrite !prefix_nil|].
  rewrite char_in_cons, orb_false_iff, bool_decide_eq_false in Hc.
  destruct Hc as [Hne Hc]. destruct s as [|y s].
  - rewrite str_app_nil_l, prefix_cons. by rewrite bool_decide_eq_false_2 by done.
  - rewrite str_app_cons, !prefix_cons. by rewrite IH.
Qed.

Lemma contains_app_sep p s c t :
  p ≠ "" → PyStr.contains (String c "") p = false →
  PyStr.contains p (s +:+ String c t) = PyStr.contains p s || PyStr.contains p t.
Proof.
  intros Hp Hc. induction s as [|y s IH].
  - rewrite str_app_nil_l, contains_cons, contains_nil_r.
    rewrite <- (str_app_nil_l (String c t)), prefix_sep by done.
    by destruct p.
  - rewrite str_app_cons, !contains_cons, IH, orb_assoc. f_equal.
    rewrite <- str_app_cons. by rewrite prefix_sep.
Qed.

(** *** [split] *)

Lemma split_not_nil sep s : PyStr.split sep s ≠ [].
Proof.
  destruct s as [|c s]; [done|]. simpl.
  destruct (Ascii.eqb c sep); [done|]. by destruct (PyStr.split sep s).
Qed.

Lemma split_app_sep sep s t :
  PyStr.split sep (s +:+ String sep t) = PyStr.split sep s ++ PyStr.split sep t.
Proof.
  induction s as [|c s IH].
  - rewrite str_app_nil_l. simpl. by rewrite Ascii.eqb_refl.
  - rewrite str_app_cons. simpl. rewrite IH.
    destruct (Ascii.eqb c sep); [done|].
    pose proof (split_not_nil sep s). by destruct (PyStr.split sep s).
Qed.

(** The first piece of a split starts with the separator-free front. *)
Lemma split_nosep_app sep s t :
  PyStr.contains (String sep "") s = false →
  ∃ x xs, PyStr.split sep t = x :: xs ∧ PyStr.split sep (s +:+ t) = (s +:+ x) :: xs.
Proof.
  induction s as [|c s IH]; intros Hs.
  - rewrite str_app_nil_l. pose proof (split_not_nil sep t).
    destruct (PyStr.split sep t) as [|x xs]; [done|]. by exists x, xs.
  - rewrite char_in_cons, orb_false_iff, bool_decide_eq_false in Hs.
    destruct Hs as [Hne Hs]. destruct (IH Hs) as (x & xs & Ht & Hst).
    exists x, xs. split; [done|]. rewrite str_app_cons. simpl. rewrite Hst.
    destruct (Ascii.eqb c sep) eqn:E; [|done].
    apply Ascii.eqb_eq in E. congruence.
Qed.

Lemma split_nosep sep s :
  PyStr.contains (String sep "") s = false → PyStr.split sep s = [s].
Proof.
  intros Hs. destruct (split_nosep_app sep s "" Hs) as (x & xs & Ht & Hst).
  simpl in Ht. simplify_eq. by rewrite !str_app_nil_r in Hst.
Qed.

(** *** [strip] *)

Lemma lstrip_head s c t : PyStr.lstrip s = String c t → PyStr.is_space c = false.
Proof.
  induction s as [|x s IH]; [done|]. simpl.
  destruct (PyStr.is_space x) eqn:E; [done|]. by intros [= <- <-].
Qed.

Lemma lstrip_nonspace c s :
  PyStr.is_space c = false → PyStr.lstrip (String c s) = String c s.
Proof. intros H. simpl. by rewrite H. Qed.

Lemma rstrip_app_clean s t :
  PyStr.rstrip t = t → t ≠ "" → PyStr.rstrip (s +:+ t) = s +:+ t.
Proof.
  intros Ht Hne. induction s as [|c s IH]; [done|].
  rewrite str_app_cons. simpl. rewrite IH.
  destruct (s +:+ t) eqn:E; [|done].
  destruct s; [by rewrite str_app_nil_l in E|done].
Qed.

(** A text that starts with a visible character and ends with a clean,
    non-empty tail is its own [strip]. *)
Lemma strip_clean c s t :
  PyStr.is_space c = false → PyStr.rstrip t = t → t ≠ "" →
  PyStr.strip (String c (s +:+ t)) = String c (s +:+ t).
Proof.
  intros Hc Ht Hne. unfold PyStr.strip.
  rewrite <- (str_app_cons c s t), rstrip_app_clean by done.
  by apply lstrip_nonspace.
Qed.

Lemma strip_head s c t : PyStr.strip s = String c t → PyStr.is_space c = false.
Proof. apply lstrip_head. Qed.

End string_facts.

(** ** Time stamps: [fromisoformat] reads back what [isoformat] writes *)

Section datetime_facts.
Local Open Scope N_scope.

Lemma digit_val_digit n : digit_val (digit n) = Some (n mod 10).
Proof.
  unfold digit_val, digit.
  assert (n mod 10 < 10) as Hlt by (apply N.mod_lt; lia).
  generalize dependent (n mod 10). intros m Hlt.
  rewrite N_ascii_embedding by lia.
  replace (48 <=? 48 + m) with true by (symmetry; apply N.leb_le; lia).
  replace (48 + m <=? 57) with true by (symmetry; apply N.leb_le; lia).
  simpl. f_equal. lia.
Qed.

Lemma digits_plus k1 k2 : ∀ acc s,
  digits (k1 + k2) acc s = '(a, r) ← digits k1 acc s; digits k2 a r.
Proof.
  induction k1 as [|k1 IH]; intros acc s; [done|].
  destruct s as [|c s]; [done|]. simpl.
  destruct (digit_val c) as [v|]; [|done]. simpl. apply IH.
Qed.

Lemma digits_pad k : ∀ n acc rest,
  n < 10 ^ N.of_nat k →
  digits k acc (pad k n +:+ rest) = Some (acc * 10 ^ N.of_nat k + n, rest).
Proof.
  induction k as [|k IH]; intros n acc rest Hn.
  - simpl in *. f_equal. f_equal. lia.
  - replace (S k) with (k + 1)%nat by lia.
    rewrite digits_plus. replace (k + 1)%nat with (S k) by lia.
    assert (10 ^ N.of_nat (S k) = 10 * 10 ^ N.of_nat k) as Hpow.
    { rewrite Nat2N.inj_succ, N.pow_succ_r'. done. }
    cbn [pad]. rewrite str_app_assoc, str_app_cons, str_app_nil_l.
    rewrite IH.
    + cbn [mbind option_bind digits]. rewrite digit_val_digit.
      cbn [mbind option_bind]. f_equal. f_equal.
      rewrite Hpow. pose proof (N.div_mod n 10). lia.
    + rewrite Hpow in Hn. apply N.Div0.div_lt_upper_bound. lia.
Qed.

Lemma digits_pad0 k n rest :
  n < 10 ^ N.of_nat k → digits k 0 (pad k n +:+ rest) = Some (n, rest).
Proof. intros Hn. rewrite digits_pad by done. f_equal. Qed.

Lemma days_in_month_le y m : days_in_month y m <= 31.
Proof.
  unfold days_in_month.
  repeat (destruct m as [|m] || destruct m as [m|m|]; try lia);
    destruct (is_leap y); lia.
Qed.

Lemma valid_bounds d :
  valid d = true →
  year d < 10 ^ N.of_nat 4 ∧ month d < 10 ^ N.of_nat 2 ∧ day d < 10 ^ N.of_nat 2 ∧
  hour d < 10 ^ N.of_nat 2 ∧ minute d < 10 ^ N.of_nat 2 ∧
  second d < 10 ^ N.of_nat 2 ∧ microsecond d < 10 ^ N.of_nat 6.
Proof.
  unfold valid. rewrite !andb_true_iff, !N.leb_le, !N.ltb_lt.
  pose proof (days_in_month_le (year d) (month d)).
  change (10 ^ N.of_nat 4) with 10000. change (10 ^ N.of_nat 2) with 100.
  change (10 ^ N.of_nat 6) with 1000000. lia.
Qed.

(** Reading back a written time stamp gives the time stamp. *)
Lemma fromisoformat_isoformat d :
  valid d = true → fromisoformat (isoformat d) = Some d.
Proof.
  intros Hv. destruct (valid_bounds d Hv) as (Hy & Hmo & Hd & Hh & Hmi & Hs & Hus).
  unfold fromisoformat, isoformat, date_isoformat.
  rewrite !str_app_assoc.
  do 6 (rewrite digits_pad0 by done; rewrite ?str_app_cons, ?str_app_nil_l;
        repeat progress cbn [mbind option_bind expect Ascii.eqb Bool.eqb]).
  destruct (microsecond d =? 0) eqn:Hz.
  - apply N.eqb_eq in Hz. cbn [mbind option_bind].
    destruct d as [y mo dd h mi sec us]; simpl in *. subst us. by rewrite Hv.
  - rewrite ?str_app_cons, ?str_app_nil_l.
    repeat progress cbn [mbind option_bind expect Ascii.eqb Bool.eqb].
    rewrite <- (str_app_nil_r (pad 6 (microsecond d))).
    rewrite digits_pad0 by done. cbn [mbind option_bind].
    destruct d as [y mo dd h mi sec us]; simpl in *. by rewrite Hv.
Qed.

Lemma leb_refl d : DateTime.leb d d = true.
Proof.
  unfold DateTime.leb. induction (fields d) as [|x l IH]; [done|].
  simpl. rewrite N.eqb_refl, IH. simpl. apply orb_true_r.
Qed.

End datetime_facts.

(** ** Row updates touch one column *)

Lemma set_assigned_to_frame v j :
  assigned_to (set_assigned_to v j) = v ∧
  site_name (set_assigned_to v j) = site_name j ∧
  quote (set_assigned_to v j) = quote j ∧
  address (set_assigned_to v j) = address j ∧
  order_no (set_assigned_to v j) = order_no j ∧
  order_period (set_assigned_to v j) = order_period j ∧
  area (set_assigned_to v j) = area j ∧
  summer_schedule (set_assigned_to v j) = summer_schedule j ∧
  winter_schedule (set_assigned_to v j) = winter_schedule j ∧
  contact (set_assigned_to v j) = contact j ∧
  gate_code (set_assigned_to v j) = gate_code j ∧
  map_link (set_assigned_to v j) = map_link j ∧
  status (set_assigned_to v j) = status j ∧
  photos (set_assigned_to v j) = photos j ∧
  start_time (set_assigned_to v j) = start_time j ∧
  finish_time (set_assigned_to v j) = finish_time j ∧
  notes (set_assigned_to v j) = notes j ∧
  scheduled_date (set_assigned_to v j) = scheduled_date j ∧
  priority (set_assigned_to v j) = priority j.
Proof. repeat split. Qed.

Lemma reset_row_frame j :
  status (reset_row j) = Some "pending" ∧
  assigned_to (reset_row j) = None ∧
  start_time (reset_row j) = None ∧
  finish_time (reset_row j) = None ∧
  site_name (reset_row j) = site_name j ∧
  quote (reset_row j) = quote j ∧
  address (reset_row j) = address j ∧
  order_no (reset_row j) = order_no j ∧
  order_period (reset_row j) = order_period j ∧
  area (reset_row j) = area j ∧
  summer_schedule (reset_row j) = summer_schedule j ∧
  winter_schedule (reset_row j) = winter_schedule j ∧
  contact (reset_row j) = contact j ∧
  gate_code (reset_row j) = gate_code j ∧
  map_link (reset_row j) = map_link j ∧
  photos (reset_row j) = photos j ∧
  notes (reset_row j) = notes j ∧
  scheduled_date (reset_row j) = scheduled_date j ∧
  priority (reset_row j) = priority j.
Proof. repeat split. Qed.

#[local] Set Warnings "-clear-no-such-hyp".

(** ** Selection set *)

Section selection_facts.
Implicit Types (S : gset Z) (j k : Z) (w : World).

Lemma toggle_toggle j S : toggle j (toggle j S) = S.
Proof.
  unfold toggle. destruct (decide (j ∈ S)) as [Hin|Hout].
  - rewrite (bool_decide_eq_true_2 _ Hin).
    rewrite bool_decide_eq_false_2 by set_solver.
    apply set_eq. intros x. destruct (decide (x = j)); set_solver.
  - rewrite (bool_decide_eq_false_2 _ Hout).
    rewrite bool_decide_eq_true_2 by set_solver.
    set_solver.
Qed.

Lemma elem_of_toggle j k S : k ∈ toggle j S ↔ (k = j ∧ j ∉ S) ∨ (k ≠ j ∧ k ∈ S).
Proof.
  unfold toggle. case_bool_decide; destruct (decide (k = j)); set_solver.
Qed.

Lemma handle_toggle_job_user_data j w S :
  get_selected_jobs (user_data w) = Some S →
  user_data (handle_toggle_job j w).2 = <["selected_jobs" := VSet (toggle j S)]> (user_data w).
Proof.
  intros HS. unfold handle_toggle_job. rewrite HS.
  destruct (get_current_page _); [|done].
  by destruct (build_director_assign_jobs_page _ _).
Qed.

Lemma handle_toggle_job_frame j w :
  db (handle_toggle_job j w).2 = db w ∧ files (handle_toggle_job j w).2 = files w.
Proof.
  unfold handle_toggle_job. destruct (get_selected_jobs _); [|done].
  destruct (get_current_page _); [|done].
  by destruct (build_director_assign_jobs_page _ _).
Qed.

Lemma get_selected_jobs_insert u S :
  get_selected_jobs (<["selected_jobs" := VSet S]> u) = Some S.
Proof. unfold get_selected_jobs. by rewrite lookup_insert_eq. Qed.

(** C8: toggling a job id flips its membership in the selection set and
    nothing else, so toggling the same id twice in succession gives the
    selection set back. *)
Theorem toggle_job_twice j w S :
  get_selected_jobs (user_data w) = Some S →
  let w1 := (handle_toggle_job j w).2 in
  let w2 := (handle_toggle_job j w1).2 in
  selection (user_data w1) = toggle j S ∧
  (j ∈ toggle j S ↔ j ∉ S) ∧
  (∀ k, k ≠ j → k ∈ toggle j S ↔ k ∈ S) ∧
  selection (user_data w2) = S ∧
  db w2 = db w ∧ files w2 = files w.
Proof.
  intros HS w1 w2.
  assert (user_data w1 = <["selected_jobs" := VSet (toggle j S)]> (user_data w)) as H1
    by (by apply handle_toggle_job_user_data).
  assert (get_selected_jobs (user_data w1) = Some (toggle j S)) as HS1
    by (rewrite H1; apply get_selected_jobs_insert).
  assert (user_data w2 = <["selected_jobs" := VSet (toggle j (toggle j S))]> (user_data w1)) as H2
    by (by apply handle_toggle_job_user_data).
  split_and!.
  - unfold selection. by rewrite HS1.
  - rewrite elem_of_toggle. naive_solver.
  - intros k Hk. rewrite elem_of_toggle. naive_solver.
  - unfold selection. rewrite H2, get_selected_jobs_insert. apply toggle_toggle.
  - subst w2 w1. by rewrite !(proj1 (handle_toggle_job_frame _ _)).
  - subst w2 w1. by rewrite !(proj2 (handle_toggle_job_frame _ _)).
Qed.

Lemma toggle_job_twice_witness :
  let w := Sample.world Sample.db_two {[ "selected_jobs" := VSet {[ 5%Z ]} ]} in
  selection (user_data (handle_toggle_job 5 (handle_toggle_job 5 w).2).2) = {[ 5%Z ]}.
Proof.
  intros w.
  exact (proj1 (proj2 (proj2 (proj2 (toggle_job_twice 5 w {[ 5%Z ]} eq_refl))))).
Defined.

End selection_facts.

(** ** Bulk assignment *)

Section assignment_facts.
Implicit Types (S : gset Z) (e id : Z) (d : gmap Z Job) (w : World).

Lemma lookup_update_assigned_to e job_id d id :
  update_assigned_to e job_id d !! id =
    if decide (job_id = id) then set_assigned_to (Some e) <$> d !! id else d !! id.
Proof.
  unfold update_assigned_to. rewrite lookup_alter. by destruct (decide _) as [->|].
Qed.

Lemma set_assigned_to_twice v j : set_assigned_to v (set_assigned_to v j) = set_assigned_to v j.
Proof. done. Qed.

(** With parameters SQLite can bind, the loop comes to its end and has
    written [assigned_to] of the listed rows that exist and nothing else. *)
Lemma lookup_assign_loop e (l : list Z) :
  sqlite_int e = true → (∀ id, id ∈ l → sqlite_int id = true) →
  ∀ d, (assign_loop e l d).1 = true ∧
       ∀ id, (assign_loop e l d).2 !! id =
               if decide (id ∈ l) then set_assigned_to (Some e) <$> d !! id else d !! id.
Proof.
  intros He. induction l as [|x l IH]; intros Hl d.
  - split; [done|]. intros id. by rewrite decide_False by apply not_elem_of_nil.
  - cbn [assign_loop]. rewrite He, (Hl x) by (by left). cbn [andb].
    destruct (IH (λ id Hid, Hl id (proj2 (elem_of_cons l id x) (or_intror Hid)))
                 (update_assigned_to e x d)) as [Hend Hrows].
    split; [done|]. intros id. rewrite Hrows, lookup_update_assigned_to.
    destruct (decide (x = id)) as [->|Hne].
    + rewrite (decide_True (P := id ∈ id :: l)) by (by left).
      destruct (decide (id ∈ l)); [|done].
      destruct (d !! id); [|done]. simpl. by rewrite set_assigned_to_twice.
    + destruct (decide (id ∈ l)) as [Hin|Hout].
      * by rewrite decide_True by (by right).
      * rewrite decide_False; [done|]. intros [?|?]%elem_of_cons; by simplify_eq.
Qed.

(** Whatever its parameters, the loop touches nothing but [assigned_to] of
    listed rows. *)
Lemma assign_loop_frame e (l : list Z) :
  ∀ d id, (assign_loop e l d).2 !! id = d !! id ∨
          (id ∈ l ∧ (assign_loop e l d).2 !! id = set_assigned_to (Some e) <$> d !! id).
Proof.
  induction l as [|x l IH]; intros d id; [by left|].
  cbn [assign_loop]. destruct (sqlite_int e && sqlite_int x); [|by left].
  destruct (IH (update_assigned_to e x d) id) as [Hsame|[Hin Hset]].
  - rewrite Hsame, lookup_update_assigned_to.
    destruct (decide (x = id)) as [->|]; [|by left]. right. split; [by left|done].
  - right. split; [by right|]. rewrite Hset, lookup_update_assigned_to.
    destruct (decide (x = id)) as [->|]; [|done].
    destruct (d !! id); [|done]. simpl. by rewrite set_assigned_to_twice.
Qed.

(** With an employee id SQLite cannot bind, the first statement raises. *)
Lemma assign_loop_overflow e (l : list Z) d :
  sqlite_int e = false → l ≠ [] → assign_loop e l d = (false, d).
Proof. intros He Hl. destruct l as [|x l]; [done|]. cbn [assign_loop]. by rewrite He. Qed.

Lemma elem_of_iter (iter : gset Z → list Z) S id :
  iter S ≡ₚ elements S → id ∈ iter S ↔ id ∈ S.
Proof. intros ->. apply elem_of_elements. Qed.

(** Evaluation of the bulk assignment for an employee id that does not fit
    64 bits, as the token [assign_to_9223372036854775808] carries it: job 5
    exists and is selected, the handler ends in the [OverflowError] of the
    first [UPDATE], job 5 stays without assignee and the selection stays
    stored. *)
Lemma assign_jobs_to_employee_overflow :
  let w := Sample.world Sample.db_two {[ "selected_jobs" := VSet {[ 5%Z ]} ]} in
  let r := assign_jobs_to_employee elements (2 ^ 63) w in
  db w !! 5%Z = Some (new_job "Orchard") ∧
  r.1 = Fault ∧
  (assigned_to <$> db r.2 !! 5%Z) = Some None ∧
  r.2 = w.
Proof. by vm_compute. Qed.

(** C10 (for ids SQLite can store): with a non-empty selection, bulk
    assignment touches only [assigned_to] of selected rows, whatever
    happens.  When the employee id and the selected ids fit 64 bits, it is
    answered with the dashboard, sets [assigned_to] to the chosen employee
    on every selected job that exists, whatever its assignee and status
    were, keeps every other column of every job, keeps the jobs that are not
    selected, and creates no row for a selected id that does not exist.
    When the employee id does not fit, nothing is written and the handler
    ends in a fault. *)
Theorem assign_jobs_to_employee_frame iter e w S :
  get_selected_jobs (user_data w) = Some S →
  S ≠ ∅ →
  iter S ≡ₚ elements S →
  let r := assign_jobs_to_employee iter e w in
  let w' := r.2 in
  ((∀ id, id ∉ S → db w' !! id = db w !! id) ∧
   (∀ id, (set_assigned_to None <$> db w' !! id) = (set_assigned_to None <$> db w !! id)) ∧
   files w' = files w) ∧
  (sqlite_int e = true → (∀ id, id ∈ S → sqlite_int id = true) →
     r.1 = DirectorDashboard ∧
     (∀ id j, id ∈ S → db w !! id = Some j →
        ∃ j', db w' !! id = Some j' ∧
              assigned_to j' = Some e ∧
              status j' = status j ∧ start_time j' = start_time j ∧
              finish_time j' = finish_time j ∧ photos j' = photos j ∧
              notes j' = notes j ∧ j' = set_assigned_to (Some e) j) ∧
     (∀ id, db w !! id = None → db w' !! id = None)) ∧
  (sqlite_int e = false → r = (Fault, w)).
Proof.
  intros HS Hne Hiter r w'. subst w' r. unfold assign_jobs_to_employee. rewrite HS.
  rewrite bool_decide_eq_false_2 by done. cbv zeta.
  assert (db (if (assign_loop e (iter S) (db w)).1
              then (DirectorDashboard,
                    with_user_data (delete "selected_jobs" (user_data w))
                      (with_db (assign_loop e (iter S) (db w)).2 w))
              else (Fault, with_db (assign_loop e (iter S) (db w)).2 w)).2
          = (assign_loop e (iter S) (db w)).2) as Hdb
    by (by destruct (assign_loop e (iter S) (db w)).1).
  split; [|split].
  - split; [|split].
    + intros id Hout. rewrite Hdb.
      destruct (assign_loop_frame e (iter S) (db w) id) as [Hsame|[Hin _]]; [done|].
      by apply (elem_of_iter iter S id Hiter) in Hin.
    + intros id. rewrite Hdb.
      destruct (assign_loop_frame e (iter S) (db w) id) as [->|[_ ->]]; [done|].
      by destruct (db w !! id).
    + by destruct (assign_loop e (iter S) (db w)).1.
  - intros He Hids.
    destruct (lookup_assign_loop e (iter S) He) with (d := db w) as [Hend Hrows].
    { intros id Hid. by apply Hids, (elem_of_iter iter S id Hiter). }
    rewrite Hend. cbn [fst snd db with_db with_user_data]. split; [done|]. split.
    + intros id j Hin Hj. exists (set_assigned_to (Some e) j).
      rewrite Hrows, decide_True, Hj by (by apply (elem_of_iter iter S id Hiter)). done.
    + intros id Hnone. rewrite Hrows, Hnone. by destruct (decide _).
  - intros He. rewrite assign_loop_overflow; [by destruct w|done|].
    intros Hnil. apply Hne. apply set_eq. intros x.
    rewrite <- (elem_of_iter iter S x Hiter), Hnil. set_solver.
Qed.

Lemma assign_jobs_to_employee_frame_witness :
  let w := Sample.world Sample.db_two {[ "selected_jobs" := VSet {[ 5%Z; 42%Z; 99%Z ]} ]} in
  let w' := (assign_jobs_to_employee elements 8 w).2 in
  (assigned_to <$> db w' !! 42%Z) = Some (Some 8%Z) ∧
  (status <$> db w' !! 42%Z) = Some (Some "completed") ∧
  db w' !! 99%Z = None.
Proof.
  intros w w'.
  assert (get_selected_jobs (user_data w) = Some {[ 5%Z; 42%Z; 99%Z ]}) as HS by reflexivity.
  assert (({[ 5%Z; 42%Z; 99%Z ]} : gset Z) ≠ ∅) as Hne by (by vm_compute).
  destruct (assign_jobs_to_employee_frame elements 8 w _ HS Hne (reflexivity _))
    as (_ & Hfits & _).
  destruct Hfits as (_ & Hsel & Hnone); [reflexivity| |].
  { intros id Hid. apply elem_of_union in Hid as [Hid|Hid];
      [apply elem_of_union in Hid as [Hid|Hid]|];
      apply elem_of_singleton in Hid; by subst id. }
  destruct (Hsel 42%Z Sample.completed_job) as (j' & Hj' & Ha & Hst & _);
    [set_solver|reflexivity|].
  unfold w'. rewrite Hj'. simpl. rewrite Ha, Hst. split_and!; [done|done|].
  by apply Hnone.
Defined.

End assignment_facts.

(** ** Daily reset *)

Section reset_facts.
Implicit Types (d : gmap Z Job) (j : Job) (now : datetime).

Lemma reset_applies_spec today j :
  reset_applies today j = true ↔
    (status j = Some "in_progress" ∨ status j = Some "completed") ∧
    (scheduled_date j = None ∨ scheduled_date j = Some today).
Proof.
  unfold reset_applies.
  rewrite andb_true_iff, !orb_true_iff, !bool_decide_eq_true. tauto.
Qed.

(** C6: the daily reset turns exactly the in-progress and completed jobs
    whose scheduled date is unset or today into pending, unassigned jobs
    without time stamps; every other job, and every other column of the
    jobs it resets, stays as it was. *)
Theorem reset_jobs_daily_exact now d id j :
  d !! id = Some j →
  let stale :=
    (status j = Some "in_progress" ∨ status j = Some "completed") ∧
    (scheduled_date j = None ∨ scheduled_date j = Some (date_isoformat now)) in
  (stale →
     ∃ j', reset_jobs_daily now d !! id = Some j' ∧
           status j' = Some "pending" ∧ assigned_to j' = None ∧
           start_time j' = None ∧ finish_time j' = None ∧
           photos j' = photos j ∧ notes j' = notes j ∧
           scheduled_date j' = scheduled_date j ∧ site_name j' = site_name j) ∧
  (¬ stale → reset_jobs_daily now d !! id = Some j) ∧
  dom (reset_jobs_daily now d) = dom d.
Proof.
  intros Hj stale. unfold reset_jobs_daily. rewrite lookup_fmap, Hj. simpl.
  split_and!.
  - intros Hs. apply reset_applies_spec in Hs. rewrite Hs.
    exists (reset_row j). by repeat split.
  - intros Hs. destruct (reset_applies _ j) eqn:E; [|done].
    apply reset_applies_spec in E. done.
  - apply dom_fmap_L.
Qed.

Lemma reset_jobs_daily_exact_witness :
  (status <$> reset_jobs_daily Sample.next_day Sample.db_two !! 42%Z) = Some (Some "pending") ∧
  reset_jobs_daily Sample.next_day Sample.db_two !! 5%Z = Some (new_job "Orchard").
Proof.
  split.
  - destruct (reset_jobs_daily_exact Sample.next_day Sample.db_two 42 Sample.completed_job
                eq_refl) as (Hstale & _).
    destruct Hstale as (j' & Hl & Hst & _); [split; [by right|by left]|].
    rewrite Hl. simpl. by rewrite Hst.
  - destruct (reset_jobs_daily_exact Sample.next_day Sample.db_two 5 (new_job "Orchard")
                eq_refl) as (_ & Hkeep & _).
    apply Hkeep. intros [[?|?] _]; discriminate.
Defined.

End reset_facts.

(** ** Job life cycle *)

Section lifecycle_facts.
Implicit Types (d : gmap Z Job) (j : Job) (now : datetime) (id : Z).

Lemma alter_lookup_Some d id j (f : Job → Job) :
  d !! id = Some j → alter f id d = <[id := f j]> d.
Proof.
  intros Hj. apply map_eq. intros k. rewrite lookup_alter, lookup_insert.
  destruct (decide (id = k)) as [->|]; [by rewrite Hj|done].
Qed.

(** Starting a pending job records the start time and the new status. *)
Lemma emp_start_job_pending now id d j :
  d !! id = Some j → status j = Some "pending" →
  emp_start_job now id d = (JobStarted, <[id := started now j]> d).
Proof.
  intros Hj Hs. unfold emp_start_job. rewrite Hj.
  rewrite bool_decide_eq_false_2 by (rewrite Hs; discriminate).
  by rewrite (alter_lookup_Some _ _ j).
Qed.

(** Starting a job that is in progress is refused and changes nothing. *)
Lemma emp_start_job_in_progress now id d j :
  d !! id = Some j → status j = Some "in_progress" →
  emp_start_job now id d = (AlreadyStarted, d).
Proof.
  intros Hj Hs. unfold emp_start_job. rewrite Hj.
  by rewrite bool_decide_eq_true_2.
Qed.

(** Two starts in a row: the first succeeds, the second is refused and
    keeps the start time of the first. *)
Lemma emp_start_job_twice now now' id d j :
  d !! id = Some j → status j = Some "pending" →
  let r1 := emp_start_job now id d in
  let r2 := emp_start_job now' id r1.2 in
  r1.1 = JobStarted ∧ r2.1 = AlreadyStarted ∧ r2.2 = r1.2 ∧
  (start_time <$> r2.2 !! id) = Some (Some (isoformat now)).
Proof.
  intros Hj Hs r1 r2. subst r2 r1.
  rewrite (emp_start_job_pending now id d j) by done. simpl.
  rewrite (emp_start_job_in_progress now' id _ (started now j))
    by (by rewrite ?lookup_insert_eq).
  simpl. by rewrite lookup_insert_eq.
Qed.

(** Every status other than ['in_progress'] lets the start through: the
    handler has no test for ['completed']. *)
Lemma emp_start_job_otherwise now id d j :
  d !! id = Some j → status j ≠ Some "in_progress" →
  emp_start_job now id d = (JobStarted, <[id := started now j]> d).
Proof.
  intros Hj Hs. unfold emp_start_job. rewrite Hj.
  rewrite bool_decide_eq_false_2 by done.
  by rewrite (alter_lookup_Some _ _ j).
Qed.

Lemma emp_finish_job_in_progress now id d j :
  d !! id = Some j → status j = Some "in_progress" →
  emp_finish_job now id d = (JobCompleted, <[id := finished now j]> d).
Proof.
  intros Hj Hs. unfold emp_finish_job. rewrite Hj.
  rewrite bool_decide_eq_false_2 by (rewrite Hs; discriminate).
  rewrite bool_decide_eq_false_2 by (rewrite Hs; auto).
  by rewrite (alter_lookup_Some _ _ j).
Qed.

Lemma emp_finish_job_completed now id d j :
  d !! id = Some j → status j = Some "completed" →
  emp_finish_job now id d = (AlreadyCompleted, d).
Proof.
  intros Hj Hs. unfold emp_finish_job. rewrite Hj.
  by rewrite bool_decide_eq_true_2.
Qed.

Lemma emp_finish_job_not_started now id d j :
  d !! id = Some j → status j = Some "pending" →
  emp_finish_job now id d = (NotStarted, d).
Proof.
  intros Hj Hs. unfold emp_finish_job. rewrite Hj.
  rewrite bool_decide_eq_false_2 by (rewrite Hs; discriminate).
  by rewrite bool_decide_eq_true_2 by (rewrite Hs; discriminate).
Qed.

(** C1: evaluation of [emp_start_job] on a completed job.  The start is
    not refused: the screen is "Job Started", the status goes back to
    ['in_progress'], the start time is overwritten and the finish time of
    the completed run stays in the row. *)
Theorem emp_start_job_restarts_completed :
  let r := emp_start_job Sample.t1000 42 Sample.db_completed in
  status Sample.completed_job = Some "completed" ∧
  r.1 = JobStarted ∧
  r.1 ≠ AlreadyCompleted ∧
  (status <$> r.2 !! 42%Z) = Some (Some "in_progress") ∧
  (start_time <$> r.2 !! 42%Z) = Some (Some "2024-03-01T10:00:00") ∧
  (start_time <$> Sample.db_completed !! 42%Z) = Some (Some "2024-03-01T08:00:00") ∧
  (finish_time <$> r.2 !! 42%Z) = Some (Some "2024-03-01T09:30:00").
Proof.
  intros r. subst r.
  rewrite (emp_start_job_otherwise _ _ _ Sample.completed_job) by done.
  simpl. rewrite lookup_insert_eq. by repeat split.
Qed.

(** *** The invariant *)

Lemma job_invariant_reset_row j : job_invariant (reset_row j).
Proof. repeat split; simpl in *; discriminate. Qed.

(** The daily reset keeps the invariant of every row. *)
Lemma reset_jobs_daily_invariant now d :
  (∀ id j, d !! id = Some j → job_invariant j) →
  ∀ id j, reset_jobs_daily now d !! id = Some j → job_invariant j.
Proof.
  intros Hinv id j. unfold reset_jobs_daily. rewrite lookup_fmap.
  destruct (d !! id) as [j0|] eqn:Hj0; [|done]. simpl. intros [= <-].
  destruct (reset_applies _ j0); [apply job_invariant_reset_row|by eapply Hinv].
Qed.

(** Starting a pending job keeps the invariant. *)
Lemma job_invariant_started now j :
  status j = Some "pending" → job_invariant j → job_invariant (started now j).
Proof.
  intros Hs (Hp & _ & _). destruct (Hp Hs) as [_ Hf].
  repeat split; simpl in *; try done.
Qed.

(** Finishing a job in progress keeps the invariant when the clock has not
    gone back since the start. *)
Lemma job_invariant_finished now ts j :
  status j = Some "in_progress" →
  start_time j = Some (isoformat ts) → valid ts = true → valid now = true →
  DateTime.leb ts now = true →
  job_invariant (finished now j).
Proof.
  intros Hs Hst Hvs Hvn Hle.
  repeat split; simpl in *; try done.
  - by rewrite Hst.
  - unfold timestamps_ordered. simpl. rewrite Hst. simpl.
    by rewrite !fromisoformat_isoformat.
Qed.

Lemma job_invariant_completed_sample : job_invariant Sample.completed_job.
Proof.
  repeat split; simpl in *; done.
Qed.

(** C2: evaluation of the start operation on a completed job that satisfies
    the invariant.  The row it leaves is in progress and still carries the
    finish time of the completed run, so the invariant is lost. *)
Theorem emp_start_job_breaks_invariant :
  let r := emp_start_job Sample.t1000 42 Sample.db_completed in
  job_invariant Sample.completed_job ∧
  r.1 = JobStarted ∧
  ∃ j', r.2 !! 42%Z = Some j' ∧
        status j' = Some "in_progress" ∧ finish_time j' ≠ None ∧
        ¬ job_invariant j'.
Proof.
  intros r. subst r.
  rewrite (emp_start_job_otherwise _ _ _ Sample.completed_job) by done.
  split; [apply job_invariant_completed_sample|]. split; [done|].
  eexists. split; [apply lookup_insert_eq|]. split_and!; [done|done|].
  intros (_ & Hip & _). by destruct Hip as [_ Hf].
Qed.

End lifecycle_facts.

(** ** Awaiting-input flags *)

Section session_facts.
Implicit Types (w : World) (job_id : Z) (now : datetime).



Lemma emp_upload_photo_cases now job_id w :
  emp_upload_photo now job_id w =
    (BulkUploadPrompt,
     with_user_data
       (<["return_to_job_menu" := VBool true]>
          (<["bulk_upload_mode" := VBool true]>
             (<["awaiting_photo_for" := VInt job_id]> (user_data w)))) w) ∨
  ((emp_upload_photo now job_id w).1 ≠ BulkUploadPrompt ∧
   (emp_upload_photo now job_id w).2 = w).
Proof.
  unfold emp_upload_photo. destruct (db w !! job_id); [|by right].
  destruct (photo_limit <=? _)%nat; [by right|by left].
Qed.


End session_facts.

(** ** Effective photo date *)

Section photo_date_facts.
Implicit Types (w : World) (job_id : Z) (j : Job) (now t : datetime).

Lemma truthy_isoformat t : PyStr.truthy (Some (isoformat t)) = true.
Proof.
  unfold isoformat, date_isoformat. cbn [pad].
  rewrite !str_app_assoc, !str_app_nil_l, !str_app_cons. done.
Qed.

(** With a stored finish time the date does not depend on the clock. *)
Lemma photo_date_of_finished t now :
  valid t = true → photo_date_of (Some (isoformat t)) now = date_isoformat t.
Proof.
  intros Hv. unfold photo_date_of. rewrite truthy_isoformat. simpl.
  by rewrite fromisoformat_isoformat.
Qed.

Lemma photo_date_of_unfinished now : photo_date_of None now = date_isoformat now.
Proof. done. Qed.

(** Without a stored finish time the date is the one of the clock. *)
Lemma photo_date_of_unset o now :
  PyStr.truthy o = false → photo_date_of o now = date_isoformat now.
Proof. intros H. unfold photo_date_of. by rewrite H. Qed.

End photo_date_facts.

(** ** Pagination of the unassigned jobs *)

Section pagination_facts.
Implicit Types (w : World) (d : gmap Z Job) (S : gset Z) (p q : Z) (id : Z).

#[local] Instance by_id_trans : Transitive by_id.
Proof. unfold by_id. intros a b c. lia. Qed.

#[local] Instance by_id_total : Total by_id.
Proof. unfold by_id. intros a b. lia. Qed.

Lemma unassigned_jobs_perm d :
  unassigned_jobs d ≡ₚ filter (λ r, assigned_to r.2 = None) (map_to_list d).
Proof. apply merge_sort_Permutation. Qed.

Lemma elem_of_unassigned_jobs d id j :
  (id, j) ∈ unassigned_jobs d ↔ d !! id = Some j ∧ assigned_to j = None.
Proof.
  rewrite unassigned_jobs_perm, list_elem_of_filter, elem_of_map_to_list.
  simpl. tauto.
Qed.





Lemma shown_on_page p w S :
  get_selected_jobs (user_data w) = Some S →
  shown_on (build_director_assign_jobs_page p w) = (page_jobs p (db w)).*1.
Proof.
  intros HS. unfold build_director_assign_jobs_page.
  case_bool_decide as Hnil; [by rewrite Hnil|].
  rewrite HS. simpl. by rewrite <- list_fmap_compose.
Qed.






End pagination_facts.

(** ** Photo references *)

Section reference_facts.
Implicit Types (c : ascii) (d : datetime) (z : Z) (s fid : string).

Lemma digit_is_digit n : digit_val (digit n) ≠ None.
Proof. by rewrite digit_val_digit. Qed.

Lemma date_isoformat_shape d :
  ∃ y1 y2 y3 y4 m1 m2 d1 d2 : N,
    date_isoformat d =
      String (digit y1) (String (digit y2) (String (digit y3) (String (digit y4)
        (String "-" (String (digit m1) (String (digit m2)
          (String "-" (String (digit d1) (String (digit d2) ""))))))))).
Proof.
  unfold date_isoformat. cbn [pad].
  rewrite !str_app_nil_l, !str_app_cons, !str_app_nil_l.
  by repeat eexists.
Qed.

Lemma date_isoformat_length d : String.length (date_isoformat d) = 10.
Proof. destruct (date_isoformat_shape d) as (?&?&?&?&?&?&?&?&->). done. Qed.

(** A date text consists of digits and ["-"]. *)
Lemma date_isoformat_no_char c d :
  digit_val c = None → c ≠ "-"%char →
  PyStr.contains (String c "") (date_isoformat d) = false.
Proof.
  intros Hc Hdash. destruct (date_isoformat_shape d) as (?&?&?&?&?&?&?&?&->).
  rewrite !char_in_cons.
  repeat (rewrite bool_decide_eq_false_2;
          [|first [exact Hdash | by intros ->; eapply digit_is_digit]]).
  done.
Qed.

Lemma pretty_N_char_digit (x : N) : digit_val (pretty_N_char x) ≠ None.
Proof. unfold pretty_N_char. by repeat case_match. Qed.

Lemma pretty_N_go_no_char c (x : N) s :
  digit_val c = None →
  PyStr.contains (String c "") s = false →
  PyStr.contains (String c "") (pretty_N_go x s) = false.
Proof.
  intros Hc. revert s. induction (N.lt_wf_0 x) as [x _ IH]; intros s Hs.
  assert (x = 0 ∨ 0 < x)%N as [->|Hpos] by lia; [by rewrite pretty_N_go_0|].
  rewrite pretty_N_go_step by done. apply IH; [by apply N.div_lt|].
  rewrite char_in_cons, Hs, orb_false_r. apply bool_decide_eq_false_2.
  intros ->. by eapply pretty_N_char_digit.
Qed.

(** The decimal text of a natural number has digits only. *)
Lemma pretty_N_no_char c (x : N) :
  digit_val c = None → PyStr.contains (String c "") (pretty x) = false.
Proof.
  intros Hc. unfold pretty, pretty_N. case_decide.
  - rewrite char_in_cons. rewrite bool_decide_eq_false_2; [done|].
    intros ->. done.
  - by apply pretty_N_go_no_char.
Qed.

(** The decimal text of an integer: an optional sign, then digits. *)
Lemma pretty_Z_no_char c z :
  digit_val c = None → c ≠ "-"%char →
  PyStr.contains (String c "") (pretty z) = false.
Proof.
  intros Hc Hdash. destruct z as [|x|x]; unfold pretty, pretty_Z.
  - by rewrite char_in_cons, bool_decide_eq_false_2 by (by intros ->).
  - by apply pretty_N_no_char.
  - rewrite str_app_cons, str_app_nil_l, char_in_cons.
    rewrite bool_decide_eq_false_2 by done. by apply pretty_N_no_char.
Qed.

Lemma pretty_Z_dash_tail z c s :
  pretty z = String c s → PyStr.contains (String "-" "") s = false.
Proof.
  destruct z as [|x|x]; unfold pretty, pretty_Z.
  - by intros [= <- <-].
  - intros E. pose proof (pretty_N_no_char "-" (N.pos x) eq_refl) as Hno.
    unfold pretty, pretty_positive in E. rewrite E, char_in_cons in Hno.
    by apply orb_false_iff in Hno as [_ ?].
  - rewrite str_app_cons, str_app_nil_l. intros [= <- <-].
    by apply (pretty_N_no_char "-" (N.pos x)).
Qed.

(** A date never occurs inside the decimal text of a job id. *)
Lemma date_not_in_job_id d z : PyStr.contains (date_isoformat d) (pretty z) = false.
Proof.
  destruct (PyStr.contains _ _) eqn:E; [exfalso|done].
  destruct (date_isoformat_shape d) as (?&?&?&?&?&?&?&?&Hd). rewrite Hd in E.
  destruct (pretty z) as [|c s] eqn:Hz; [done|].
  apply contains_tail in E. do 3 apply contains_drop_head in E.
  apply contains_head_char in E.
  by rewrite (pretty_Z_dash_tail z c s) in E.
Qed.

(** Where a date occurs in the file name [handle_photo] builds: in the date
    field, when it is that date, or inside Telegram's file id. *)
Lemma contains_date_photo_path d d' z fid :
  PyStr.contains (date_isoformat d) (photo_path z (date_isoformat d') fid) =
  bool_decide (date_isoformat d' = date_isoformat d)
  || PyStr.contains (date_isoformat d) fid.
Proof.
  assert (date_isoformat d ≠ "") as Hne
    by (destruct (date_isoformat_shape d) as (?&?&?&?&?&?&?&?&->); done).
  assert (∀ c, digit_val c = None → c ≠ "-"%char →
            PyStr.contains (String c "") (date_isoformat d) = false) as Hsep
    by (intros; by apply date_isoformat_no_char).
  change (photo_path z (date_isoformat d') fid) with
    ("photos/job" +:+ String "_" (pretty z +:+ String "_"
       (date_isoformat d' +:+ String "_" (fid +:+ String "." "jpg")))).
  rewrite !contains_app_sep by (done || by apply Hsep).
  rewrite date_not_in_job_id.
  assert (PyStr.contains (date_isoformat d) "photos/job" = false) as ->.
  { apply not_true_is_false. intros H%contains_same_length.
    - destruct (date_isoformat_shape d) as (?&?&?&?&?&?&?&?&Hd). by rewrite Hd in H.
    - by rewrite date_isoformat_length. }
  assert (PyStr.contains (date_isoformat d) "jpg" = false) as ->.
  { apply not_true_is_false. intros H%contains_length.
    rewrite date_isoformat_length in H. simpl in H. lia. }
  rewrite !orb_false_l, orb_false_r. f_equal.
  destruct (PyStr.contains _ _) eqn:E.
  - apply contains_same_length in E; [|by rewrite !date_isoformat_length].
    by rewrite bool_decide_eq_true_2.
  - rewrite bool_decide_eq_false_2; [done|]. intros Heq.
    by rewrite Heq, contains_refl in E.
Qed.

(** The front of a file name, up to the file id, has no ["|"] and shows the
    upload date. *)
Lemma photo_path_front z d fid :
  ∃ front, photo_path z (date_isoformat d) fid = front +:+ fid +:+ ".jpg" ∧
           PyStr.contains "|" front = false ∧
           PyStr.contains (date_isoformat d) front = true.
Proof.
  exists ("photos/job_" +:+ pretty z +:+ "_" +:+ date_isoformat d +:+ "_").
  split_and!.
  - unfold photo_path. by rewrite !str_app_assoc.
  - rewrite !char_in_app, pretty_Z_no_char, date_isoformat_no_char by done. done.
  - apply contains_app_r, contains_app_r, contains_app_r, contains_app_l, contains_refl.
Qed.

(** A file name starts with ["p"] and ends with [".jpg"], so [strip] keeps it. *)
Lemma photo_path_clean z date fid :
  ∃ body, photo_path z date fid = String "p" (body +:+ ".jpg").
Proof.
  exists ("hotos/job_" +:+ pretty z +:+ "_" +:+ date +:+ "_" +:+ fid).
  unfold photo_path. by rewrite !str_app_assoc.
Qed.

End reference_facts.

(** ** Photo ledger *)

Section ledger_facts.
Implicit Types (refs : list photo_ref) (r : photo_ref) (paths : list string).
Implicit Types (cur path today : string) (d : datetime).

Lemma join_snoc sep paths path :
  paths ≠ [] → PyStr.join sep (paths ++ [path]) = PyStr.join sep paths +:+ sep +:+ path.
Proof.
  induction paths as [|x [|y l] IH]; intros Hne; [done|done|].
  change (PyStr.join sep ((x :: y :: l) ++ [path]))
    with (x +:+ sep +:+ PyStr.join sep ((y :: l) ++ [path])).
  rewrite IH by done.
  change (PyStr.join sep (x :: y :: l)) with (x +:+ sep +:+ PyStr.join sep (y :: l)).
  by rewrite !str_app_assoc.
Qed.

Lemma split_join paths :
  paths ≠ [] →
  (∀ path, path ∈ paths → PyStr.contains "|" path = false) →
  PyStr.split "|" (PyStr.join "|" paths) = paths.
Proof.
  induction paths as [|x [|y l] IH]; intros Hne Hsep; [done|..].
  - apply split_nosep, Hsep. by left.
  - change (PyStr.join "|" (x :: y :: l))
      with (x +:+ String "|" (PyStr.join "|" (y :: l))).
    rewrite split_app_sep, IH, split_nosep; [done|..|done|].
    + apply Hsep. by left.
    + intros path Hin. apply Hsep. by right.
Qed.

Lemma clean_strip body :
  PyStr.strip (String "p" (body +:+ ".jpg")) = String "p" (body +:+ ".jpg").
Proof. by apply strip_clean. Qed.

Lemma join_clean refs :
  refs ≠ [] → ∃ body, PyStr.join "|" (ref_path <$> refs) = String "p" (body +:+ ".jpg").
Proof.
  induction refs as [|r [|r' l] IH]; intros Hne; [done|..].
  - apply photo_path_clean.
  - destruct IH as [body' Hb']; [done|].
    destruct (photo_path_clean (pr_job r) (pr_date r) (pr_file_id r)) as [body Hb].
    exists (body +:+ ".jpg" +:+ "|" +:+ String "p" body').
    change (PyStr.join "|" (ref_path <$> r :: r' :: l))
      with (ref_path r +:+ "|" +:+ PyStr.join "|" (ref_path <$> r' :: l)).
    unfold ref_path at 1. rewrite Hb, Hb'.
    by rewrite !str_app_cons, !str_app_assoc.
Qed.

Lemma append_photo_path_empty path : append_photo_path "" path = path.
Proof. done. Qed.

Lemma append_photo_path_clean body path :
  append_photo_path (String "p" (body +:+ ".jpg")) path =
  String "p" (body +:+ ".jpg") +:+ "|" +:+ path.
Proof. unfold append_photo_path. by rewrite clean_strip. Qed.

(** The column is the references joined by ["|"], in upload order. *)
Lemma photos_column_join refs :
  refs ≠ [] → photos_column refs = Some (PyStr.join "|" (ref_path <$> refs)).
Proof.
  induction refs as [|r refs IH] using rev_ind; intros Hne; [done|].
  unfold photos_column. rewrite fold_left_app. cbn [fold_left].
  fold (photos_column refs). destruct refs as [|r0 refs].
  - done.
  - rewrite IH by done. cbn [from_option id].
    destruct (join_clean (r0 :: refs)) as [body Hb]; [done|].
    rewrite fmap_app. change (ref_path <$> [r]) with [ref_path r].
    rewrite join_snoc by done.
    by rewrite Hb, append_photo_path_clean.
Qed.

Lemma filter_photos_by_date_Some cur today :
  filter_photos_by_date (Some cur) today =
  if negb (PyStr.truthy (Some cur)) || negb (PyStr.truthy (Some (PyStr.strip cur)))
  then []
  else filter (λ path, PyStr.contains today path = true)
         (PyStr.split "|" (PyStr.strip cur)).
Proof. done. Qed.

Lemma filter_photos_by_date_clean body today :
  filter_photos_by_date (Some (String "p" (body +:+ ".jpg"))) today =
  filter (λ path, PyStr.contains today path = true)
    (PyStr.split "|" (String "p" (body +:+ ".jpg"))).
Proof. by rewrite filter_photos_by_date_Some, clean_strip. Qed.

Lemma filter_photos_by_date_join refs today :
  (∀ r, r ∈ refs → PyStr.contains "|" (ref_path r) = false) →
  filter_photos_by_date (photos_column refs) today =
  filter (λ path, PyStr.contains today path = true) (ref_path <$> refs).
Proof.
  intros Hsep. destruct refs as [|r0 refs]; [done|].
  rewrite photos_column_join by done.
  destruct (join_clean (r0 :: refs)) as [body Hb]; [done|].
  rewrite Hb, filter_photos_by_date_clean, <- Hb.
  rewrite split_join; [done|done|].
  intros path (r & -> & Hr)%list_elem_of_fmap. by apply Hsep.
Qed.

Lemma filter_fmap_ext {A B} (f : A → B) (P : B → Prop) (Q : A → Prop)
    `{∀ x, Decision (P x)} `{∀ x, Decision (Q x)} (l : list A) :
  (∀ x, x ∈ l → P (f x) ↔ Q x) → filter P (f <$> l) = f <$> filter Q l.
Proof.
  induction l as [|x l IH]; intros Hext; [done|].
  rewrite fmap_cons, !filter_cons.
  assert (P (f x) ↔ Q x) as Hx by (apply Hext; by left).
  rewrite IH by (intros y Hy; apply Hext; by right).
  destruct (decide (P (f x))), (decide (Q x)); try done; tauto.
Qed.

Lemma ref_path_no_sep r d :
  pr_date r = date_isoformat d →
  PyStr.contains "|" (pr_file_id r) = false →
  PyStr.contains "|" (ref_path r) = false.
Proof.
  intros Hd Hfid. unfold ref_path. rewrite Hd.
  destruct (photo_path_front (pr_job r) d (pr_file_id r)) as (front & -> & Hf & _).
  by rewrite !char_in_app, Hf, Hfid.
Qed.

(** The date of another day in Telegram's file id makes the filter keep a
    photo that does not carry the requested date. *)
Lemma photos_for_date_keeps_stray :
  let refs := [Sample.stray_ref] in
  filter (λ r, pr_date r = "2024-03-01") refs = [] ∧
  filter_photos_by_date (photos_column refs) "2024-03-01" =
    ["photos/job_7_2024-03-02_AB2024-03-01CD.jpg"] ∧
  filter_photos_by_date (photos_column refs) "2024-03-01" ≠
    ref_path <$> filter (λ r, pr_date r = "2024-03-01") refs.
Proof. by vm_compute. Qed.

(** C5 (as the filter has it): the photos shown for date D are exactly the
    references whose text contains D, in upload order; when no file id
    contains D these are exactly the references uploaded on D, and none when
    no photo was uploaded on D. *)
Theorem photos_for_date refs d :
  (∀ r, r ∈ refs → ∃ d', pr_date r = date_isoformat d') →
  (∀ r, r ∈ refs → PyStr.contains "|" (pr_file_id r) = false) →
  let shown := filter_photos_by_date (photos_column refs) (date_isoformat d) in
  shown = filter (λ path, PyStr.contains (date_isoformat d) path = true) (ref_path <$> refs) ∧
  shown `sublist_of` (ref_path <$> refs) ∧
  ((∀ r, r ∈ refs → PyStr.contains (date_isoformat d) (pr_file_id r) = false) →
     shown = ref_path <$> filter (λ r, pr_date r = date_isoformat d) refs ∧
     ((∀ r, r ∈ refs → pr_date r ≠ date_isoformat d) → shown = [])).
Proof.
  intros Hdate Hsep shown.
  assert (shown = filter (λ path, PyStr.contains (date_isoformat d) path = true)
                    (ref_path <$> refs)) as Hshown.
  { apply filter_photos_by_date_join. intros r Hr.
    destruct (Hdate r Hr) as [d' Hd']. by apply ref_path_no_sep with d', Hsep. }
  split_and!; [done|rewrite Hshown; apply sublist_filter|].
  intros Hfid.
  assert (shown = ref_path <$> filter (λ r, pr_date r = date_isoformat d) refs) as Hexact.
  { rewrite Hshown. apply filter_fmap_ext. intros r Hr.
    destruct (Hdate r Hr) as [d' Hd']. unfold ref_path.
    rewrite Hd', contains_date_photo_path, Hfid, orb_false_r by done.
    by rewrite bool_decide_eq_true. }
  split; [done|]. intros Hnone. rewrite Hexact.
  assert (filter (λ r, pr_date r = date_isoformat d) refs = []) as ->; [|done].
  clear -Hnone. induction refs as [|r refs IH]; [done|].
  rewrite filter_cons_False by (apply Hnone; by left).
  apply IH. intros r' Hr'. apply Hnone. by right.
Qed.

Lemma photos_for_date_witness :
  let refs := [mk_ref 42 "2024-03-01" "AgAC1"; mk_ref 42 "2024-03-02" "AgAC2";
               mk_ref 42 "2024-03-01" "AgAC3"] in
  filter_photos_by_date (photos_column refs) "2024-03-01" =
    ["photos/job_42_2024-03-01_AgAC1.jpg"; "photos/job_42_2024-03-01_AgAC3.jpg"].
Proof.
  intros refs.
  assert (∀ r, r ∈ refs → ∃ d', pr_date r = date_isoformat d') as Hdate.
  { intros r Hr. unfold refs in Hr. rewrite !elem_of_cons in Hr.
    destruct Hr as [->|[->|[->|Hr]]];
      [by exists Sample.t0800|by exists Sample.next_day|by exists Sample.t0800|].
    by apply elem_of_nil in Hr. }
  assert (∀ r, r ∈ refs → PyStr.contains "|" (pr_file_id r) = false) as Hsep.
  { intros r Hr. unfold refs in Hr. rewrite !elem_of_cons in Hr.
    destruct Hr as [->|[->|[->|Hr]]]; [done..|]. by apply elem_of_nil in Hr. }
  assert (∀ r, r ∈ refs →
            PyStr.contains (date_isoformat Sample.t0800) (pr_file_id r) = false) as Hfid.
  { intros r Hr. unfold refs in Hr. rewrite !elem_of_cons in Hr.
    destruct Hr as [->|[->|[->|Hr]]]; [done..|]. by apply elem_of_nil in Hr. }
  destruct (photos_for_date refs Sample.t0800 Hdate Hsep) as (_ & _ & Hexact).
  destruct (Hexact Hfid) as [Heq _]. exact Heq.
Defined.

(** *** Quota *)

Lemma count_photos_for_date_or_empty (o : option string) today :
  count_photos_for_date (Some (default "" o)) today = count_photos_for_date o today.
Proof. by destruct o. Qed.

(** A column with photos of a day is not blank. *)
Lemma count_photos_for_date_pos (o : option string) today :
  0 < count_photos_for_date o today →
  ∃ cur c t, o = Some cur ∧ PyStr.strip cur = String c t ∧
             filter_photos_by_date o today =
               filter (λ path, PyStr.contains today path = true)
                 (PyStr.split "|" (PyStr.strip cur)).
Proof.
  unfold count_photos_for_date. destruct o as [cur|]; [|simpl; lia].
  rewrite filter_photos_by_date_Some.
  destruct cur as [|x cur']; [simpl; lia|].
  destruct (PyStr.strip (String x cur')) as [|c t] eqn:E; [simpl; lia|].
  intros _. exists (String x cur'), c, t. split; [done|]. split; [done|].
  by rewrite E.
Qed.

(** Appending an upload of [d] to a column adds at least one photo of [d]. *)
Lemma count_after_append cur c t z d fid :
  PyStr.strip cur = String c t →
  let new_photos := append_photo_path cur (photo_path z (date_isoformat d) fid) in
  length (filter_photos_by_date (Some cur) (date_isoformat d)) <
  length (filter_photos_by_date (Some new_photos) (date_isoformat d)).
Proof.
  intros Hstrip new_photos.
  assert (PyStr.is_space c = false) as Hc by (by eapply strip_head).
  destruct (photo_path_clean z (date_isoformat d) fid) as [body Hbody].
  destruct (photo_path_front z d fid) as (front & Hfront & Hnosep & Hdate).
  assert (new_photos =
          String c ((t +:+ "|" +:+ String "p" body) +:+ ".jpg")) as Hnew.
  { unfold new_photos, append_photo_path. rewrite Hstrip, Hbody.
    destruct cur; [done|]. cbn [PyStr.truthy andb].
    by rewrite !str_app_cons, !str_app_assoc. }
  rewrite (filter_photos_by_date_Some new_photos), Hnew.
  rewrite strip_clean by done. cbn [PyStr.truthy negb orb].
  rewrite <- Hnew. unfold new_photos, append_photo_path. rewrite Hstrip.
  destruct cur as [|x cur']; [done|]. cbn [PyStr.truthy andb].
  rewrite filter_photos_by_date_Some, Hstrip. cbn [PyStr.truthy negb orb].
  change (String c t +:+ "|" +:+ photo_path z (date_isoformat d) fid)
    with (String c t +:+ String "|" (photo_path z (date_isoformat d) fid)).
  rewrite split_app_sep, filter_app, length_app.
  rewrite Hfront.
  destruct (split_nosep_app "|" front (fid +:+ ".jpg") Hnosep) as (x0 & xs & _ & ->).
  rewrite filter_cons_True by (by apply contains_app_l). simpl. lia.
Qed.

(** What [handle_photo] does with a decodable photo while a job awaits one:
    the file is written, then the quota decides on the row. *)
Lemma handle_photo_awaiting now ph w job_id :
  user_data w !! "awaiting_photo_for" = Some (VInt job_id) →
  decodable ph = true →
  let today := date_isoformat now in
  let path := photo_path job_id today (file_id ph) in
  let new_photos := append_photo_path (default "" (db w !! job_id ≫= photos)) path in
  let saved := with_files ({[path]} ∪ files w) w in
  handle_photo now ph w =
    if (photo_limit <? length (filter_photos_by_date (Some new_photos) today))%nat
    then (PhotoLimitReached, saved)
    else
      let stored := with_db (alter (set_photos (Some new_photos)) job_id (db w)) saved in
      if value_truthy (default (VBool false) (user_data w !! "bulk_upload_mode"))
      then (PhotoStored, stored)
      else (PhotoUploaded (length (filter_photos_by_date (Some new_photos) today)), stored).
Proof. intros Hud Hdec. unfold handle_photo. by rewrite Hud, Hdec. Qed.

(** The twenty-sixth photo of a day is refused, and its file is in
    [photos/] all the same. *)
Lemma handle_photo_over_quota_saves_file :
  let r := handle_photo Sample.t1000 (mk_photo "AgACNew" true) Sample.world_full in
  count_photos_for_date (photos Sample.full_job) "2024-03-01" = 25 ∧
  r.1 = PhotoLimitReached ∧
  db r.2 = db Sample.world_full ∧
  ("photos/job_42_2024-03-01_AgACNew.jpg" ∉ files Sample.world_full) ∧
  ("photos/job_42_2024-03-01_AgACNew.jpg" ∈ files r.2).
Proof.
  intros r.
  assert (count_photos_for_date (photos Sample.full_job) "2024-03-01" = 25) as Hcount
    by (by vm_compute).
  assert (r = (PhotoLimitReached,
               with_files ({[ "photos/job_42_2024-03-01_AgACNew.jpg" ]}
                             ∪ files Sample.world_full) Sample.world_full)) as ->.
  { unfold r. rewrite (handle_photo_awaiting _ _ _ 42) by done.
    cbv zeta.
    replace (photo_limit <? _)%nat with true; [done|].
    symmetry. by vm_compute. }
  split; [exact Hcount|]. split; [reflexivity|]. split; [reflexivity|]. split.
  - apply not_elem_of_empty.
  - apply elem_of_union_l, elem_of_singleton. reflexivity.
Qed.

(** C4 (as the handlers have it): once the photos of a job for the day have
    reached the limit of 25, a further photo is refused with "Photo Limit
    Reached", the row of the job and the session stay as they were, so the
    count of the day stays where it was and the refused photo is not among
    the photos of the job; entering upload mode is refused as well. *)
Theorem handle_photo_quota now ph w job_id j :
  user_data w !! "awaiting_photo_for" = Some (VInt job_id) →
  decodable ph = true →
  db w !! job_id = Some j →
  photo_limit ≤ count_photos_for_date (photos j) (date_isoformat now) →
  let r := handle_photo now ph w in
  r.1 = PhotoLimitReached ∧
  db r.2 = db w ∧
  user_data r.2 = user_data w ∧
  count_photos_for_date (db r.2 !! job_id ≫= photos) (date_isoformat now) =
    count_photos_for_date (photos j) (date_isoformat now) ∧
  emp_upload_photo now job_id w = (PhotoLimitReached, w).
Proof.
  intros Hud Hdec Hj Hfull r.
  destruct (count_photos_for_date_pos (photos j) (date_isoformat now))
    as (cur & c & t & Hcur & Hstrip & _); [unfold photo_limit in Hfull; lia|].
  assert (r = (PhotoLimitReached,
               with_files ({[photo_path job_id (date_isoformat now) (file_id ph)]}
                             ∪ files w) w)) as ->.
  { unfold r. rewrite (handle_photo_awaiting _ _ _ job_id) by done. cbv zeta.
    rewrite Hj. cbn [mbind option_bind]. rewrite Hcur. cbn [from_option id].
    replace (photo_limit <? _)%nat with true; [done|].
    symmetry. apply Nat.ltb_lt.
    pose proof (count_after_append cur c t job_id now (file_id ph) Hstrip) as Hlt.
    cbv zeta in Hlt. unfold count_photos_for_date in Hfull.
    rewrite Hcur in Hfull. lia. }
  cbn [fst snd db user_data with_files].
  split_and!; [done|done|done|by rewrite Hj|].
  unfold emp_upload_photo. rewrite Hj, count_photos_for_date_or_empty.
  by rewrite (proj2 (Nat.leb_le _ _) Hfull).
Qed.

Lemma handle_photo_quota_witness :
  (handle_photo Sample.t1000 (mk_photo "AgACNew" true) Sample.world_full).1
    = PhotoLimitReached ∧
  count_photos_for_date
    (db (handle_photo Sample.t1000 (mk_photo "AgACNew" true) Sample.world_full).2
       !! 42%Z ≫= photos) (date_isoformat Sample.t1000) = 25.
Proof.
  assert (photo_limit ≤
          count_photos_for_date (photos Sample.full_job) (date_isoformat Sample.t1000))
    as Hfull by (by vm_compute).
  destruct (handle_photo_quota Sample.t1000 (mk_photo "AgACNew" true) Sample.world_full
              42 Sample.full_job eq_refl eq_refl eq_refl Hfull) as (Hr & _ & _ & Hc & _).
  split; [exact Hr|]. rewrite Hc. by vm_compute.
Defined.

End ledger_facts.

(** ** The effective photo date *)

Section effective_date_facts.
Implicit Types (w : World) (job_id : Z) (j : Job) (now t : datetime) (refs : list photo_ref).






End effective_date_facts.

(** * Further properties *)

(** ** A day in the life of a job *)

Section run_facts.
Implicit Types (d : gmap Z Job) (j : Job) (now : datetime) (id : Z).

Lemma unwritten_started now j : unwritten (started now j) = unwritten j.
Proof. by destruct j. Qed.

Lemma unwritten_finished now j : unwritten (finished now j) = unwritten j.
Proof. by destruct j. Qed.

Lemma emp_start_job_db now id d :
  (emp_start_job now id d).2 = d ∨
  ∃ j, d !! id = Some j ∧ status j ≠ Some "in_progress" ∧
       emp_start_job now id d = (JobStarted, <[id := started now j]> d).
Proof.
  destruct (d !! id) as [j|] eqn:Hj.
  - destruct (decide (status j = Some "in_progress")) as [Hs|Hs].
    + left. by rewrite (emp_start_job_in_progress now id d j).
    + right. exists j. by rewrite (emp_start_job_otherwise now id d j).
  - left. unfold emp_start_job. by rewrite Hj.
Qed.

Lemma emp_finish_job_db now id d :
  ((emp_finish_job now id d).2 = d ∧ (emp_finish_job now id d).1 ≠ JobCompleted) ∨
  ∃ j, d !! id = Some j ∧ status j = Some "in_progress" ∧
       emp_finish_job now id d = (JobCompleted, <[id := finished now j]> d).
Proof.
  destruct (d !! id) as [j|] eqn:Hj.
  - destruct (decide (status j = Some "in_progress")) as [Hs|Hs].
    + right. exists j. by rewrite (emp_finish_job_in_progress now id d j).
    + left. unfold emp_finish_job. rewrite Hj.
      destruct (bool_decide (status j = Some "completed")); [done|].
      by rewrite bool_decide_eq_true_2.
  - left. unfold emp_finish_job. by rewrite Hj.
Qed.

(** X1: a pending job that is started and then finished, the clock not going
    back in between, is completed, carries the two time stamps of the two
    presses and satisfies the job invariant; both presses are answered with
    success, and the rest of the table is as before. *)
Theorem start_then_finish_completes t1 t2 id d j :
  d !! id = Some j → status j = Some "pending" →
  valid t1 = true → valid t2 = true → DateTime.leb t1 t2 = true →
  let r1 := emp_start_job t1 id d in
  let r2 := emp_finish_job t2 id r1.2 in
  r1.1 = JobStarted ∧ r2.1 = JobCompleted ∧
  (∃ j', r2.2 !! id = Some j' ∧
         status j' = Some "completed" ∧
         start_time j' = Some (isoformat t1) ∧
         finish_time j' = Some (isoformat t2) ∧
         job_invariant j' ∧ unwritten j' = unwritten j) ∧
  (∀ k, k ≠ id → r2.2 !! k = d !! k).
Proof.
  intros Hj Hs Hv1 Hv2 Hle r1 r2. subst r2 r1.
  rewrite (emp_start_job_pending t1 id d j) by done. cbn [fst snd].
  rewrite (emp_finish_job_in_progress t2 id _ (started t1 j))
    by (by rewrite ?lookup_insert_eq).
  cbn [fst snd]. split; [done|]. split; [done|]. split.
  - exists (finished t2 (started t1 j)). rewrite lookup_insert_eq.
    split; [done|]. split; [done|]. split; [done|]. split; [done|]. split.
    + by apply (job_invariant_finished t2 t1).
    + by rewrite unwritten_finished, unwritten_started.
  - intros k Hk. by rewrite !lookup_insert_ne.
Qed.

Lemma start_then_finish_completes_witness :
  let r := emp_finish_job Sample.t0930 42
             (emp_start_job Sample.t0800 42 Sample.db_pending).2 in
  r.1 = JobCompleted ∧ ∃ j', r.2 !! 42%Z = Some j' ∧ job_invariant j'.
Proof.
  destruct (start_then_finish_completes Sample.t0800 Sample.t0930 42 Sample.db_pending
              Sample.pending_job eq_refl eq_refl eq_refl eq_refl eq_refl)
    as (_ & Hr & (j' & Hj' & _ & _ & _ & Hinv & _) & _).
  split; [exact Hr|]. exists j'. split; [exact Hj'|exact Hinv].
Defined.

(** X2: finishing is idempotent on the table.  Whatever the table holds, a
    second finish of the same job changes nothing, is never answered with
    "Job Completed", and so never moves a finish time. *)
Theorem emp_finish_job_idempotent t1 t2 id d :
  let r1 := emp_finish_job t1 id d in
  let r2 := emp_finish_job t2 id r1.2 in
  r2.2 = r1.2 ∧ r2.1 ≠ JobCompleted ∧
  (r1.1 = JobCompleted → r2.1 = AlreadyCompleted).
Proof.
  intros r1 r2. subst r2 r1.
  destruct (emp_finish_job_db t1 id d) as [[Hd Hs]|(j & Hj & Hst & ->)].
  - rewrite Hd. split; [|split; [|done]].
    + destruct (emp_finish_job_db t2 id d) as [[Hd' _]|(j & Hj & Hst & Hr)]; [done|].
      exfalso. apply Hs. pose proof (emp_finish_job_in_progress t1 id d j Hj Hst) as E.
      by rewrite E.
    + destruct (emp_finish_job_db t2 id d) as [[_ Hs']|(j & Hj & Hst & Hr)]; [done|].
      exfalso. apply Hs. pose proof (emp_finish_job_in_progress t1 id d j Hj Hst) as E.
      by rewrite E.
  - cbn [fst snd].
    rewrite (emp_finish_job_completed t2 id _ (finished t1 j))
      by (by rewrite ?lookup_insert_eq).
    done.
Qed.

(** X3: the life-cycle handlers write the status and the two time stamps of
    the one job they are called for and nothing else: no row appears or
    disappears, every other row is untouched, and in the row of the job the
    assignee, the photos, the notes and the site data stay. *)
Theorem lifecycle_frame now id d :
  ∀ d', d' = (emp_start_job now id d).2 ∨ d' = (emp_finish_job now id d).2 →
    dom d' = dom d ∧
    (∀ k, k ≠ id → d' !! k = d !! k) ∧
    (unwritten <$> d' !! id) = (unwritten <$> d !! id).
Proof.
  assert (∀ j f, d !! id = Some j → unwritten (f j) = unwritten j →
            dom (<[id := f j]> d) = dom d ∧
            (∀ k, k ≠ id → <[id := f j]> d !! k = d !! k) ∧
            (unwritten <$> <[id := f j]> d !! id) = (unwritten <$> d !! id)) as Hrow.
  { intros j f Hj Hf. split; [|split].
    - rewrite dom_insert_L. apply elem_of_dom_2 in Hj. set_solver.
    - intros k Hk. by rewrite lookup_insert_ne.
    - rewrite lookup_insert_eq, Hj. simpl. by rewrite Hf. }
  intros d' [->| ->].
  - destruct (emp_start_job_db now id d) as [->|(j & Hj & _ & ->)]; [done|].
    apply (Hrow j (started now)); [done|apply unwritten_started].
  - destruct (emp_finish_job_db now id d) as [[-> _]|(j & Hj & _ & ->)]; [done|].
    apply (Hrow j (finished now)); [done|apply unwritten_finished].
Qed.

Lemma lifecycle_frame_witness :
  let d' := (emp_finish_job Sample.t0930 42 Sample.db_started).2 in
  dom d' = dom Sample.db_started ∧
  (unwritten <$> d' !! 42%Z) = (unwritten <$> Sample.db_started !! 42%Z).
Proof.
  destruct (lifecycle_frame Sample.t0930 42 Sample.db_started
              (emp_finish_job Sample.t0930 42 Sample.db_started).2 (or_intror eq_refl))
    as (Hdom & _ & Hrow).
  split; [exact Hdom|exact Hrow].
Defined.

End run_facts.

(** ** The pool of unassigned jobs and the lists of the employees *)

Section pool_facts.
Implicit Types (w : World) (d : gmap Z Job) (S : gset Z) (e u id : Z) (j : Job).

#[local] Existing Instance by_id_trans.
#[local] Existing Instance by_id_total.

Lemma open_jobs_of_perm u d :
  open_jobs_of u d ≡ₚ
    filter (λ r, assigned_to r.2 = Some u ∧
                 is_Some (status r.2) ∧ status r.2 ≠ Some "completed") (map_to_list d).
Proof. apply merge_sort_Permutation. Qed.

Lemma elem_of_open_jobs_of u d id j :
  (id, j) ∈ open_jobs_of u d ↔
    d !! id = Some j ∧ assigned_to j = Some u ∧
    is_Some (status j) ∧ status j ≠ Some "completed".
Proof.
  rewrite open_jobs_of_perm, list_elem_of_filter, elem_of_map_to_list.
  simpl. tauto.
Qed.

Lemma elem_of_open_ids u d id :
  id ∈ (open_jobs_of u d).*1 ↔
    ∃ j, d !! id = Some j ∧ assigned_to j = Some u ∧
         is_Some (status j) ∧ status j ≠ Some "completed".
Proof.
  rewrite list_elem_of_fmap. split.
  - intros ([id' j] & -> & Hin). exists j. by apply elem_of_open_jobs_of.
  - intros (j & Hj). exists (id, j). split; [done|]. by apply elem_of_open_jobs_of.
Qed.

Lemma elem_of_completed_jobs_of e d id j :
  (id, j) ∈ completed_jobs_of e d →
  d !! id = Some j ∧ assigned_to j = Some e ∧ status j = Some "completed".
Proof.
  unfold completed_jobs_of. intros Hin. apply subseteq_take in Hin.
  rewrite merge_sort_Permutation, list_elem_of_filter, elem_of_map_to_list in Hin.
  simpl in Hin. tauto.
Qed.

Lemma reset_applies_reset_row today j : reset_applies today (reset_row j) = false.
Proof. done. Qed.

(** X4: running the daily reset a second time with the same date changes
    nothing: the rows the first run has reset are pending and so outside its
    [WHERE] clause, and the others were outside it already. *)
Theorem reset_jobs_daily_idempotent now d :
  reset_jobs_daily now (reset_jobs_daily now d) = reset_jobs_daily now d.
Proof.
  unfold reset_jobs_daily. rewrite <- map_fmap_compose.
  apply map_fmap_ext. intros id j _. simpl.
  destruct (reset_applies _ j) eqn:E.
  - by rewrite reset_applies_reset_row.
  - by rewrite E.
Qed.

(** X5: a job the daily reset applies to is back in the pool the director
    assigns from, as a pending job without assignee, and is gone from the
    job list and from the completed list of every employee. *)
Theorem reset_returns_job_to_pool now d id j :
  d !! id = Some j →
  reset_applies (date_isoformat now) j = true →
  let d' := reset_jobs_daily now d in
  (id, reset_row j) ∈ unassigned_jobs d' ∧
  status (reset_row j) = Some "pending" ∧
  (∀ u, id ∉ (open_jobs_of u d').*1) ∧
  (∀ e, id ∉ (completed_jobs_of e d').*1).
Proof.
  intros Hj Happ d'.
  assert (d' !! id = Some (reset_row j)) as Hd'.
  { unfold d', reset_jobs_daily. by rewrite lookup_fmap, Hj; simpl; rewrite Happ. }
  split; [by apply elem_of_unassigned_jobs|]. split; [done|]. split.
  - intros u (j' & Hj' & Ha & _)%elem_of_open_ids.
    rewrite Hd' in Hj'. by injection Hj' as <-.
  - intros e ([id' j'] & -> & Hin)%list_elem_of_fmap.
    apply elem_of_completed_jobs_of in Hin as (Hj' & Ha & _). simpl in *.
    rewrite Hd' in Hj'. by injection Hj' as <-.
Qed.

Lemma reset_returns_job_to_pool_witness :
  (42%Z, reset_row Sample.completed_job) ∈
    unassigned_jobs (reset_jobs_daily Sample.next_day Sample.db_two) ∧
  42%Z ∉ (open_jobs_of 7 (reset_jobs_daily Sample.next_day Sample.db_two)).*1.
Proof.
  destruct (reset_returns_job_to_pool Sample.next_day Sample.db_two 42 Sample.completed_job
              eq_refl eq_refl) as (Hpool & _ & Hopen & _).
  split; [exact Hpool|exact (Hopen 7%Z)].
Defined.

(** X6: the job list of an employee holds exactly the jobs assigned to them
    whose status is set and is not ['completed'], each job once, in
    increasing order of the ids; a job whose status is [NULL] is never
    listed, and "No Jobs" is shown exactly when there is no such job. *)
Theorem emp_view_jobs_lists_open_jobs u w :
  let open id j :=
    db w !! id = Some j ∧ assigned_to j = Some u ∧
    is_Some (status j) ∧ status j ≠ Some "completed" in
  match emp_view_jobs u w with
  | RNoJobs => ∀ id j, ¬ open id j
  | RJobList rows =>
      rows ≠ [] ∧ (∀ id j, (id, j) ∈ rows ↔ open id j) ∧
      NoDup rows.*1 ∧ StronglySorted Z.le rows.*1
  | _ => False
  end.
Proof.
  intros open. unfold emp_view_jobs. case_bool_decide as Hnil.
  - intros id j Hopen. apply elem_of_open_jobs_of in Hopen.
    rewrite Hnil in Hopen. by apply elem_of_nil in Hopen.
  - split; [done|]. split; [|split].
    + intros id j. apply elem_of_open_jobs_of.
    + rewrite open_jobs_of_perm.
      eapply sublist_NoDup; [apply (NoDup_fst_map_to_list (db w))|].
      apply fmap_sublist, sublist_filter.
    + apply (StronglySorted_fmap fst by_id); [done|].
      apply StronglySorted_merge_sort; apply _.
Qed.

(** X7: the list that follows a start or a finish.  After a successful
    start the job is still on the list of its assignee, now in progress;
    after a successful finish it is on nobody's list, while every other job
    is listed as before. *)
Theorem job_list_after_start_and_finish now id d j u :
  d !! id = Some j → assigned_to j = Some u →
  (status j = Some "pending" →
     (id, started now j) ∈ open_jobs_of u (emp_start_job now id d).2) ∧
  (status j = Some "in_progress" →
     id ∈ (open_jobs_of u d).*1 ∧
     (∀ u', id ∉ (open_jobs_of u' (emp_finish_job now id d).2).*1) ∧
     (∀ u' id' j', id' ≠ id →
        (id', j') ∈ open_jobs_of u' (emp_finish_job now id d).2 ↔
        (id', j') ∈ open_jobs_of u' d)).
Proof.
  intros Hj Ha. split; intros Hs.
  - rewrite (emp_start_job_pending now id d j) by done. cbn [snd].
    apply elem_of_open_jobs_of. rewrite lookup_insert_eq.
    split; [done|]. split; [by destruct j|]. split; [by eexists|done].
  - rewrite (emp_finish_job_in_progress now id d j) by done. cbn [snd].
    split; [|split].
    + apply elem_of_open_ids. exists j. rewrite Hs. split_and!; [done|done|by eexists|done].
    + intros u' (j' & Hj' & _ & _ & Hne)%elem_of_open_ids.
      rewrite lookup_insert_eq in Hj'. injection Hj' as <-. by apply Hne.
    + intros u' id' j' Hid. rewrite !elem_of_open_jobs_of.
      by rewrite lookup_insert_ne.
Qed.

Lemma job_list_after_start_and_finish_witness :
  (42%Z, started Sample.t0800 Sample.pending_job) ∈
    open_jobs_of 7 (emp_start_job Sample.t0800 42 Sample.db_pending).2.
Proof.
  destruct (job_list_after_start_and_finish Sample.t0800 42 Sample.db_pending
              Sample.pending_job 7 eq_refl eq_refl) as [Hstart _].
  exact (Hstart eq_refl).
Defined.

End pool_facts.

(** ** The assignment work flow, end to end *)

Section workflow_facts.
Implicit Types (w : World) (d : gmap Z Job) (S : gset Z) (e u id : Z) (j : Job).
Implicit Types (iter : gset Z → list Z).

(** The bulk assignment when SQLite can bind every id. *)
Lemma assign_jobs_to_employee_done iter e w S :
  get_selected_jobs (user_data w) = Some S → S ≠ ∅ →
  iter S ≡ₚ elements S →
  sqlite_int e = true → (∀ id, id ∈ S → sqlite_int id = true) →
  ∃ d', assign_jobs_to_employee iter e w =
          (DirectorDashboard,
           with_user_data (delete "selected_jobs" (user_data w)) (with_db d' w)) ∧
        ∀ id, d' !! id = if decide (id ∈ S)
                         then set_assigned_to (Some e) <$> db w !! id else db w !! id.
Proof.
  intros HS Hne Hiter He Hids. unfold assign_jobs_to_employee. rewrite HS.
  rewrite bool_decide_eq_false_2 by done. cbv zeta.
  destruct (lookup_assign_loop e (iter S) He) with (d := db w) as [Hend Hrows].
  { intros id Hid. by apply Hids, (elem_of_iter iter S id Hiter). }
  rewrite Hend. eexists. split; [done|]. intros id. rewrite Hrows.
  destruct (decide (id ∈ iter S)) as [Hin|Hout], (decide (id ∈ S)) as [Hin'|Hout'];
    try done.
  - by apply (elem_of_iter iter S id Hiter) in Hin.
  - by apply (elem_of_iter iter S id Hiter) in Hin'.
Qed.

Lemma get_selected_jobs_delete (m : gmap string value) :
  get_selected_jobs (delete "selected_jobs" m) = Some ∅.
Proof. unfold get_selected_jobs. by rewrite lookup_delete_eq. Qed.

(** X8: the jobs of a bulk assignment leave the pool.  When the employee id
    and the selected ids are integers SQLite can store, after the assignment
    the pool holds what it held before except the selected jobs, no page of
    the assignment list shows a selected job any more, the selection is
    forgotten, and a second tap on the employee is answered with "No Jobs
    Selected" without touching anything. *)
Theorem assigned_jobs_leave_the_pool iter e w S :
  get_selected_jobs (user_data w) = Some S → S ≠ ∅ →
  iter S ≡ₚ elements S →
  sqlite_int e = true → (∀ id, id ∈ S → sqlite_int id = true) →
  let w' := (assign_jobs_to_employee iter e w).2 in
  (∀ id j, (id, j) ∈ unassigned_jobs (db w') ↔
           (id, j) ∈ unassigned_jobs (db w) ∧ id ∉ S) ∧
  (∀ p id, id ∈ S → id ∉ shown_on (build_director_assign_jobs_page p w')) ∧
  get_selected_jobs (user_data w') = Some ∅ ∧
  assign_jobs_to_employee iter e w' = (NoJobsSelected, w').
Proof.
  intros HS Hne Hiter He Hids w'. subst w'.
  destruct (assign_jobs_to_employee_done iter e w S HS Hne Hiter He Hids)
    as (d' & -> & Hrows).
  cbn [snd].
  set (w' := with_user_data _ _).
  assert (get_selected_jobs (user_data w') = Some ∅) as HS'
    by apply get_selected_jobs_delete.
  assert (∀ id j, (id, j) ∈ unassigned_jobs (db w') ↔
                  (id, j) ∈ unassigned_jobs (db w) ∧ id ∉ S) as Hpool.
  { intros id j. rewrite !elem_of_unassigned_jobs. simpl.
    rewrite Hrows. destruct (decide (id ∈ S)) as [Hin|Hout].
    - split; [|tauto]. destruct (db w !! id) as [j0|]; [|by intros []].
      simpl. intros [[= <-] Ha]. by destruct j0.
    - tauto. }
  split; [exact Hpool|]. split; [|split; [exact HS'|]].
  - intros p id Hin Hshown. rewrite (shown_on_page p w' ∅) in Hshown by done.
    apply list_elem_of_fmap in Hshown as ([id' j] & -> & Hrow).
    unfold page_jobs, limit_offset in Hrow.
    apply subseteq_take, subseteq_drop in Hrow. apply Hpool in Hrow. tauto.
  - unfold assign_jobs_to_employee. rewrite HS'. by rewrite bool_decide_eq_true_2.
Qed.

Lemma assigned_jobs_leave_the_pool_witness :
  let w := Sample.world Sample.db_two {[ "selected_jobs" := VSet {[ 5%Z ]} ]} in
  let w' := (assign_jobs_to_employee elements 8 w).2 in
  (5%Z ∉ shown_on (build_director_assign_jobs_page 1 w')) ∧
  assign_jobs_to_employee elements 8 w' = (NoJobsSelected, w').
Proof.
  intros w w'.
  assert (get_selected_jobs (user_data w) = Some {[ 5%Z ]}) as HS by reflexivity.
  assert (({[ 5%Z ]} : gset Z) ≠ ∅) as Hne by (by vm_compute).
  assert (∀ id, id ∈ ({[ 5%Z ]} : gset Z) → sqlite_int id = true) as Hids
    by (by intros id ->%elem_of_singleton).
  destruct (assigned_jobs_leave_the_pool elements 8 w _ HS Hne (reflexivity _)
              eq_refl Hids) as (_ & Hshown & _ & Hagain).
  split; [|exact Hagain]. apply Hshown. by apply elem_of_singleton.
Defined.

(** X9: the jobs of a bulk assignment reach the employee.  When the
    employee id and the selected ids are integers SQLite can store, every
    selected job that exists, has a status and is not completed is on the
    job list of the chosen employee right after the assignment and on the
    list of no other employee, whoever held it before. *)
Theorem assigned_jobs_reach_employee iter e w S id j :
  get_selected_jobs (user_data w) = Some S →
  iter S ≡ₚ elements S →
  sqlite_int e = true → (∀ id', id' ∈ S → sqlite_int id' = true) →
  id ∈ S → db w !! id = Some j →
  is_Some (status j) → status j ≠ Some "completed" →
  let w' := (assign_jobs_to_employee iter e w).2 in
  (id, set_assigned_to (Some e) j) ∈ open_jobs_of e (db w') ∧
  (∀ u, u ≠ e → id ∉ (open_jobs_of u (db w')).*1) ∧
  (∃ rows, emp_view_jobs e w' = RJobList rows ∧ id ∈ rows.*1).
Proof.
  intros HS Hiter He Hids Hin Hj Hst Hnc w'. subst w'.
  destruct (assign_jobs_to_employee_done iter e w S HS) as (d' & -> & Hrows);
    [set_solver|done..|].
  cbn [snd].
  set (w' := with_user_data _ _).
  assert (db w' !! id = Some (set_assigned_to (Some e) j)) as Hrow.
  { simpl. rewrite Hrows, decide_True, Hj by done. done. }
  assert ((id, set_assigned_to (Some e) j) ∈ open_jobs_of e (db w')) as Hopen.
  { apply elem_of_open_jobs_of. split; [done|]. by destruct j. }
  split; [exact Hopen|]. split.
  - intros u Hu (j' & Hj' & Ha & _)%elem_of_open_ids.
    rewrite Hrow in Hj'. injection Hj' as <-. destruct j; simpl in *. congruence.
  - unfold emp_view_jobs. case_bool_decide as Hnil.
    + rewrite Hnil in Hopen. by apply elem_of_nil in Hopen.
    + eexists. split; [done|]. apply list_elem_of_fmap. by exists (id, set_assigned_to (Some e) j).
Qed.

Lemma assigned_jobs_reach_employee_witness :
  let w := Sample.world Sample.db_two {[ "selected_jobs" := VSet {[ 5%Z ]} ]} in
  (5%Z, set_assigned_to (Some 8%Z) (new_job "Orchard")) ∈
    open_jobs_of 8 (db (assign_jobs_to_employee elements 8 w).2).
Proof.
  intros w.
  assert (is_Some (status (new_job "Orchard"))) as Hst by (by eexists).
  assert (status (new_job "Orchard") ≠ Some "completed") as Hnc by discriminate.
  assert (5%Z ∈ ({[ 5%Z ]} : gset Z)) as Hin by (by apply elem_of_singleton).
  assert (∀ id, id ∈ ({[ 5%Z ]} : gset Z) → sqlite_int id = true) as Hids
    by (by intros id ->%elem_of_singleton).
  destruct (assigned_jobs_reach_employee elements 8 w {[ 5%Z ]} 5 (new_job "Orchard")
              eq_refl (reflexivity _) eq_refl Hids Hin eq_refl Hst Hnc) as (Hopen & _).
  exact Hopen.
Defined.

(** X10: the whole work flow for one job: opening the assignment list,
    ticking a job, pressing "Assign Selected" and choosing an employee.  The
    tick is accepted for any id, whether the job is on the page, assigned
    already, or does not exist.  When the job id and the employee id are
    integers SQLite can store, the work flow is one [UPDATE] of that job and
    nothing else (no change at all when the job does not exist), it ends on
    the dashboard and the selection is forgotten.  When one of the two is
    not, the last step ends in a fault, the table is as it was and the
    ticked id stays selected. *)
Theorem assignment_workflow iter e id w :
  iter {[id]} ≡ₚ elements ({[id]} : gset Z) →
  let w1 := (director_assign_jobs_list w).2 in
  let w2 := (handle_toggle_job id w1).2 in
  let r3 := director_assign_jobs w2 in
  let r4 := assign_jobs_to_employee iter e r3.2 in
  r3.1 = EmployeeChoice ∧ files r4.2 = files w ∧
  (sqlite_int e && sqlite_int id = true →
     r4.1 = DirectorDashboard ∧
     db r4.2 = update_assigned_to e id (db w) ∧
     (db w !! id = None → db r4.2 = db w) ∧
     get_selected_jobs (user_data r4.2) = Some ∅) ∧
  (sqlite_int e && sqlite_int id = false →
     r4.1 = Fault ∧ db r4.2 = db w ∧
     get_selected_jobs (user_data r4.2) = Some {[id]}).
Proof.
  intros Hiter w1 w2 r3 r4.
  assert (iter {[id]} = [id]) as Hone.
  { rewrite elements_singleton in Hiter. by apply Permutation_singleton_r. }
  assert (get_selected_jobs (user_data w1) = Some ∅) as HS1.
  { unfold w1, director_assign_jobs_list, get_selected_jobs. cbn [snd user_data with_user_data].
    by rewrite lookup_insert_ne, lookup_insert_eq. }
  assert (user_data w2 = <["selected_jobs" := VSet {[id]}]> (user_data w1)) as Hu2.
  { unfold w2. rewrite (handle_toggle_job_user_data id w1 ∅ HS1). do 2 f_equal.
    unfold toggle. rewrite bool_decide_eq_false_2 by set_solver. set_solver. }
  destruct (handle_toggle_job_frame id w1) as [Hdb2 Hf2]. fold w2 in Hdb2, Hf2.
  assert (db w1 = db w ∧ files w1 = files w) as [Hdb1 Hf1] by done.
  assert (r3 = (EmployeeChoice, w2)) as H3.
  { unfold r3, director_assign_jobs. rewrite Hu2, lookup_insert_eq. simpl.
    by rewrite bool_decide_eq_false_2 by set_solver. }
  assert (get_selected_jobs (user_data w2) = Some {[id]}) as HS2.
  { rewrite Hu2. apply get_selected_jobs_insert. }
  assert (r4 = if sqlite_int e && sqlite_int id
               then (DirectorDashboard,
                     with_user_data (delete "selected_jobs" (user_data w2))
                       (with_db (update_assigned_to e id (db w2)) w2))
               else (Fault, with_db (db w2) w2)) as H4.
  { unfold r4. rewrite H3. cbn [snd]. unfold assign_jobs_to_employee.
    rewrite HS2, bool_decide_eq_false_2 by set_solver. cbv zeta.
    rewrite Hone. cbn [assign_loop]. by destruct (sqlite_int e && sqlite_int id). }
  rewrite H3, H4. cbn [fst]. split; [done|]. split; [|split].
  - destruct (sqlite_int e && sqlite_int id); cbn [snd files with_db with_user_data];
      by rewrite Hf2.
  - intros ->. cbn [fst snd db with_db with_user_data]. rewrite Hdb2, Hdb1.
    split; [done|]. split; [done|]. split; [|apply get_selected_jobs_delete].
    intros Hnone. apply map_eq. intros k.
    rewrite lookup_update_assigned_to. destruct (decide (id = k)) as [<-|]; [|done].
    by rewrite Hnone.
  - intros ->. cbn [fst snd db user_data with_db]. by rewrite Hdb2, Hdb1.
Qed.

Lemma assignment_workflow_witness :
  let w := Sample.world Sample.db_two ∅ in
  let w2 := (handle_toggle_job 5 (director_assign_jobs_list w).2).2 in
  let r4 := assign_jobs_to_employee elements 8 (director_assign_jobs w2).2 in
  r4.1 = DirectorDashboard ∧
  (assigned_to <$> db r4.2 !! 5%Z) = Some (Some 8%Z).
Proof.
  intros w w2 r4.
  destruct (assignment_workflow elements 8 5 w (reflexivity _)) as (_ & _ & Hfits & _).
  destruct (Hfits eq_refl) as (Hdash & Hdb & _).
  split; [exact Hdash|]. unfold r4, w2. rewrite Hdb. reflexivity.
Defined.

End workflow_facts.

(** ** Upload sessions *)

Section upload_facts.
Implicit Types (w : World) (now : datetime) (ph : photo_msg) (id : Z) (j : Job).

(** Appending an upload of [d] whose file id is free of the separator adds
    exactly that photo to the photos of [d]. *)
Lemma filter_after_append cur z d fid :
  PyStr.contains "|" fid = false →
  let path := photo_path z (date_isoformat d) fid in
  filter_photos_by_date (Some (append_photo_path cur path)) (date_isoformat d) =
  filter_photos_by_date (Some cur) (date_isoformat d) ++ [path].
Proof.
  intros Hfid path.
  assert (PyStr.contains "|" path = false) as Hnosep
    by exact (ref_path_no_sep (mk_ref z (date_isoformat d) fid) d eq_refl Hfid).
  assert (PyStr.contains (date_isoformat d) path = true) as Hin.
  { unfold path. rewrite contains_date_photo_path.
    by rewrite bool_decide_eq_true_2. }
  destruct (photo_path_clean z (date_isoformat d) fid) as [body Hbody].
  fold path in Hbody.
  assert (filter (λ p, PyStr.contains (date_isoformat d) p = true)
            (PyStr.split "|" path) = [path]) as Hone.
  { rewrite split_nosep by done. by rewrite filter_cons_True. }
  destruct (PyStr.strip cur) as [|c t] eqn:Hstrip.
  - assert (append_photo_path cur path = path) as ->.
    { unfold append_photo_path. rewrite Hstrip. by destruct cur. }
    rewrite (filter_photos_by_date_Some cur), Hstrip.
    replace (negb (PyStr.truthy (Some cur)) || negb (PyStr.truthy (Some "")))
      with true by (by destruct cur).
    rewrite Hbody, filter_photos_by_date_clean, <- Hbody. exact Hone.
  - assert (PyStr.is_space c = false) as Hc by (by eapply strip_head).
    assert (cur ≠ "") as Hcur by (by intros ->).
    assert (append_photo_path cur path = String c t +:+ String "|" path) as ->.
    { unfold append_photo_path. rewrite Hstrip. destruct cur; done. }
    assert (PyStr.strip (String c t +:+ String "|" path) = String c t +:+ String "|" path)
      as Hclean.
    { rewrite Hbody, str_app_cons.
      change (String "|" (String "p" (body +:+ ".jpg")))
        with (String "|" (String "p" body) +:+ ".jpg").
      rewrite <- str_app_assoc. by apply strip_clean. }
    rewrite (filter_photos_by_date_Some (String c t +:+ _)), Hclean.
    rewrite split_app_sep, filter_app, Hone.
    rewrite (filter_photos_by_date_Some cur), Hstrip.
    destruct cur; [done|]. done.
Qed.

(** X11: what [handle_photo] can touch.  It never writes to the session and
    never removes a file; in the table it can only change the [photos]
    column: no row appears or disappears and every other column of every row
    stays.  When no photo is awaited or the photo cannot be decoded, nothing
    changes at all. *)
Theorem handle_photo_frame now ph w :
  let r := handle_photo now ph w in
  user_data r.2 = user_data w ∧
  files w ⊆ files r.2 ∧
  (∀ id, (set_photos None <$> db r.2 !! id) = (set_photos None <$> db w !! id)) ∧
  (r.1 = NoPhotoExpected ∨ r.1 = PhotoVerificationFailed → r.2 = w).
Proof.
  intros r. subst r. unfold handle_photo.
  destruct (user_data w !! "awaiting_photo_for") as [[job_id| | | |]|];
    try (split_and!; [done|done|done|done]).
  destruct (decodable ph); cbn [negb]; [|by split_and!].
  cbv zeta. destruct (photo_limit <? _)%nat.
  { split_and!; [done|set_solver|done|by intros [|]]. }
  assert (∀ p id, (set_photos None <$> alter (set_photos p) job_id (db w) !! id)
                  = (set_photos None <$> db w !! id)) as Hrows.
  { intros p id. rewrite lookup_alter. destruct (decide (job_id = id)) as [->|]; [|done].
    by destruct (db w !! id) as [[]|]. }
  destruct (value_truthy _); cbn [fst snd db user_data files with_db with_files].
  - split_and!; [done|set_solver|apply Hrows|by intros [|]].
  - split_and!; [done|set_solver|apply Hrows|by intros [|]].
Qed.

(** X12: an upload session from the "Upload Photo" button to "Done
    Uploading".  When the session is over, a photo that arrives late is
    answered with "No photo expected" and leaves everything as it is; the
    table is as it was before the session, the awaiting and bulk flags are
    gone, and the flag [return_to_job_menu] is still set. *)
Theorem upload_session_round_trip now now' id w ph :
  (emp_upload_photo now id w).1 = BulkUploadPrompt →
  let w1 := (emp_upload_photo now id w).2 in
  let r2 := finish_photo_upload id w1 in
  let r3 := handle_photo now' ph r2.2 in
  user_data w1 !! "awaiting_photo_for" = Some (VInt id) ∧
  r2.1 = JobMenu id ∧
  r3 = (NoPhotoExpected, r2.2) ∧
  db r2.2 = db w ∧ files r2.2 = files w ∧
  user_data r2.2 !! "awaiting_photo_for" = None ∧
  user_data r2.2 !! "bulk_upload_mode" = None ∧
  user_data r2.2 !! "return_to_job_menu" = Some (VBool true).
Proof.
  intros Hprompt w1 r2 r3.
  assert (is_Some (db w !! id)) as [j Hj].
  { unfold emp_upload_photo in Hprompt. by destruct (db w !! id). }
  destruct (emp_upload_photo_cases now id w) as [Hw1|[Hno _]]; [|done].
  assert (w1 = with_user_data
                 (<["return_to_job_menu" := VBool true]>
                    (<["bulk_upload_mode" := VBool true]>
                       (<["awaiting_photo_for" := VInt id]> (user_data w)))) w) as Ew1
    by (unfold w1; by rewrite Hw1).
  assert (user_data w1 !! "awaiting_photo_for" = Some (VInt id)) as Hflag.
  { rewrite Ew1. cbn [user_data with_user_data].
    by rewrite !lookup_insert_ne, lookup_insert_eq by done. }
  set (u2 := delete "bulk_upload_mode" (delete "awaiting_photo_for" (user_data w1))).
  assert (r2 = (JobMenu id, with_user_data u2 w1)) as E2.
  { unfold r2, finish_photo_upload. cbv zeta. fold u2.
    rewrite Ew1. cbn [db with_user_data]. by rewrite Hj. }
  assert (u2 !! "awaiting_photo_for" = None) as Hgone.
  { unfold u2. by rewrite lookup_delete_ne, lookup_delete_eq by done. }
  split; [exact Hflag|]. rewrite E2 in *. cbn [fst snd] in *.
  split; [done|]. split.
  - unfold r3. rewrite E2. cbn [snd]. unfold handle_photo.
    cbn [user_data with_user_data]. by rewrite Hgone.
  - cbn [db files user_data with_user_data]. rewrite Ew1. cbn [db files with_user_data].
    split; [done|]. split; [done|]. split; [exact Hgone|]. split.
    + unfold u2. by rewrite lookup_delete_eq.
    + unfold u2. rewrite Ew1. cbn [user_data with_user_data].
      by rewrite !lookup_delete_ne, lookup_insert_eq by done.
Qed.

Lemma upload_session_round_trip_witness :
  let w := Sample.world Sample.db_started ∅ in
  let w2 := (finish_photo_upload 42 (emp_upload_photo Sample.t0930 42 w).2).2 in
  handle_photo Sample.t1000 (mk_photo "AgACLate" true) w2 = (NoPhotoExpected, w2).
Proof.
  intros w w2.
  destruct (upload_session_round_trip Sample.t0930 Sample.t1000 42 w
              (mk_photo "AgACLate" true) eq_refl) as (_ & _ & Hlate & _).
  exact Hlate.
Defined.

(** X13: the two quota tests agree.  When the "Upload Photo" button lets
    the employee in (fewer than 25 photos today), a decodable photo sent
    next on the same day, with a file id free of the column separator, is
    stored: it is the one new entry of the day in the [photos] column of the
    job, its file is in [photos/], nothing else in the row changes, and the
    day stays within the limit of 25.  [now] is the clock at the button,
    [now'] the clock at the photo. *)
Theorem upload_after_gate_is_stored now now' id w j ph :
  db w !! id = Some j →
  (emp_upload_photo now id w).1 = BulkUploadPrompt →
  date_isoformat now' = date_isoformat now →
  decodable ph = true →
  PyStr.contains "|" (file_id ph) = false →
  let today := date_isoformat now in
  let path := photo_path id today (file_id ph) in
  let r := handle_photo now' ph (emp_upload_photo now id w).2 in
  r.1 = PhotoStored ∧
  (∃ j', db r.2 !! id = Some j' ∧
         filter_photos_by_date (photos j') today =
           filter_photos_by_date (photos j) today ++ [path] ∧
         set_photos None j' = set_photos None j) ∧
  path ∈ files r.2 ∧
  count_photos_for_date (db r.2 !! id ≫= photos) today ≤ photo_limit.
Proof.
  intros Hj Hprompt Hsame Hdec Hfid today path r.
  destruct (emp_upload_photo_cases now id w) as [Hw1|[Hno _]]; [|done].
  assert (count_photos_for_date (photos j) today < photo_limit) as Hroom.
  { unfold emp_upload_photo in Hprompt. rewrite Hj in Hprompt.
    rewrite count_photos_for_date_or_empty in Hprompt. fold today in Hprompt.
    destruct (photo_limit <=? count_photos_for_date (photos j) today)%nat eqn:E;
      [done|]. by apply Nat.leb_gt in E. }
  set (new_photos := append_photo_path (default "" (photos j)) path).
  assert (filter_photos_by_date (Some new_photos) today =
          filter_photos_by_date (photos j) today ++ [path]) as Hnew.
  { unfold new_photos, path, today. rewrite filter_after_append by done.
    f_equal. by destruct (photos j). }
  set (w1 := (emp_upload_photo now id w).2) in *.
  assert (db w1 = db w ∧ files w1 = files w) as [Hdb1 Hf1]
    by (unfold w1; by rewrite Hw1).
  assert (user_data w1 !! "awaiting_photo_for" = Some (VInt id)) as Hflag.
  { unfold w1. rewrite Hw1. cbn [snd user_data with_user_data].
    by rewrite !lookup_insert_ne, lookup_insert_eq by done. }
  assert (user_data w1 !! "bulk_upload_mode" = Some (VBool true)) as Hbulk.
  { unfold w1. rewrite Hw1. cbn [snd user_data with_user_data].
    by rewrite !lookup_insert_ne, lookup_insert_eq by done. }
  assert (r = (PhotoStored,
               with_db (alter (set_photos (Some new_photos)) id (db w))
                 (with_files ({[path]} ∪ files w) w1))) as ->.
  { unfold r. rewrite (handle_photo_awaiting _ _ _ id) by done.
    cbv zeta. rewrite Hsame, Hdb1, Hf1, Hj, Hbulk. cbn [mbind option_bind].
    fold today path new_photos.
    rewrite Hnew, length_app. cbn [length].
    replace (photo_limit <? _)%nat with false; [done|].
    symmetry. apply Nat.ltb_ge. unfold count_photos_for_date in Hroom. lia. }
  cbn [fst snd db files with_db with_files].
  rewrite lookup_alter, decide_True, Hj by done. cbn [fmap option_fmap option_map].
  split; [done|]. split; [|split].
  - eexists. split; [done|]. split; [exact Hnew|by destruct j].
  - set_solver.
  - cbn [mbind option_bind photos set_photos]. unfold count_photos_for_date in *.
    rewrite Hnew, length_app. cbn [length]. lia.
Qed.

Lemma upload_after_gate_is_stored_witness :
  let w := Sample.world Sample.db_started ∅ in
  let r := handle_photo Sample.t1000 (mk_photo "AgAC1" true)
             (emp_upload_photo Sample.t0930 42 w).2 in
  r.1 = PhotoStored ∧ ("photos/job_42_2024-03-01_AgAC1.jpg" ∈ files r.2).
Proof.
  intros w r.
  destruct (upload_after_gate_is_stored Sample.t0930 Sample.t1000 42 w Sample.started_job
              (mk_photo "AgAC1" true) eq_refl eq_refl eq_refl eq_refl eq_refl)
    as (Hr & _ & Hfile & _).
  split; [exact Hr|exact Hfile].
Defined.

End upload_facts.

(** ** The job menu and the screens behind its buttons *)

Section menu_facts.
Implicit Types (w : World) (now : datetime) (id : Z) (j : Job) (kb : list action).

Lemma elem_of_if_singleton {A} (b : bool) (x y : A) :
  x ∈ (if b then [y] else []) ↔ b = true ∧ x = y.
Proof.
  destruct b; [rewrite list_elem_of_singleton|rewrite elem_of_nil]; naive_solver.
Qed.

(** Every entry of the site directory carries a contact or a gate code, and
    none of them is empty. *)
Lemma site_info_values n info :
  site_info_lookup n = Some info →
  (∀ c, info.1 = Some c → PyStr.truthy (Some c) = true) ∧
  (∀ g, info.2 = Some g → PyStr.truthy (Some g) = true) ∧
  (is_Some info.1 ∨ is_Some info.2).
Proof.
  destruct n as [n|]; [|done]. unfold site_info_lookup. cbn [mbind option_bind].
  intros H. apply elem_of_list_to_map_2 in H. unfold SITE_INFO_UPDATES in H.
  repeat (apply elem_of_cons in H as [H|H];
          [injection H as -> ->; simpl;
           (split; [by intros ? [= <-]|]); (split; [by intros ? [= <-]|]);
           (by left + by right)|]).
  by apply elem_of_nil in H.
Qed.

Lemma update_site_info_keeps n c g :
  PyStr.truthy c || PyStr.truthy g = true →
  PyStr.truthy (update_site_info n c g).1 || PyStr.truthy (update_site_info n c g).2 = true.
Proof.
  intros H. unfold update_site_info.
  destruct (site_info_lookup n) as [[ic ig]|] eqn:E; [|done].
  destruct (site_info_values n _ E) as (Hc & Hg & _). simpl in *.
  destruct ic as [c'|], ig as [g'|]; simpl;
    rewrite ?(Hc _ eq_refl), ?(Hg _ eq_refl), ?orb_true_r; done.
Qed.

(** X14: the site directory only ever adds.  Applying [update_site_info]
    to its own result changes nothing, a contact or gate code that is set
    stays set, and a site that is not in the directory keeps what the row
    holds. *)
Theorem update_site_info_stable n c g :
  let r := update_site_info n c g in
  update_site_info n r.1 r.2 = r ∧
  (PyStr.truthy c = true → PyStr.truthy r.1 = true) ∧
  (PyStr.truthy g = true → PyStr.truthy r.2 = true) ∧
  (site_info_lookup n = None → r = (c, g)).
Proof.
  intros r. subst r. unfold update_site_info.
  destruct (site_info_lookup n) as [[ic ig]|] eqn:E; [|done].
  destruct (site_info_values n _ E) as (Hc & Hg & _). simpl in *.
  destruct ic as [c'|], ig as [g'|]; simpl;
    rewrite ?(Hc _ eq_refl), ?(Hg _ eq_refl); done.
Qed.

(** The menu of a job that exists, piece by piece. *)
Lemma emp_job_menu_inv now id w pc si kb :
  emp_job_menu now id w = RMenu pc si kb →
  ∃ j, db w !! id = Some j ∧
       duration_raises (start_time j) (finish_time j) = false ∧
       pc = count_photos_for_date (photos j) (date_isoformat now) ∧
       si = (if PyStr.truthy (contact j) || PyStr.truthy (gate_code j)
             then Some (update_site_info (site_name j) (contact j) (gate_code j))
             else None) ∧
       kb = (if bool_decide (status j = Some "pending") then [ActStart id]
             else if bool_decide (status j = Some "in_progress")
                  then [ActFinish id; ActAddNote id; ActUpload id]
                  else [])
            ++ (if PyStr.truthy (contact j) || PyStr.truthy (gate_code j)
                then [ActSiteInfo id] else [])
            ++ (if PyStr.truthy (map_link j) then [ActMapLink id] else [])
            ++ (if (0 <? pc)%nat then [ActViewPhotos id pc] else [])
            ++ (if is_outdoor (area j) then [ActWeather id] else [])
            ++ [ActBack].
Proof.
  unfold emp_job_menu. destruct (db w !! id) as [j|]; [|done].
  destruct (duration_raises _ _) eqn:Hdur; [done|].
  destruct (PyStr.truthy (contact j) || PyStr.truthy (gate_code j)) eqn:Hsite.
  - rewrite (update_site_info_keeps _ _ _ Hsite).
    intros [= <- <- <-]. exists j. by rewrite Hsite.
  - rewrite Hsite. intros [= <- <- <-]. exists j. by rewrite Hsite.
Qed.

(** X15: the life-cycle buttons the job menu offers work.  "Start Job" is
    on the menu only for the job of the menu and only while it is pending,
    and pressing it starts the job; "Finish Job" only while it is in
    progress, and pressing it completes the job; "Upload Photo" and "Add
    Note" come exactly with "Finish Job"; the two never appear together. *)
Theorem menu_lifecycle_buttons_work now id w pc si kb :
  emp_job_menu now id w = RMenu pc si kb →
  (∀ k, ActStart k ∈ kb →
     k = id ∧ ∀ t, ∃ d', emp_start_job t id (db w) = (JobStarted, d') ∧
                         (status <$> d' !! id) = Some (Some "in_progress")) ∧
  (∀ k, ActFinish k ∈ kb →
     k = id ∧ ∀ t, ∃ d', emp_finish_job t id (db w) = (JobCompleted, d') ∧
                         (status <$> d' !! id) = Some (Some "completed")) ∧
  (∀ k, ActUpload k ∈ kb ↔ ActFinish k ∈ kb) ∧
  (∀ k, ActAddNote k ∈ kb ↔ ActFinish k ∈ kb) ∧
  ¬ (ActStart id ∈ kb ∧ ActFinish id ∈ kb).
Proof.
  intros (j & Hj & _ & _ & _ & ->)%emp_job_menu_inv.
  assert (∀ a, a ∈ (if PyStr.truthy (contact j) || PyStr.truthy (gate_code j)
                    then [ActSiteInfo id] else [])
                   ++ (if PyStr.truthy (map_link j) then [ActMapLink id] else [])
                   ++ (if (0 <? pc)%nat then [ActViewPhotos id pc] else [])
                   ++ (if is_outdoor (area j) then [ActWeather id] else [])
                   ++ [ActBack] →
               match a with
               | ActStart _ | ActFinish _ | ActUpload _ | ActAddNote _ => False
               | _ => True
               end) as Hrest.
  { intros a. rewrite !elem_of_app, !elem_of_if_singleton, list_elem_of_singleton.
    naive_solver. }
  set (rest := _ ++ _ ++ _ ++ _ ++ [ActBack]) in *. clearbody rest.
  case_bool_decide as Hp; [|case_bool_decide as Hi].
  - split_and!.
    + intros k [Hk|Hk%Hrest]%elem_of_app; [|done].
      apply list_elem_of_singleton in Hk as [= ->]. split; [done|]. intros t.
      rewrite (emp_start_job_pending t id _ j) by done. eexists. split; [done|].
      by rewrite lookup_insert_eq.
    + intros k [Hk|Hk%Hrest]%elem_of_app; [|done].
      by apply list_elem_of_singleton in Hk.
    + intros k. rewrite !elem_of_app, !list_elem_of_singleton.
      split; (intros [?|?%Hrest]; done).
    + intros k. rewrite !elem_of_app, !list_elem_of_singleton.
      split; (intros [?|?%Hrest]; done).
    + intros [_ [Hk|Hk%Hrest]%elem_of_app]; [|done].
      by apply list_elem_of_singleton in Hk.
  - split_and!.
    + intros k [Hk|Hk%Hrest]%elem_of_app; [|done].
      rewrite !elem_of_cons, elem_of_nil in Hk. naive_solver.
    + intros k [Hk|Hk%Hrest]%elem_of_app; [|done].
      rewrite !elem_of_cons, elem_of_nil in Hk.
      assert (k = id) as -> by naive_solver. split; [done|]. intros t.
      rewrite (emp_finish_job_in_progress t id _ j) by done. eexists. split; [done|].
      by rewrite lookup_insert_eq.
    + intros k. rewrite !elem_of_app, !elem_of_cons, !elem_of_nil.
      split; (intros [?|?%Hrest]; [|done]); left; naive_solver.
    + intros k. rewrite !elem_of_app, !elem_of_cons, !elem_of_nil.
      split; (intros [?|?%Hrest]; [|done]); left; naive_solver.
    + intros [[Hk|Hk%Hrest]%elem_of_app _]; [|done].
      rewrite !elem_of_cons, elem_of_nil in Hk. naive_solver.
  - simpl. split_and!.
    + by intros k ?%Hrest.
    + by intros k ?%Hrest.
    + intros k. split; by intros ?%Hrest.
    + intros k. split; by intros ?%Hrest.
    + by intros [?%Hrest _].
Qed.

Lemma menu_lifecycle_buttons_work_witness :
  ∃ pc si kb,
    emp_job_menu Sample.t0930 42 (Sample.world Sample.db_started ∅) = RMenu pc si kb ∧
    ActFinish 42 ∈ kb ∧
    ∃ d', emp_finish_job Sample.t0930 42 Sample.db_started = (JobCompleted, d').
Proof.
  eexists _, _, _. split; [reflexivity|].
  split; [apply elem_of_cons; by left|].
  destruct (menu_lifecycle_buttons_work Sample.t0930 42 (Sample.world Sample.db_started ∅)
              _ _ _ eq_refl) as (_ & Hfin & _).
  destruct (Hfin 42%Z) as [_ Hpress]; [apply elem_of_cons; by left|].
  destruct (Hpress Sample.t0930) as (d' & Hd' & _). by exists d'.
Defined.

End menu_facts.

Section menu_screen_facts.
Implicit Types (w : World) (now : datetime) (id : Z) (j : Job) (kb : list action).

Lemma duration_raises_bot_time s f :
  bot_time s → bot_time f → duration_raises s f = false.
Proof.
  unfold duration_raises.
  intros [->|(ts & Hts & ->)]; [done|].
  intros [->|(tf & Htf & ->)]; [by rewrite andb_false_r|].
  cbn [mbind option_bind]. rewrite !fromisoformat_isoformat by done.
  rewrite bool_decide_eq_true_2 by (split; by eexists).
  by rewrite andb_false_r.
Qed.

(** The buttons of the menu that lead to further screens. *)
Lemma menu_buttons now id w pc si kb j :
  db w !! id = Some j →
  emp_job_menu now id w = RMenu pc si kb →
  (∀ k, ActSiteInfo k ∈ kb ↔
        k = id ∧ PyStr.truthy (contact j) || PyStr.truthy (gate_code j) = true) ∧
  (∀ k, ActMapLink k ∈ kb ↔ k = id ∧ PyStr.truthy (map_link j) = true) ∧
  (∀ k n, ActViewPhotos k n ∈ kb ↔ k = id ∧ n = pc ∧ 0 < pc).
Proof.
  intros Hj (j' & Hj' & _ & _ & _ & ->)%emp_job_menu_inv.
  rewrite Hj in Hj'. injection Hj' as <-.
  assert (∀ a, a ∈ (if bool_decide (status j = Some "pending") then [ActStart id]
                    else if bool_decide (status j = Some "in_progress")
                         then [ActFinish id; ActAddNote id; ActUpload id]
                         else []) →
               match a with
               | ActSiteInfo _ | ActMapLink _ | ActViewPhotos _ _ => False
               | _ => True
               end) as Hlife.
  { intros a. repeat case_bool_decide; rewrite ?elem_of_cons, ?elem_of_nil; naive_solver. }
  set (life := if bool_decide (status j = Some "pending") then _ else _) in *.
  clearbody life.
  split_and!; intros k; [| |intros n];
    rewrite !elem_of_app, !elem_of_if_singleton, list_elem_of_singleton.
  - split; [intros [?%Hlife|H]; [done|naive_solver]|naive_solver].
  - split; [intros [?%Hlife|H]; [done|naive_solver]|naive_solver].
  - rewrite Nat.ltb_lt.
    split; [intros [?%Hlife|H]; [done|naive_solver]|naive_solver].
Qed.

(** X16: the job menu of a job whose time stamps the bot wrote always
    opens: computing the duration for the job card cannot raise, the card
    counts the photos of today, and "Back" is on the keyboard. *)
Theorem emp_job_menu_opens now id w j :
  db w !! id = Some j →
  bot_time (start_time j) → bot_time (finish_time j) →
  ∃ si kb,
    emp_job_menu now id w =
      RMenu (count_photos_for_date (photos j) (date_isoformat now)) si kb ∧
    ActBack ∈ kb.
Proof.
  intros Hj Hs Hf. unfold emp_job_menu. rewrite Hj.
  rewrite duration_raises_bot_time by done.
  destruct (PyStr.truthy (contact j) || PyStr.truthy (gate_code j));
    (eexists _, _; split; [reflexivity|]);
    rewrite !elem_of_app, list_elem_of_singleton; tauto.
Qed.

Lemma emp_job_menu_opens_witness :
  ∃ si kb,
    emp_job_menu Sample.t1000 42 (Sample.world Sample.db_completed ∅) = RMenu 0 si kb.
Proof.
  assert (bot_time (start_time Sample.completed_job)) as Hs
    by (right; exists Sample.t0800; by split).
  assert (bot_time (finish_time Sample.completed_job)) as Hf
    by (right; exists Sample.t0930; by split).
  destruct (emp_job_menu_opens Sample.t1000 42 (Sample.world Sample.db_completed ∅)
              Sample.completed_job eq_refl Hs Hf) as (si & kb & Hmenu & _).
  by exists si, kb.
Defined.

(** X17: the "Map Link" button is on the menu exactly when the screen
    behind it has a link to show. *)
Theorem menu_map_link_agrees now id w pc si kb :
  emp_job_menu now id w = RMenu pc si kb →
  (ActMapLink id ∈ kb ↔ ∃ l, emp_map_link id w = RMapLink l) ∧
  (ActMapLink id ∉ kb → emp_map_link id w = RNoMapLink).
Proof.
  intros Hmenu.
  destruct (emp_job_menu_inv _ _ _ _ _ _ Hmenu) as (j & Hj & _).
  destruct (menu_buttons now id w pc si kb j Hj Hmenu) as (_ & Hmap & _).
  rewrite Hmap. unfold emp_map_link. rewrite Hj.
  destruct (map_link j) as [[|c l]|]; simpl.
  - split; [split; [by intros []|by intros [? ?]]|done].
  - split; [split; [by eexists|done]|]. by intros [].
  - split; [split; [by intros []|by intros [? ?]]|done].
Qed.

Lemma menu_map_link_agrees_witness :
  emp_map_link 42 (Sample.world Sample.db_started ∅) = RNoMapLink.
Proof.
  destruct (menu_map_link_agrees Sample.t0930 42 (Sample.world Sample.db_started ∅)
              _ _ _ eq_refl) as [_ Hno].
  apply Hno. intros Hin. repeat (apply elem_of_cons in Hin as [Hin|Hin]; [done|]).
  by apply elem_of_nil in Hin.
Defined.

(** X18: the "Site Info" button and the screen behind it.  The button is
    on the menu exactly when the row stores a contact or a gate code; then
    the screen behind it shows what the menu shows, with at least one of
    the two set.  When the row stores neither, the menu has no site
    section and no button, although for a site of the directory the screen
    behind the button would show the directory's contact or gate code. *)
Theorem site_info_button now id w j pc si kb :
  db w !! id = Some j →
  emp_job_menu now id w = RMenu pc si kb →
  let stored := PyStr.truthy (contact j) || PyStr.truthy (gate_code j) in
  (ActSiteInfo id ∈ kb ↔ stored = true) ∧
  (stored = true →
     ∃ c g, emp_site_info id w = RSiteInfo c g ∧ si = Some (c, g) ∧
            PyStr.truthy c || PyStr.truthy g = true) ∧
  (stored = false →
     si = None ∧
     (is_Some (site_info_lookup (site_name j)) →
        ∃ c g, emp_site_info id w = RSiteInfo c g ∧
               PyStr.truthy c || PyStr.truthy g = true)).
Proof.
  intros Hj Hmenu stored.
  destruct (menu_buttons now id w pc si kb j Hj Hmenu) as (Hsite & _ & _).
  destruct (emp_job_menu_inv _ _ _ _ _ _ Hmenu) as (j' & Hj' & _ & _ & Hsi & _).
  rewrite Hj in Hj'. injection Hj' as <-. fold stored in Hsi.
  split; [rewrite Hsite; tauto|]. unfold emp_site_info. rewrite Hj. split.
  - intros Hst. rewrite Hst in Hsi.
    eexists _, _. split; [done|]. split; [by rewrite Hsi, <- surjective_pairing|].
    by apply update_site_info_keeps.
  - intros Hst. rewrite Hst in Hsi. split; [done|]. intros [info Hinfo].
    eexists _, _. split; [done|]. unfold update_site_info. rewrite Hinfo.
    destruct (site_info_values _ _ Hinfo) as (Hc & Hg & [[c Ec]|[g Eg]]).
    + rewrite Ec. cbn [fst]. by rewrite (Hc c Ec).
    + rewrite Eg. cbn [snd]. rewrite (Hg g Eg). apply orb_true_r.
Qed.

Lemma site_info_button_witness :
  (∃ pc kb, emp_job_menu Sample.t0930 9 world_wessex = RMenu pc None kb ∧
            ActSiteInfo 9 ∉ kb) ∧
  emp_site_info 9 world_wessex = RSiteInfo None (Some "5969").
Proof.
  split; [|reflexivity].
  destruct (site_info_button Sample.t0930 9 world_wessex wessex_job _ _ _ eq_refl eq_refl)
    as (Hbutton & _ & _).
  eexists _, _. split; [reflexivity|]. intros Hin. by apply Hbutton in Hin.
Defined.

(** X19: the "View Today's Photos" button of a job that has no finish time
    and the grid behind it.  The button is on the menu exactly when the job
    has photos of today, the number on it is the number of photos the grid
    is opened with, and without photos of today the grid answers "No
    Photos". *)
Theorem menu_photo_button_matches_grid now id w j pc si kb :
  db w !! id = Some j →
  emp_job_menu now id w = RMenu pc si kb →
  PyStr.truthy (finish_time j) = false →
  (0 < pc ↔ ActViewPhotos id pc ∈ kb) ∧
  (∀ k n, ActViewPhotos k n ∈ kb →
     k = id ∧
     ∃ paths, (view_job_photos_grid now id w).1 = PhotoGrid (date_isoformat now) paths ∧
              length paths = n) ∧
  (pc = 0 → (view_job_photos_grid now id w).1 = NoPhotos (date_isoformat now)).
Proof.
  intros Hj Hmenu Hfin.
  destruct (menu_buttons now id w pc si kb j Hj Hmenu) as (_ & _ & Hview).
  destruct (emp_job_menu_inv _ _ _ _ _ _ Hmenu) as (j' & Hj' & _ & Hpc & _).
  rewrite Hj in Hj'. injection Hj' as <-.
  assert (photo_date_of (finish_time j) now = date_isoformat now) as Hdate
    by (unfold photo_date_of; by rewrite Hfin).
  unfold view_job_photos_grid. rewrite Hj. cbv zeta. rewrite Hdate.
  unfold count_photos_for_date in Hpc.
  split; [rewrite Hview; naive_solver|]. split.
  - intros k n (-> & -> & Hpos)%Hview. split; [done|].
    rewrite bool_decide_eq_false_2 by (intros E; rewrite E in Hpc; simpl in Hpc; lia).
    eexists. split; [done|]. by rewrite Hpc.
  - intros ->. symmetry in Hpc. apply length_zero_iff_nil in Hpc.
    by rewrite bool_decide_eq_true_2.
Qed.

Lemma menu_photo_button_matches_grid_witness :
  ∃ paths,
    (view_job_photos_grid Sample.t1000 42 Sample.world_full).1
      = PhotoGrid (date_isoformat Sample.t1000) paths ∧
    length paths = 25.
Proof.
  assert (∃ si kb, emp_job_menu Sample.t1000 42 Sample.world_full = RMenu 25 si kb)
    as (si & kb & Hmenu) by (eexists _, _; vm_compute; reflexivity).
  destruct (menu_photo_button_matches_grid Sample.t1000 42 Sample.world_full
              Sample.full_job 25 si kb eq_refl Hmenu eq_refl) as (Hpos & Hgrid & _).
  destruct (Hgrid 42%Z 25) as [_ Hpaths]; [apply Hpos; lia|]. exact Hpaths.
Defined.

End menu_screen_facts.

(** ** Walking through photos *)

Section viewer_facts.
Implicit Types (w : World) (l : list string) (i p id : Z).

Lemma viewer_open_index l id w i :
  viewer_open l id w →
  viewer_open l id (with_user_data (<["current_photo_index" := VInt i]> (user_data w)) w).
Proof.
  intros (Hl & Hid & Hdb). unfold viewer_open, get_job_photos in *.
  cbn [user_data db with_user_data]. by rewrite !lookup_insert_ne by done.
Qed.

(** X20: moving through the photos of a job one at a time.  With the
    viewer open on [l], an index inside [l] shows that photo, numbered
    [i+1] of [len l], with "Previous" unless it is the first and "Next"
    unless it is the last, or "Photo Error" when its file is missing; the
    viewer stays open on the same photos and the table and the files are
    untouched.  An index outside [l] is answered with "Invalid photo
    navigation" and changes nothing. *)
Theorem photo_navigation_walk l id w i :
  viewer_open l id w →
  let len := Z.of_nat (length l) in
  let r := handle_photo_navigation i w in
  ((0 ≤ i < len)%Z →
     ∃ path, l !! Z.to_nat i = Some path ∧
             r.1 = (if bool_decide (path ∈ files w)
                    then RPhoto path i len (bool_decide (0 < i)%Z)
                           (bool_decide (i < len - 1)%Z)
                    else RPhotoError) ∧
             viewer_open l id r.2 ∧ db r.2 = db w ∧ files r.2 = files w) ∧
  (¬ (0 ≤ i < len)%Z → r = (RInvalidNavigation, w)).
Proof.
  intros Hopen len r. pose proof Hopen as (Hl & Hid & [j Hj]).
  subst r. unfold handle_photo_navigation. rewrite Hl. fold len. split.
  - intros Hi.
    assert (l ≠ []) as Hne by (intros ->; simpl in len; lia).
    rewrite bool_decide_eq_false_2 by done.
    rewrite (proj2 (Z.ltb_ge i 0)) by lia.
    rewrite (proj2 (Z.leb_gt len i)) by lia. cbn [orb].
    cbn [user_data db with_user_data]. rewrite lookup_insert_ne, Hid, Hj by done.
    destruct (lookup_lt_is_Some_2 l (Z.to_nat i)) as [path Hpath]; [lia|].
    rewrite Hpath. exists path. split; [done|]. cbn [fst snd]. split; [|split].
    + unfold show_single_photo. cbn [files user_data with_user_data].
      by rewrite lookup_insert_ne, Hid by done.
    + by apply viewer_open_index.
    + done.
  - intros Hi. destruct (decide (l = [])) as [->|Hne]; [done|].
    rewrite bool_decide_eq_false_2 by done. cbn [orb].
    destruct (i <? 0)%Z eqn:E1; [done|]. apply Z.ltb_ge in E1.
    by rewrite (proj2 (Z.leb_le len i)) by lia.
Qed.

Lemma photo_navigation_walk_witness :
  handle_photo_navigation 25 world_viewer = (RInvalidNavigation, world_viewer) ∧
  viewer_open (ref_path <$> Sample.refs25) 42 (handle_photo_navigation 24 world_viewer).2.
Proof.
  assert (viewer_open (ref_path <$> Sample.refs25) 42 world_viewer) as Hopen.
  { split; [reflexivity|]. split; [reflexivity|]. by eexists. }
  split.
  - destruct (photo_navigation_walk _ 42 world_viewer 25 Hopen) as [_ Hout].
    apply Hout. vm_compute. intros [_ Hlt]. discriminate Hlt.
  - destruct (photo_navigation_walk _ 42 world_viewer 24 Hopen) as [Hin _].
    destruct Hin as (path & _ & _ & Hstill & _); [by vm_compute|]. exact Hstill.
Defined.

(** X21: opening the viewer.  For an id SQLite can bind, [view_job_photos]
    answers "No Photos" and changes nothing when the job does not exist or
    has no photo of the effective date; otherwise it opens the viewer on
    exactly the photos of that date, shows the first of them without a
    "Previous" button, and leaves the table and the files as they are.  The
    effective date is today when the finish time is unset and the date of
    the finish time when the bot wrote it.  For an id beyond 64 bits the
    query raises and nothing changes. *)
Theorem view_job_photos_opens_viewer now id w :
  let r := view_job_photos now id w in
  if sqlite_int id then
    match db w !! id with
    | None => r = (RNoPhotos, w)
    | Some j =>
        ∃ date,
          (PyStr.truthy (finish_time j) = false → date = date_isoformat now) ∧
          (∀ t, finish_time j = Some (isoformat t) → valid t = true →
                date = date_isoformat t) ∧
          let l := filter_photos_by_date (photos j) date in
          match l with
          | [] => r = (RNoPhotos, w)
          | first :: _ =>
              viewer_open l id r.2 ∧ db r.2 = db w ∧ files r.2 = files w ∧
              r.1 = (if bool_decide (first ∈ files w)
                     then RPhoto first 0 (Z.of_nat (length l)) false
                            (bool_decide (1 < Z.of_nat (length l))%Z)
                     else RPhotoError)
          end
    end
  else r = (RFault, w).
Proof.
  intros r. subst r. unfold view_job_photos.
  destruct (sqlite_int id); cbn [negb]; [|done].
  destruct (db w !! id) as [j|] eqn:Hj; [|done].
  exists (photo_date_of (finish_time j) now).
  split; [apply photo_date_of_unset|]. split.
  { intros t -> Hvalid. by apply photo_date_of_finished. }
  cbv zeta.
  destruct (PyStr.truthy (photos j)) eqn:Hph; cbn [negb].
  - destruct (filter_photos_by_date _ _) as [|first rest] eqn:Hl; [done|].
    cbn [fst snd db files with_user_data]. split; [|split; [done|split; [done|]]].
    + unfold viewer_open, get_job_photos. cbn [user_data db with_user_data].
      rewrite !lookup_insert_ne, !lookup_insert_eq by done.
      rewrite lookup_insert_ne, lookup_insert_eq by done. split; [done|]. split; [done|].
      by eexists.
    + unfold show_single_photo. cbn [files user_data with_user_data].
      rewrite lookup_insert_ne, lookup_insert_eq by done.
      case_bool_decide; [|done]. f_equal. apply bool_decide_ext. lia.
  - unfold filter_photos_by_date. by rewrite Hph.
Qed.

End viewer_facts.

(** ** The photo grid *)

Section grid_facts.
Implicit Types (w : World) (l : list string) (p : Z) (dir : bool).

(** A page of the grid is a block of ten consecutive photos. *)
Lemma current_photos_block l p :
  (0 ≤ p)%Z → current_photos l p = take 10 (drop (10 * Z.to_nat p) l).
Proof.
  intros Hp. unfold current_photos, py_slice, py_bound, photos_per_page.
  set (len := Z.of_nat (length l)).
  rewrite (proj2 (Z.ltb_ge (p * 10) 0)) by lia.
  rewrite (proj2 (Z.ltb_ge (Z.min (p * 10 + 10) len) 0)) by lia.
  replace (Z.min (Z.min (p * 10 + 10) len) len) with (Z.min (p * 10 + 10) len) by lia.
  destruct (decide (p * 10 + 10 ≤ len)%Z) as [Hfull|Hpart].
  - replace (Z.to_nat (Z.min (p * 10 + 10) len - Z.min (p * 10) len)) with 10 by lia.
    do 2 f_equal. lia.
  - destruct (decide (p * 10 ≤ len)%Z) as [Hin|Hout].
    + replace (Z.to_nat (Z.min (p * 10) len)) with (10 * Z.to_nat p) by lia.
      rewrite !take_ge; [done| |]; rewrite length_drop; lia.
    + replace (Z.to_nat (Z.min (p * 10 + 10) len - Z.min (p * 10) len)) with 0 by lia.
      rewrite (drop_ge l (10 * Z.to_nat p)) by lia. done.
Qed.

Lemma blocks_concat {A} (l : list A) n :
  concat ((λ k, take 10 (drop (10 * k) l)) <$> seq 0 n) = take (10 * n) l.
Proof.
  induction n as [|n IH]; [done|].
  rewrite seq_S, fmap_app, concat_app, IH.
  replace (10 * S n) with (10 * n + 10) by lia.
  rewrite <- take_take_drop. f_equal.
  cbn [fmap list_fmap concat]. by rewrite app_nil_r.
Qed.

Lemma filter_all {A} (P : A → Prop) `{∀ x, Decision (P x)} (l : list A) :
  (∀ x, x ∈ l → P x) → filter P l = l.
Proof.
  induction l as [|x l IH]; [done|]. intros Hall.
  rewrite filter_cons_True by (apply Hall; by left).
  f_equal. apply IH. intros y Hy. apply Hall. by right.
Qed.

Lemma total_pages_bounds n :
  (0 ≤ n)%Z →
  (0 ≤ total_pages n ∧ n ≤ 10 * total_pages n ∧ 10 * total_pages n < n + 10 ∧
   n `div` 10 ≤ total_pages n ≤ n `div` 10 + 1)%Z.
Proof.
  intros Hn. unfold total_pages, photos_per_page.
  case_bool_decide; Z.div_mod_to_equations; lia.
Qed.

(** X22: the pages of the grid partition the photos.  Put one after the
    other, the photos of the pages 0 to [total_pages - 1] are the photos of
    the viewer, in their order and each once; every one of these pages has
    between one and ten photos, and every later page is empty. *)
Theorem photo_grid_pages_partition l :
  let pages := total_pages (Z.of_nat (length l)) in
  concat ((λ k : nat, current_photos l (Z.of_nat k)) <$> seq 0 (Z.to_nat pages)) = l ∧
  (∀ p, (0 ≤ p < pages)%Z →
        0 < length (current_photos l p) ≤ 10) ∧
  (∀ p, (pages ≤ p)%Z → current_photos l p = []).
Proof.
  intros pages.
  destruct (total_pages_bounds (Z.of_nat (length l))) as (H0 & Hup & Hlow & _); [lia|].
  fold pages in H0, Hup, Hlow. split; [|split].
  - erewrite list_fmap_ext; [rewrite (blocks_concat l)|].
    + apply take_ge. lia.
    + intros _ k _. rewrite current_photos_block by lia. do 2 f_equal. lia.
  - intros p Hp. rewrite current_photos_block by lia.
    rewrite length_take, length_drop. lia.
  - intros p Hp. rewrite current_photos_block by lia.
    rewrite (drop_ge l) by lia. done.
Qed.

Lemma send_photo_grid_page dir w l p :
  get_job_photos (user_data w) = Some l → l ≠ [] →
  get_grid_page (user_data w) = Some p →
  send_photo_grid dir w =
    let media := filter (λ path, PyStr.strip path ∈ files w) (current_photos l p) in
    let pages := total_pages (Z.of_nat (length l)) in
    if bool_decide (media = []) then RPhotoError
    else RGrid media p pages (bool_decide (0 < p)%Z) (bool_decide (p < pages - 1)%Z) dir.
Proof.
  intros Hl Hne Hp. unfold send_photo_grid. rewrite Hl, Hp.
  by rewrite bool_decide_eq_false_2.
Qed.

Lemma get_grid_page_insert (u : gmap string value) p :
  get_grid_page (<["current_page" := VInt p]> u) = Some p.
Proof. unfold get_grid_page. by rewrite lookup_insert_eq. Qed.

Lemma get_job_photos_page (u : gmap string value) p :
  get_job_photos (<["current_page" := VInt p]> u) = get_job_photos u.
Proof. unfold get_job_photos. by rewrite lookup_insert_ne. Qed.

(** X23: turning to a page of the grid.  For a page number from 0 to
    [total_pages - 1] the navigation is accepted, the page becomes the
    current page, and the screen carries the photos of that block of ten
    that exist on disk, with "Previous" unless it is the first page and
    "Next" unless it is the last; when none of them exists the answer is
    "Photo Error".  The photos of the viewer stay, so navigation can go on,
    and with all files on disk the whole block is shown. *)
Theorem photo_grid_navigation dir l w p :
  get_job_photos (user_data w) = Some l →
  let pages := total_pages (Z.of_nat (length l)) in
  (0 ≤ p < pages)%Z →
  let w' := with_user_data (<["current_page" := VInt p]> (user_data w)) w in
  let block := take 10 (drop (10 * Z.to_nat p) l) in
  let media := filter (λ path, PyStr.strip path ∈ files w) block in
  block ≠ [] ∧
  handle_photo_grid_navigation dir p w =
    (if bool_decide (media = []) then RPhotoError
     else RGrid media p pages (bool_decide (0 < p)%Z) (bool_decide (p < pages - 1)%Z) dir,
     w') ∧
  get_job_photos (user_data w') = Some l ∧
  ((∀ path, path ∈ l → PyStr.strip path ∈ files w) → media = block).
Proof.
  intros Hl pages Hp w' block media.
  destruct (total_pages_bounds (Z.of_nat (length l))) as (H0 & Hup & Hlow & Hdiv); [lia|].
  fold pages in H0, Hup, Hlow, Hdiv.
  assert (l ≠ []) as Hne.
  { intros E. assert (length l = 0) by (by rewrite E). lia. }
  assert (block ≠ []) as Hblock.
  { intros E. apply (f_equal length) in E. unfold block in E.
    rewrite length_take, length_drop in E. cbn [length] in E. lia. }
  split; [exact Hblock|]. split; [|split].
  - unfold handle_photo_grid_navigation. rewrite Hl.
    rewrite bool_decide_eq_false_2 by done.
    rewrite (proj2 (Z.ltb_ge p 0)) by lia.
    rewrite (proj2 (Z.leb_gt _ p)) by lia. cbn [orb]. fold w'.
    rewrite (send_photo_grid_page dir w' l p);
      [|by unfold w'; cbn [user_data with_user_data]; rewrite get_job_photos_page
       |done
       |by unfold w'; cbn [user_data with_user_data]; rewrite get_grid_page_insert].
    cbv zeta. rewrite current_photos_block by lia. done.
  - unfold w'. cbn [user_data with_user_data]. by rewrite get_job_photos_page.
  - intros Hall. unfold media. apply filter_all.
    intros path Hin. apply Hall. unfold block in Hin.
    by apply subseteq_take, subseteq_drop in Hin.
Qed.

Lemma photo_grid_navigation_witness :
  get_job_photos
    (user_data (with_user_data (<["current_page" := VInt 2]> (user_data world_viewer))
                  world_viewer))
  = Some (ref_path <$> Sample.refs25).
Proof.
  destruct (photo_grid_navigation false (ref_path <$> Sample.refs25) world_viewer 2 eq_refl)
    as (_ & _ & Hstay & _); [by vm_compute|]. exact Hstay.
Defined.

(** X24: the bounds test of the grid navigation.  Page numbers below 0 and
    above [len // 10] are answered with "Invalid page navigation" and change
    nothing.  When the number of photos is not a multiple of ten, the page
    numbers the test lets through are the pages of the grid.  When it is a
    multiple of ten, the test lets one more through: the page after the last
    becomes the current page although it has no photo, and the answer is
    "Photo Error". *)
Theorem photo_grid_bounds_test dir l w :
  get_job_photos (user_data w) = Some l → l ≠ [] →
  let len := Z.of_nat (length l) in
  let pages := total_pages len in
  (∀ p, (p < 0 ∨ len `div` 10 < p)%Z →
        handle_photo_grid_navigation dir p w = (RInvalidNavigation, w)) ∧
  ((len `mod` 10 ≠ 0)%Z → pages = (len `div` 10 + 1)%Z) ∧
  ((len `mod` 10 = 0)%Z →
     pages = (len `div` 10)%Z ∧ current_photos l pages = [] ∧
     handle_photo_grid_navigation dir pages w =
       (RPhotoError, with_user_data (<["current_page" := VInt pages]> (user_data w)) w)).
Proof.
  intros Hl Hne len pages. split; [|split].
  - intros p Hp. unfold handle_photo_grid_navigation. rewrite Hl. fold len.
    rewrite bool_decide_eq_false_2 by done. cbn [orb].
    destruct (p <? 0)%Z eqn:E; [done|]. apply Z.ltb_ge in E. cbn [orb].
    by rewrite (proj2 (Z.leb_le _ p)) by lia.
  - intros Hmod. unfold pages, total_pages, photos_per_page.
    by rewrite bool_decide_eq_false_2.
  - intros Hmod.
    assert (pages = (len `div` 10)%Z) as Hpages.
    { unfold pages, total_pages, photos_per_page.
      rewrite bool_decide_eq_true_2 by done. lia. }
    assert (0 ≤ pages)%Z as H0 by (rewrite Hpages; apply Z.div_pos; lia).
    assert (current_photos l pages = []) as Hempty.
    { rewrite current_photos_block by done. rewrite (drop_ge l); [done|].
      assert (len = 10 * pages)%Z by (rewrite Hpages; Z.div_mod_to_equations; lia).
      lia. }
    split; [exact Hpages|]. split; [exact Hempty|].
    unfold handle_photo_grid_navigation. rewrite Hl. fold len.
    rewrite bool_decide_eq_false_2 by done.
    rewrite (proj2 (Z.ltb_ge pages 0)) by lia.
    rewrite (proj2 (Z.leb_gt _ pages)) by lia. cbn [orb].
    rewrite (send_photo_grid_page dir _ l pages);
      [|by cbn [user_data with_user_data]; rewrite get_job_photos_page
       |done
       |by cbn [user_data with_user_data]; rewrite get_grid_page_insert].
    cbv zeta. by rewrite Hempty.
Qed.

Lemma photo_grid_bounds_test_witness :
  handle_photo_grid_navigation false 3 world_viewer20 = (RInvalidNavigation, world_viewer20).
Proof.
  assert (take 20 (ref_path <$> Sample.refs25) ≠ []) as Hne by (by vm_compute).
  destruct (photo_grid_bounds_test false (take 20 (ref_path <$> Sample.refs25))
              world_viewer20 eq_refl Hne) as (Hout & _ & _).
  apply Hout. right. by vm_compute.
Defined.

(** X25: opening the grid.  When [view_job_photos_grid] finds photos of the
    effective date, the grid that is sent is page 0: the first ten of these
    photos that exist on disk, no "Previous" button, and "Next" exactly when
    there are more than ten photos; if none of the ten exists the answer is
    "Photo Error". *)
Theorem view_job_photos_grid_first_page now dir id w date paths :
  (view_job_photos_grid now id w).1 = PhotoGrid date paths →
  let w' := (view_job_photos_grid now id w).2 in
  let media := filter (λ path, PyStr.strip path ∈ files w) (take 10 paths) in
  paths ≠ [] ∧
  send_photo_grid dir w' =
    (if bool_decide (media = []) then RPhotoError
     else RGrid media 0 (total_pages (Z.of_nat (length paths))) false
            (bool_decide (10 < length paths)) dir).
Proof.
  intros Hgrid w' media. subst w'. revert Hgrid. unfold view_job_photos_grid.
  destruct (db w !! id) as [j|]; [|done]. cbv zeta.
  case_bool_decide as Hnil; [done|]. cbn [fst snd]. intros [= <- <-].
  split; [done|].
  set (l := filter_photos_by_date _ _) in *.
  rewrite (send_photo_grid_page dir _ l 0); [|
    by unfold get_job_photos; cbn [user_data with_user_data];
       rewrite !lookup_insert_ne, lookup_insert_eq by done
    |done|
    by unfold get_grid_page; cbn [user_data with_user_data];
       rewrite !lookup_insert_ne, lookup_insert_eq by done].
  cbv zeta. rewrite current_photos_block by done. cbn [files with_user_data].
  change (drop (10 * Z.to_nat 0) l) with l. fold media.
  case_bool_decide; [done|]. f_equal.
  destruct (total_pages_bounds (Z.of_nat (length l))) as (_ & Hup & Hlow & _); [lia|].
  apply bool_decide_ext. lia.
Qed.

Lemma view_job_photos_grid_first_page_witness :
  ∃ r, send_photo_grid false (view_job_photos_grid Sample.t1000 42 Sample.world_full).2 = r.
Proof.
  assert (∃ paths, (view_job_photos_grid Sample.t1000 42 Sample.world_full).1
                   = PhotoGrid (date_isoformat Sample.t1000) paths)
    as [paths Hgrid] by (eexists; vm_compute; reflexivity).
  destruct (view_job_photos_grid_first_page Sample.t1000 false 42 Sample.world_full
              _ paths Hgrid) as [_ Hsend].
  eexists. exact Hsend.
Defined.

End grid_facts.

(** ** Dispatch of the callback tokens *)

Section dispatch_facts.
Implicit Types (data family : string) (h : handler) (n : Z).

Lemma digit_val_pretty_N_char (x : N) :
  (x < 10)%N → digit_val (pretty_N_char x) = Some x.
Proof.
  intros H.
  assert (x ∈ [0; 1; 2; 3; 4; 5; 6; 7; 8; 9]%N) as Hx
    by (rewrite !elem_of_cons; lia).
  repeat (apply elem_of_cons in Hx as [->|Hx]; [reflexivity|]).
  by apply elem_of_nil in Hx.
Qed.

Lemma parse_digits_pretty_N_go (x : N) :
  ∀ s, parse_digits 0 (pretty_N_go x s) = parse_digits x s.
Proof.
  induction (N.lt_wf_0 x) as [x _ IH]; intros s.
  assert (x = 0 ∨ 0 < x)%N as [->|Hpos] by lia; [by rewrite pretty_N_go_0|].
  rewrite pretty_N_go_step by done. rewrite IH by (by apply N.div_lt).
  cbn [parse_digits]. rewrite digit_val_pretty_N_char by (apply N.mod_lt; lia).
  cbn [mbind option_bind]. f_equal. symmetry. apply N.div_mod. lia.
Qed.

Lemma pretty_N_go_head (x : N) :
  ∀ s, (0 < x)%N → ∃ c s', pretty_N_go x s = String c s' ∧ digit_val c ≠ None.
Proof.
  induction (N.lt_wf_0 x) as [x _ IH]; intros s Hpos.
  rewrite pretty_N_go_step by done.
  destruct (decide (x `div` 10 = 0)%N) as [E|E].
  - rewrite E, pretty_N_go_0. eexists _, _. split; [done|apply pretty_N_char_digit].
  - apply IH; [by apply N.div_lt|by apply N.neq_0_lt_0].
Qed.

Lemma py_int_digits c s :
  digit_val c ≠ None → py_int (String c s) = Z.of_N <$> parse_digits 0 (String c s).
Proof.
  intros H. destruct c as [[] [] [] [] [] [] [] []];
    first [reflexivity | exfalso; apply H; reflexivity].
Qed.

(** [int(str(z)) == z]: the decimal text of an integer reads back as it. *)
Lemma py_int_pretty n : py_int (pretty n) = Some n.
Proof.
  destruct n as [|x|x]; [reflexivity| |].
  - change (pretty (Z.pos x)) with (pretty_N_go (N.pos x) "").
    destruct (pretty_N_go_head (N.pos x) "") as (c & s' & E & Hc); [lia|].
    rewrite E, py_int_digits, <- E by done.
    by rewrite parse_digits_pretty_N_go.
  - change (pretty (Z.neg x)) with ("-" +:+ pretty_N_go (N.pos x) "").
    rewrite str_app_cons, str_app_nil_l.
    destruct (pretty_N_go_head (N.pos x) "") as (c & s' & E & Hc); [lia|].
    rewrite E. change (py_int (String "-" (String c s')))
      with ((λ m, (- Z.of_N m)%Z) <$> parse_digits 0 (String c s')).
    rewrite <- E. by rewrite parse_digits_pretty_N_go.
Qed.

Lemma pretty_Z_head n : ∃ c s, pretty n = String c s ∧ c ≠ "w"%char.
Proof.
  destruct (pretty n) as [|c s] eqn:E.
  - pose proof (py_int_pretty n) as H. by rewrite E in H.
  - exists c, s. split; [done|]. intros ->.
    assert (PyStr.contains "w" (pretty n) = false) as H by (by apply pretty_Z_no_char).
    rewrite E, char_in_cons in H.
    rewrite bool_decide_eq_true_2 in H by done. discriminate H.
Qed.

Lemma prefix_app_both p a b : String.prefix (p +:+ a) (p +:+ b) = String.prefix a b.
Proof.
  induction p as [|x p IH]; [by rewrite !str_app_nil_l|].
  rewrite !str_app_cons, prefix_cons, IH. by rewrite bool_decide_eq_true_2.
Qed.

(** [int(data.split("_")[-1])] finds the integer a token ends with. *)
Lemma callback_arg_token family n :
  (∃ stem, family = stem +:+ "_") → callback_arg (token family n) = Some n.
Proof.
  intros [stem ->]. unfold callback_arg, token.
  rewrite str_app_assoc, str_app_cons, str_app_nil_l, split_app_sep.
  rewrite (split_nosep "_" (pretty n)) by (by apply pretty_Z_no_char).
  rewrite last_snoc. cbn [mbind option_bind]. apply py_int_pretty.
Qed.

(** X26: every button reaches its handler with its argument.  For each
    family of tokens the buttons carry and every integer, negative ones
    included, the dispatcher hands the token to the handler the button is
    meant for, no earlier branch taking it, and the handler reads the
    integer back from the token. *)
Theorem button_tokens_round_trip family h n :
  (family, h) ∈ button_families →
  callback_handler (token family n) = h ∧ callback_arg (token family n) = Some n.
Proof.
  intros Hin. destruct (pretty_Z_head n) as (c & s & E & Hc).
  assert (String.prefix "start_job_with_notes_" ("start_job_" +:+ String c s) = false)
    as Hw.
  { change "start_job_with_notes_" with ("start_job_" +:+ "with_notes_").
    rewrite prefix_app_both, prefix_cons. by rewrite bool_decide_eq_false_2 by done. }
  rewrite !str_app_cons, str_app_nil_l in Hw.
  unfold button_families in Hin.
  repeat (apply elem_of_cons in Hin as [Hin|Hin];
          [injection Hin as -> ->; split;
           [unfold token; rewrite E; unfold callback_handler, exact_handlers, prefix_handlers;
            rewrite !str_app_cons, str_app_nil_l; cbn [first_match];
            rewrite ?Hw; reflexivity
           |apply callback_arg_token;
            match goal with
            | |- ∃ stem, ?f = _ =>
                exists (String.substring 0 (String.length f - 1) f); reflexivity
            end]|]).
  by apply elem_of_nil in Hin.
Qed.

Lemma button_tokens_round_trip_witness :
  callback_handler (token "assign_to_" (-7747082939)) = H_assign_jobs_to_employee ∧
  callback_arg (token "assign_to_" (-7747082939)) = Some (-7747082939)%Z.
Proof.
  apply button_tokens_round_trip. unfold button_families.
  do 17 (apply elem_of_cons; right). apply elem_of_cons. by left.
Defined.

Lemma first_match_effective test chain :
  ∀ seen, (∀ key, existsb (String.eqb key) seen = true → test key = false) →
          first_match test (effective seen chain) = first_match test chain.
Proof.
  induction chain as [|[key h] chain IH]; intros seen Hseen; [done|].
  cbn [effective first_match].
  destruct (existsb (String.eqb key) seen) eqn:E.
  - rewrite (Hseen key E). by apply IH.
  - cbn [first_match]. destruct (test key) eqn:Ht; [done|]. apply IH.
    intros key' Hk. cbn [existsb] in Hk. apply orb_true_iff in Hk as [Hk|Hk].
    + apply String.eqb_eq in Hk as ->. exact Ht.
    + by apply Hseen.
Qed.

Lemma first_match_elem test chain h :
  first_match test chain = Some h → h ∈ chain.*2.
Proof.
  induction chain as [|[key h'] chain IH]; [done|]. cbn [first_match].
  destruct (test key).
  - intros [= ->]. by left.
  - intros H. right. by apply IH.
Qed.

(** X27: branches of the dispatcher that are never taken.  Whatever the
    token, the dispatcher never calls [JobHandler.add_note] nor
    [JobHandler.add_note_to_job]: their tests repeat the test of an earlier
    branch, so every token starting with [add_note_] goes to
    [prepare_add_note]. *)
Theorem callback_handler_dead_branches data :
  callback_handler data ≠ H_job_add_note ∧
  callback_handler data ≠ H_job_add_note_to_job.
Proof.
  unfold callback_handler.
  destruct (first_match _ exact_handlers) as [h|] eqn:Hexact.
  - apply first_match_elem in Hexact. unfold exact_handlers in Hexact.
    cbn [fmap list_fmap snd] in Hexact.
    repeat (apply elem_of_cons in Hexact as [->|Hexact]; [done|]).
    by apply elem_of_nil in Hexact.
  - rewrite <- (first_match_effective _ prefix_handlers []) by done.
    destruct (first_match _ (effective [] prefix_handlers)) as [h|] eqn:Hprefix.
    + apply first_match_elem in Hprefix.
      let l := eval vm_compute in ((effective [] prefix_handlers).*2) in
      change ((effective [] prefix_handlers).*2) with l in Hprefix.
      repeat (apply elem_of_cons in Hprefix as [->|Hprefix]; [done|]).
      by apply elem_of_nil in Hprefix.
    + by destruct (String.eqb data "noop").
Qed.

End dispatch_facts.

(** ** The completed jobs of an employee *)

Section completed_facts.
Implicit Types (w : World) (d : gmap Z Job) (e id : Z) (j : Job).

#[local] Instance text_le_trans : Transitive text_le.
Proof.
  intros [x|] [y|] [z|]; simpl; try done. intros. by transitivity y.
Qed.

#[local] Instance text_le_total : Total text_le.
Proof. intros [x|] [y|]; simpl; auto. apply total, _. Qed.

#[local] Instance by_finish_desc_trans : Transitive by_finish_desc.
Proof. unfold by_finish_desc. intros a b c Hab Hbc. by etransitivity. Qed.

#[local] Instance by_finish_desc_total : Total by_finish_desc.
Proof. unfold by_finish_desc. intros a b. apply total, _. Qed.

(** X28: the list of completed jobs the director sees for an employee.
    For an employee id SQLite can bind, it has at most twenty rows, each a
    different job that is completed and assigned to that employee, ordered
    by the text of the finish time from the latest to the earliest with the
    rows without finish time last; "No Completed Jobs" is shown exactly
    when the employee has no completed job.  For an employee id beyond 64
    bits the query raises. *)
Theorem director_view_completed_jobs_rows e w :
  if sqlite_int e then
    match director_view_completed_jobs e w with
    | RNoJobs =>
        ∀ id j, db w !! id = Some j → assigned_to j = Some e →
                status j ≠ Some "completed"
    | RJobList rows =>
        0 < length rows ≤ 20 ∧ NoDup rows.*1 ∧
        (∀ id j, (id, j) ∈ rows →
           db w !! id = Some j ∧ assigned_to j = Some e ∧ status j = Some "completed") ∧
        StronglySorted by_finish_desc rows
    | _ => False
    end
  else director_view_completed_jobs e w = RFault.
Proof.
  unfold director_view_completed_jobs, completed_jobs_of.
  destruct (sqlite_int e); cbn [negb]; [|done].
  set (found := filter _ (map_to_list (db w))).
  assert (∀ id j, (id, j) ∈ merge_sort by_finish_desc found ↔
                  db w !! id = Some j ∧ assigned_to j = Some e ∧
                  status j = Some "completed") as Hfound.
  { intros id j. rewrite merge_sort_Permutation. unfold found.
    rewrite list_elem_of_filter, elem_of_map_to_list. simpl. tauto. }
  assert (NoDup (merge_sort by_finish_desc found).*1) as Hnodup.
  { rewrite merge_sort_Permutation. unfold found.
    eapply sublist_NoDup; [apply (NoDup_fst_map_to_list (db w))|].
    apply fmap_sublist, sublist_filter. }
  assert (StronglySorted by_finish_desc (merge_sort by_finish_desc found)) as Hsorted
    by (apply StronglySorted_merge_sort; apply _).
  destruct (merge_sort by_finish_desc found) as [|r rest] eqn:Hrows.
  - rewrite bool_decide_eq_true_2 by done.
    intros id j Hj Ha Hs. apply (elem_of_nil (id, j)). by apply Hfound.
  - rewrite bool_decide_eq_false_2 by done. split; [|split; [|split]].
    + rewrite length_take. cbn [length]. lia.
    + eapply sublist_NoDup; [exact Hnodup|]. apply fmap_sublist, sublist_take.
    + intros id j Hin%subseteq_take. by apply Hfound.
    + rewrite <- (take_drop 20 (r :: rest)) in Hsorted.
      by apply StronglySorted_app_1_l in Hsorted.
Qed.

(** X29: the photo count next to a completed job and the job card behind
    it.  For a job whose finish time the bot wrote, the number of photos
    the completed list shows is the number of photos on the job card the
    director opens from it, both being the photos of the day the job was
    finished, whatever day it is now. *)
Theorem completed_count_matches_job_card now id w j t :
  db w !! id = Some j →
  finish_time j = Some (isoformat t) → valid t = true →
  ∃ paths,
    director_send_job now id w = (JobCard (date_isoformat t) paths, w) ∧
    completed_photo_count j = length paths.
Proof.
  intros Hj Hfin Hvalid.
  exists (filter_photos_by_date (photos j) (date_isoformat t)). split.
  - unfold director_send_job. rewrite Hj. cbv zeta.
    by rewrite Hfin, photo_date_of_finished.
  - unfold completed_photo_count. rewrite Hfin, truthy_isoformat.
    cbn [mbind option_bind]. by rewrite fromisoformat_isoformat.
Qed.

Lemma completed_count_matches_job_card_witness :
  ∃ paths,
    director_send_job Sample.next_day 42 (Sample.world Sample.db_completed ∅)
      = (JobCard (date_isoformat Sample.t0930) paths,
         Sample.world Sample.db_completed ∅) ∧
    completed_photo_count Sample.completed_job = length paths.
Proof.
  exact (completed_count_matches_job_card Sample.next_day 42
           (Sample.world Sample.db_completed ∅) Sample.completed_job Sample.t0930
           eq_refl eq_refl eq_refl).
Defined.

End completed_facts.
